(** * SAC waveform files: detection, reading and writing (obspy.sac.core)

    A shallow embedding of [obspy/sac/core.py]: the format detector [isSAC],
    the reader [readSAC] and the writer [writeSAC], together with models of
    the collaborators that module calls (the [ReadSac] header object, the
    time stamps and the trace container). *)

From Stdlib Require Import ZArith Lia List String Ascii DecimalString DecimalNat.
From coqutil Require Import Byte Word.LittleEndianList.
From stdpp Require Import gmap strings list.

Local Open Scope string_scope.
Local Open Scope Z_scope.

(** ** Exceptions and results *)

(** The Python exceptions that the modelled code can raise. *)
Inductive exn : Type :=
  | IOError
  | OSError
  | StructError
  | KeyError
  | AttributeError
  | TypeError
  | ValueError
  | SacError
  | NotImplementedError.

Inductive result (A : Type) : Type :=
  | Ok (a : A)
  | Err (e : exn).
Arguments Ok {A} a.
Arguments Err {A} e.

#[export] Instance result_ret : MRet result := fun _ a => Ok a.
#[export] Instance result_bind : MBind result := fun _ _ f m =>
  match m with
  | Ok a => f a
  | Err e => Err e
  end.

(** [try: ... except: pass] around a statement that updates [s]: whatever is
    raised, the state from before the statement is kept. *)
Definition try_pass {S : Type} (s : S) (m : result S) : S :=
  match m with
  | Ok s' => s'
  | Err _ => s
  end.

(** [try: ... except KeyError: pass]: only [KeyError] is swallowed. *)
Definition try_pass_KeyError {S : Type} (s : S) (m : result S) : result S :=
  match m with
  | Ok s' => Ok s'
  | Err KeyError => Ok s
  | Err e => Err e
  end.

(** ** Bytes, 32-bit words and [struct.unpack] *)

Inductive byteorder : Type := LittleEndian | BigEndian.

(** Two's complement reading of an unsigned 32-bit number. *)
Definition signed32 (u : Z) : Z :=
  if u <? 2 ^ 31 then u else u - 2 ^ 32.

Definition in_int32 (n : Z) : bool := (- 2 ^ 31 <=? n) && (n <? 2 ^ 31).

(** The unsigned number held by four bytes in the given order. *)
Definition combine32 (o : byteorder) (bs : list byte) : Z :=
  match o with
  | LittleEndian => le_combine bs
  | BigEndian => le_combine (rev bs)
  end.

(** [struct.unpack('<i', data)[0]] and [struct.unpack('>i', data)[0]]:
    [struct.error] unless [data] has exactly four bytes. *)
Definition struct_unpack_i (o : byteorder) (data : list byte) : result Z :=
  if (length data =? 4)%nat then Ok (signed32 (combine32 o data))
  else Err StructError.

(** ** Files *)

(** The file system: the content of every file that can be opened. *)
Abbreviation filesystem := (gmap string (list byte)).

(** An open file: its content and the read position. *)
Record file : Type := mkfile { content : list byte; pos : nat }.

Definition open_rb (fs : filesystem) (filename : string) : result file :=
  match fs !! filename with
  | Some bs => Ok (mkfile bs 0)
  | None => Err IOError
  end.

(** Seeking past the end is allowed; reading there gives no bytes. *)
Definition seek (f : file) (offset : nat) : file := mkfile (content f) offset.

Definition read (f : file) (n : nat) : list byte * file :=
  let data := take n (drop (pos f) (content f)) in
  (data, mkfile (content f) (pos f + length data)).

(** [os.stat(filename).st_size] *)
Definition os_stat_size (fs : filesystem) (filename : string) : result Z :=
  match fs !! filename with
  | Some bs => Ok (Z.of_nat (length bs))
  | None => Err OSError
  end.

(** ** [isSAC] *)

(** The [try] block of [isSAC]: open, seek, read four bytes, decode them
    little-endian. *)
Definition isSAC_probe (fs : filesystem) (filename : string)
  : result (list byte * Z) :=
  f ← open_rb fs filename;
  (* 70 header floats, 9 position in header integers *)
  let f := seek f (4 * 70 + 4 * 9) in
  let '(data, _) := read f 4 in
  npts ← struct_unpack_i LittleEndian data;
  Ok (data, npts).

Definition isSAC (fs : filesystem) (filename : string) : result bool :=
  match isSAC_probe fs filename with
  | Err _ => Ok false
  | Ok (data, npts) =>
      (* check file size *)
      st_size ← os_stat_size fs filename;
      let sizecheck := st_size - (632 + 4 * npts) in
      if negb (sizecheck =? 0) then
        (* check if file is big-endian *)
        npts ← struct_unpack_i BigEndian data;
        let sizecheck := st_size - (632 + 4 * npts) in
        if negb (sizecheck =? 0) then
          (* File-size and theoretical size inconsistent! *)
          Ok false
        else Ok true
      else Ok true
  end.

(** ** Header values *)

(** A 32-bit header or sample cell, as the four bytes it occupies in a
    little-endian file.  Samples and float fields are IEEE-754 single
    precision numbers; they are carried as their bit pattern. *)
Record word32 : Type := W32 { w0 : byte; w1 : byte; w2 : byte; w3 : byte }.

Definition word_bytes (w : word32) : list byte := [w0 w; w1 w; w2 w; w3 w].

Definition word_unsigned (w : word32) : Z := le_combine (word_bytes w).

Definition word_of_Z (z : Z) : word32 :=
  W32 (byte.of_Z z) (byte.of_Z (Z.shiftr z 8))
      (byte.of_Z (Z.shiftr (Z.shiftr z 8) 8))
      (byte.of_Z (Z.shiftr (Z.shiftr (Z.shiftr z 8) 8) 8)).

Definition word_signed (w : word32) : Z := signed32 (word_unsigned w).

(** The float constants of the source: [-12345.0], [1.0] and [0.0]. *)
Definition f32_sentinel : word32 := W32 Byte.x00 Byte.xe4 Byte.x40 Byte.xc6.
Definition f32_one : word32 := W32 Byte.x00 Byte.x00 Byte.x80 Byte.x3f.
Definition f32_zero : word32 := W32 Byte.x00 Byte.x00 Byte.x00 Byte.x00.

(** The number an IEEE-754 single denotes, as [m * 2 ^ e]; [None] for
    infinities and NaNs. *)
Definition f32_decode (w : word32) : option (Z * Z) :=
  let u := word_unsigned w in
  let sign := u / 2 ^ 31 in
  let expo := (u / 2 ^ 23) mod 2 ^ 8 in
  let frac := u mod 2 ^ 23 in
  if expo =? 255 then None
  else
    let m := if expo =? 0 then frac else 2 ^ 23 + frac in
    let e := if expo =? 0 then -149 else expo - 150 in
    Some (if sign =? 0 then m else - m, e).

(** Python's [x == n] for a single precision [x] and an integer [n]. *)
Definition f32_eq_Z (w : word32) (n : Z) : bool :=
  match f32_decode w with
  | None => false
  | Some (m, e) => if 0 <=? e then m * 2 ^ e =? n else m =? n * 2 ^ (- e)
  end.

(** A header value: a float, an integer or a string.  A float is a single
    precision number, which is what a header holds.  The floats of the trace
    metadata are Python floats in the program; the model has those among
    them that single precision holds exactly, and what is stated about a
    float of the metadata is stated about such a float. *)
Inductive value : Type :=
  | VFloat (w : word32)
  | VInt (n : Z)
  | VStr (s : string).

(** [v == n] for an integer literal [n] (also the float literal [-12345.0],
    which denotes the integer -12345). *)
Definition py_eq_num (v : value) (n : Z) : bool :=
  match v with
  | VFloat w => f32_eq_Z w n
  | VInt m => m =? n
  | VStr _ => false
  end.

(** [str.strip()]: leading and trailing white space removed. *)
Definition is_space (a : ascii) : bool :=
  let n := nat_of_ascii a in
  ((9 <=? n) && (n <=? 13) || (n =? 32))%nat.

Fixpoint lstrip (s : string) : string :=
  match s with
  | EmptyString => EmptyString
  | String a s' => if is_space a then lstrip s' else s
  end.

Fixpoint rstrip (s : string) : string :=
  match s with
  | EmptyString => EmptyString
  | String a s' =>
      match rstrip s' with
      | EmptyString => if is_space a then EmptyString else String a EmptyString
      | r => String a r
      end
  end.

Definition strip (s : string) : string := rstrip (lstrip s).

(** ** The header schema *)

(** Modelled from the spec: the field tables of [obspy.sac.sacio] are not
    part of the sources at hand.  The header has 70 float slots, then 40
    integer slots, then fixed-width strings (632 bytes in all).  The names are
    those of [convert_dict] and [sac_extra]; slots the source never names
    carry a placeholder.  The one position the source fixes is [npts], the
    integer slot number 9. *)
Definition fdict : list string :=
  ["delta"; "depmin"; "depmax"; "scale"; "odelta"; "b"; "e"; "o"; "a";
   "internal1"; "t0"; "t1"; "t2"; "t3"; "t4"; "t5"; "t6"; "t7"; "t8"; "t9";
   "f"; "resp0"; "resp1"; "resp2"; "resp3"; "resp4"; "resp5"; "resp6";
   "resp7"; "resp8"; "resp9"; "stla"; "stlo"; "stel"; "stdp"; "evla"; "evlo";
   "evel"; "evdp"; "mag"; "user0"; "user1"; "user2"; "user3"; "user4";
   "user5"; "user6"; "user7"; "user8"; "user9"; "dist"; "az"; "baz"; "gcarc";
   "internal2"; "internal3"; "depmen"; "cmpaz"; "cmpinc"; "xminimum";
   "xmaximum"; "yminimum"; "ymaximum"; "unused6"; "unused7"; "unused8";
   "unused9"; "unused10"; "unused11"; "unused12"].

(** Modelled from the spec: the 40 integer slots of the header schema. *)
Definition idict : list string :=
  ["nzyear"; "nzjday"; "nzhour"; "nzmin"; "nzsec"; "nzmsec"; "nvhdr";
   "norid"; "nevid"; "npts"; "internal4"; "nwfid"; "nxsize"; "nysize";
   "unused15"; "iftype"; "idep"; "iztype"; "unused16"; "iinst"; "istreg";
   "ievreg"; "ievtype"; "iqual"; "isynth"; "imagtyp"; "imagsrc"; "unused19";
   "unused20"; "unused21"; "unused22"; "unused23"; "unused24"; "unused25";
   "unused26"; "leven"; "lpspol"; "lovrok"; "lcalda"; "unused27"].

(** Modelled from the spec: the string slots of the header schema, with
    their widths in bytes. *)
Definition sdict : list (string * nat) :=
  [("kstnm", 8); ("kevnm", 16); ("khole", 8); ("ko", 8); ("ka", 8);
   ("kt0", 8); ("kt1", 8); ("kt2", 8); ("kt3", 8); ("kt4", 8); ("kt5", 8);
   ("kt6", 8); ("kt7", 8); ("kt8", 8); ("kt9", 8); ("kf", 8); ("kuser0", 8);
   ("kuser1", 8); ("kuser2", 8); ("kcmpnm", 8); ("knetwk", 8); ("kdatrd", 8);
   ("kinst", 8)]%nat.

Definition swidths : list nat := map snd sdict.

(** The position of a name in a table. *)
Fixpoint index_of (name : string) (l : list string) : option nat :=
  match l with
  | [] => None
  | x :: l' => if String.eqb name x then Some 0%nat else S <$> index_of name l'
  end.

(** ** The [ReadSac] object *)

(** Modelled from the spec: class [ReadSac] of [obspy.sac.sacio] is not part
    of the sources at hand.  It holds the raw header as three arrays (float
    slots, integer slots, string slots) and the sample block. *)
Record ReadSac : Type := mkReadSac {
  hf : list word32;
  hi : list word32;
  hs : list string;
  seis : list word32
}.

(** A string filled with blanks to the width of its slot. *)
Definition pad (width : nat) (s : string) : string :=
  s +:+ string_of_list_ascii (replicate (width - String.length s) " "%char).

(** Modelled from the spec: [ReadSac.InitArrays], not in the sources.  A
    fresh header: every slot holds the undefined sentinel of its kind. *)
Definition InitArrays : ReadSac :=
  mkReadSac (replicate 70 f32_sentinel) (replicate 40 (word_of_Z (-12345)))
            (map (fun w => pad w "-12345") swidths) [].

(** Modelled from the spec: [ReadSac.GetHvalue], not in the sources.  Typed
    read of a field by name; [SacError] for a name the header does not
    have. *)
Definition GetHvalue (t : ReadSac) (item : string) : result value :=
  match index_of item fdict with
  | Some i => Ok (VFloat (default f32_sentinel (hf t !! i)))
  | None =>
  match index_of item idict with
  | Some i => Ok (VInt (word_signed (default (word_of_Z (-12345)) (hi t !! i))))
  | None =>
  match index_of item (map fst sdict) with
  | Some i => Ok (VStr (default "" (hs t !! i)))
  | None => Err SacError
  end end end.

(** Modelled from the spec: [ReadSac.SetHvalue], not in the sources.  Typed
    write of a field by name: a value of another kind than the slot's is a
    type error; an integer outside 32 bits or a string wider than the slot
    cannot be encoded.  The setter of the program converts where Python's
    [int()] and [float()] do (lines 184 and 188 of [core.py] hand it a
    string and a float for integer fields); the conversion of a value of
    another kind is not modelled, and what is proved about a field that is
    read back is proved for values of the kind of their slot. *)
Definition SetHvalue (t : ReadSac) (item : string) (v : value)
  : result ReadSac :=
  match index_of item fdict with
  | Some i =>
      match v with
      | VFloat w => Ok (mkReadSac (<[i := w]> (hf t)) (hi t) (hs t) (seis t))
      | _ => Err TypeError
      end
  | None =>
  match index_of item idict with
  | Some i =>
      match v with
      | VInt n =>
          if in_int32 n
          then Ok (mkReadSac (hf t) (<[i := word_of_Z n]> (hi t)) (hs t) (seis t))
          else Err ValueError
      | _ => Err TypeError
      end
  | None =>
  match index_of item (map fst sdict) with
  | Some i =>
      match v with
      | VStr s =>
          let width := default 0%nat (swidths !! i) in
          if (String.length s <=? width)%nat
          then Ok (mkReadSac (hf t) (hi t) (<[i := pad width s]> (hs t)) (seis t))
          else Err ValueError
      | _ => Err TypeError
      end
  | None => Err SacError
  end end end.

(** Modelled from the spec: [ReadSac.fromarray(data, begin, delta)], not in
    the sources.  It fills in the samples, their count, the sample interval
    and the begin offset. *)
Definition fromarray (t : ReadSac) (data : list word32) (begin delta : value)
  : result ReadSac :=
  let t := mkReadSac (hf t) (hi t) (hs t) data in
  t ← SetHvalue t "npts" (VInt (Z.of_nat (length data)));
  t ← SetHvalue t "delta" delta;
  SetHvalue t "b" begin.

(** *** The binary layout *)

(** Modelled from the spec: the 632 bytes of the header (float slots, integer
    slots, strings), then the samples, four bytes each. *)
Definition header_bytes (t : ReadSac) : list byte :=
  concat (map word_bytes (hf t)) ++ concat (map word_bytes (hi t))
  ++ concat (map list_byte_of_string (hs t)).

Definition file_bytes (t : ReadSac) : list byte :=
  header_bytes t ++ concat (map word_bytes (seis t)).

(** Modelled from the spec: [ReadSac.WriteSacBinary], not in the sources.  The
    encoder always writes little-endian; the file replaces whatever the path
    held.  The file system of the model takes every write: the failure of
    the write itself, which the program hands on as an [IOError], is not
    modelled. *)
Definition WriteSacBinary (t : ReadSac) (fs : filesystem) (filename : string)
  : result filesystem :=
  Ok (<[filename := file_bytes t]> fs).

(** Four bytes of a file as a cell, in the byte order of the file. *)
Definition word_of_bytes (o : byteorder) (a b c d : byte) : word32 :=
  match o with
  | LittleEndian => W32 a b c d
  | BigEndian => W32 d c b a
  end.

Fixpoint words_of_bytes (o : byteorder) (n : nat) (bs : list byte)
  : list word32 :=
  match n with
  | O => []
  | S n' =>
      match bs with
      | a :: b :: c :: d :: rest =>
          word_of_bytes o a b c d :: words_of_bytes o n' rest
      | _ => []
      end
  end.

Fixpoint strings_of_bytes (widths : list nat) (bs : list byte) : list string :=
  match widths with
  | [] => []
  | w :: ws => string_of_list_byte (take w bs) :: strings_of_bytes ws (drop w bs)
  end.

(** Modelled from the spec: the endianness probe of the reader, as in
    [isSAC]: the integer at offset 316 decoded little-endian, then
    big-endian, must agree with the file size. *)
Definition detect_order (bs : list byte) : result byteorder :=
  let data := take 4 (drop 316 bs) in
  let size := Z.of_nat (length bs) in
  match struct_unpack_i LittleEndian data with
  | Err _ => Err SacError
  | Ok npts =>
      if size =? 632 + 4 * npts then Ok LittleEndian
      else
        match struct_unpack_i BigEndian data with
        | Err _ => Err SacError
        | Ok npts =>
            if size =? 632 + 4 * npts then Ok BigEndian else Err SacError
        end
  end.

(** Modelled from the spec: every header field decoded in the byte order
    found. *)
Definition parse_header (o : byteorder) (bs : list byte) : ReadSac :=
  mkReadSac (words_of_bytes o 70 bs)
            (words_of_bytes o 40 (drop 280 bs))
            (strings_of_bytes swidths (drop 440 bs))
            [].

(** Modelled from the spec: [ReadSac.ReadSacHeader], not in the sources.  The
    header alone; a file that fails the probe or is too short for a header
    is rejected. *)
Definition ReadSacHeader (fs : filesystem) (filename : string)
  : result ReadSac :=
  f ← open_rb fs filename;
  let bs := content f in
  o ← detect_order bs;
  if (length bs <? 632)%nat then Err SacError
  else Ok (parse_header o bs).

(** Modelled from the spec: [ReadSac.ReadSacFile], not in the sources.  The
    header and the [npts] samples that follow it. *)
Definition ReadSacFile (fs : filesystem) (filename : string)
  : result ReadSac :=
  f ← open_rb fs filename;
  let bs := content f in
  o ← detect_order bs;
  if (length bs <? 632)%nat then Err SacError
  else
    let t := parse_header o bs in
    let npts := word_signed (default (word_of_Z (-12345)) (hi t !! 9%nat)) in
    Ok (mkReadSac (hf t) (hi t) (hs t)
                  (words_of_bytes o (Z.to_nat npts) (drop 632 bs))).

(** ** Time stamps *)

(** Modelled from the spec: class [UTCDateTime] of [obspy.core] is not part
    of the sources at hand.  A time stamp is a count of microseconds since
    1970-01-01T00:00:00; it decomposes into year, day of the year, hour,
    minute, second and microsecond of the proleptic Gregorian calendar and is
    recomposed from the same. *)
Definition UTCDateTime : Type := Z.

(** Microseconds in a day. *)
Definition us_per_day : Z := 86400000000.

(** Modelled from the spec: days before January 1st of year [y], counted
    from 0001-01-01. *)
Definition days_before_year (y : Z) : Z :=
  (y - 1) * 365 + (y - 1) / 4 - (y - 1) / 100 + (y - 1) / 400.

(** Modelled from the spec: the day number of the date, 0001-01-01 being
    day 1. *)
Definition toordinal (t : UTCDateTime) : Z := t / us_per_day + 719163.

(** Modelled from the spec: the year a day number falls in, found through
    the cycles of 400, 100 and 4 years. *)
Definition year_of_ordinal (n : Z) : Z :=
  let n := n - 1 in
  let n400 := n / 146097 in
  let n := n mod 146097 in
  let n100 := n / 36524 in
  let n := n mod 36524 in
  let n4 := n / 1461 in
  let n := n mod 1461 in
  let n1 := n / 365 in
  let y := n400 * 400 + 1 + n100 * 100 + n4 * 4 + n1 in
  if (n1 =? 4) || (n100 =? 4) then y - 1 else y.

(** Modelled from the spec: the fields a time stamp decomposes into; the day
    of the year is what [strftime("%j")] prints. *)
Definition year (t : UTCDateTime) : Z := year_of_ordinal (toordinal t).
Definition julday (t : UTCDateTime) : Z :=
  toordinal t - days_before_year (year t).
Definition hour (t : UTCDateTime) : Z := (t mod us_per_day) / 3600000000.
Definition minute (t : UTCDateTime) : Z := (t mod 3600000000) / 60000000.
Definition second (t : UTCDateTime) : Z := (t mod 60000000) / 1000000.
Definition microsecond (t : UTCDateTime) : Z := t mod 1000000.

(** Modelled from the spec: the time stamp recomposed from its fields,
    [UTCDateTime(year=, julday=, hour=, minute=, second=, microsecond=)]. *)
Definition utc_of_fields (y j h m s us : Z) : UTCDateTime :=
  (((days_before_year y + j - 719163) * 24 + h) * 60 + m) * 60000000
  + s * 1000000 + us.

(** Modelled from the spec: adding or subtracting float seconds moves a time
    stamp by a whole number of microseconds.  How a float (or a string handed
    to [float()]) turns into that number is floating-point arithmetic and is
    left open. *)
Class FloatSeconds : Type := {
  float_us : word32 -> Z;
  str_us : string -> option Z
}.

(** The microseconds that [float(v)] seconds stand for. *)
Definition py_float_us `{FloatSeconds} (v : value) : result Z :=
  match v with
  | VFloat w => Ok (float_us w)
  | VInt n => Ok (n * 1000000)
  | VStr s =>
      match str_us s with
      | Some d => Ok d
      | None => Err ValueError
      end
  end.

(** The integer a header slot holds. *)
Definition hint (t : ReadSac) (item : string) : Z :=
  match GetHvalue t item with
  | Ok (VInt n) => n
  | _ => -12345
  end.

(** Modelled from the spec: the [starttime] attribute of [ReadSac], not in
    the sources: the reference time assembled from the [nz*] fields. *)
Definition sac_starttime (t : ReadSac) : UTCDateTime :=
  utc_of_fields (hint t "nzyear") (hint t "nzjday") (hint t "nzhour")
                (hint t "nzmin") (hint t "nzsec") (hint t "nzmsec" * 1000).

(** ** Traces *)

(** Modelled from the spec: classes [Trace], [Stats] and [Stream] of
    [obspy.core] are not part of the sources at hand.  A trace has a start
    time, the common metadata entries, optionally the [sac] dictionary of
    extra fields, and its samples (none after a header-only read).  A stream
    is a list of traces. *)
Record Stats : Type := mkStats {
  starttime : UTCDateTime;
  entries : gmap string value;
  sac : option (gmap string value)
}.

Record Trace : Type := mkTrace {
  stats : Stats;
  data : list word32
}.

(** Modelled from the spec: [d[k]] on the dictionaries of a trace;
    [KeyError] when the key is missing. *)
Definition getitem (d : gmap string value) (k : string) : result value :=
  match d !! k with
  | Some v => Ok v
  | None => Err KeyError
  end.

(** Modelled from the spec: [trace.stats.delta].  A trace without sample
    interval makes the attribute access raise; the kind of that error,
    Python's [AttributeError], is an assumption, the class of the metadata
    being outside the sources. *)
Definition stats_delta (tr : Trace) : result value :=
  match entries (stats tr) !! "delta" with
  | Some v => Ok v
  | None => Err AttributeError
  end.

(** Modelled from the spec: [trace.stats.sac] and [trace.stats['sac']], which
    raise [AttributeError] and [KeyError] when the trace has no extra
    fields. *)
Definition stats_sac_attr (tr : Trace) : result (gmap string value) :=
  match sac (stats tr) with
  | Some d => Ok d
  | None => Err AttributeError
  end.

Definition stats_sac_item (tr : Trace) : result (gmap string value) :=
  match sac (stats tr) with
  | Some d => Ok d
  | None => Err KeyError
  end.

(** A loop whose body may raise. *)
Fixpoint foldM {A B : Type} (f : A -> B -> result A) (a : A) (l : list B)
  : result A :=
  match l with
  | [] => Ok a
  | b :: l' => a' ← f a b; foldM f a' l'
  end.

(** ** The field tables of [core.py] *)

(* left SAC attributes, right trace attributes *)
Definition convert_dict : list (string * string) :=
  [("npts", "npts"); ("delta", "delta"); ("kcmpnm", "channel");
   ("kstnm", "station"); ("scale", "calib"); ("knetwk", "network");
   ("khole", "location")].

Definition sac_extra : list string :=
  ["depmin"; "depmax"; "odelta"; "b"; "e"; "o"; "a"; "t0"; "t1";
   "t2"; "t3"; "t4"; "t5"; "t6"; "t7"; "t8"; "t9"; "f"; "stla"; "stlo";
   "stel"; "stdp"; "evla"; "evlo"; "evdp"; "mag"; "user0"; "user1"; "user2";
   "user3"; "user4"; "user5"; "user6"; "user7"; "user8"; "user9"; "dist";
   "az"; "baz"; "gcarc"; "depmen"; "cmpaz"; "cmpinc"; "nzyear"; "nzjday";
   "nzhour"; "nzmin"; "nzsec"; "nzmsec"; "nvhdr"; "norid"; "nevid"; "nwfid";
   "iftype"; "idep"; "iztype"; "iinst"; "istreg"; "ievreg"; "ievtype";
   "iqual"; "isynth"; "imagtyp"; "imagsrc"; "leven"; "lpspol"; "lovrok";
   "lcalda"; "kevnm"; "ko"; "ka"; "kt0"; "kt1"; "kt2"; "kt3"; "kt4";
   "kt5"; "kt6"; "kt7"; "kt8"; "kt9"; "kf"; "kuser0"; "kuser1"; "kuser2";
   "kdatrd"; "kinst"].

(** ** [readSAC] *)

(** The body of the loop over [convert_dict]. *)
Definition convert_entry (t : ReadSac) (header : gmap string value)
    (ij : string * string) : result (gmap string value) :=
  let '(i, j) := ij in
  value ← GetHvalue t i;
  let value :=
    match value with
    | VStr s =>
        let s := strip s in
        if String.eqb s "-12345" then VStr "" else VStr s
    | _ => value
    end in
  Ok (<[j := value]> header).

(** The body of the loop over [sac_extra]. *)
Definition extra_entry (t : ReadSac) (d : gmap string value) (i : string)
  : result (gmap string value) :=
  value ← GetHvalue t i;
  Ok (<[i := value]> d).

(** The time resolution of the reader. *)
Definition read_starttime `{FloatSeconds} (start : UTCDateTime)
    (d : gmap string value) : result UTCDateTime :=
  iztype ← getitem d "iztype";
  if py_eq_num iztype 11 then
    b ← getitem d "b";
    off ← py_float_us b;
    Ok (start + off)
  else if py_eq_num iztype 9 || py_eq_num iztype (-12345) then
    Ok start
  else
    (* This iztype is not implemented, please write a bug report *)
    Err NotImplementedError.

Definition readSAC `{FloatSeconds} (fs : filesystem) (filename : string)
    (headonly : bool) : result (list Trace) :=
  (* read SAC file *)
  t ← (if headonly then ReadSacHeader fs filename
       else ReadSacFile fs filename);
  header ← foldM (convert_entry t) ∅ convert_dict;
  calib ← getitem header "calib";
  let header :=
    if py_eq_num calib (-12345) then <["calib" := VFloat f32_one]> header
    else header in
  extra ← foldM (extra_entry t) ∅ sac_extra;
  (* convert time to UTCDateTime *)
  start ← read_starttime (sac_starttime t) extra;
  let tr :=
    if headonly then mkTrace (mkStats start header (Some extra)) []
    else mkTrace (mkStats start header (Some extra)) (seis t) in
  Ok [tr].

(** ** [writeSAC] *)

(** [s.rfind(c)]: the last position of [c], or -1. *)
Fixpoint rfind_from (c : ascii) (s : string) (i : Z) (found : Z) : Z :=
  match s with
  | EmptyString => found
  | String a s' => rfind_from c s' (i + 1) (if Ascii.eqb a c then i else found)
  end.

Definition rfind (c : ascii) (s : string) : Z := rfind_from c s 0 (-1).

Fixpoint all_dots (s : string) : bool :=
  match s with
  | EmptyString => true
  | String a s' => Ascii.eqb a "."%char && all_dots s'
  end.

(** [os.path.splitext]: the extension starts at the last dot of the last
    path component; leading dots of that component do not count. *)
Definition splitext (p : string) : string * string :=
  let sepIndex := rfind "/"%char p in
  let dotIndex := rfind "."%char p in
  if sepIndex <? dotIndex then
    let name :=
      substring (Z.to_nat (sepIndex + 1)) (Z.to_nat (dotIndex - sepIndex - 1)) p in
    if all_dots name then (p, "")
    else (substring 0 (Z.to_nat dotIndex) p,
          substring (Z.to_nat dotIndex) (String.length p - Z.to_nat dotIndex) p)
  else (p, "").

(** ["%02d" % i] *)
Definition format_02d (i : nat) : string :=
  let s := NilEmpty.string_of_uint (Nat.to_uint i) in
  string_of_list_ascii (replicate (2 - String.length s) "0"%char) +:+ s.

(** The overlay of one common entry: [t.SetHvalue(_j, trace.stats[_k])]
    inside [try: ... except: pass]. *)
Definition overlay_common (trace : Trace) (t : ReadSac) (jk : string * string)
  : ReadSac :=
  let '(_j, _k) := jk in
  try_pass t (v ← getitem (entries (stats trace)) _k; SetHvalue t _j v).

(** The overlay of one extra field: [t.SetHvalue(_i, trace.stats.sac[_i])]
    inside [try: ... except: pass]. *)
Definition overlay_extra (trace : Trace) (t : ReadSac) (_i : string) : ReadSac :=
  try_pass t (d ← stats_sac_attr trace; v ← getitem d _i; SetHvalue t _i v).

(** The reference time the writer encodes. *)
Definition write_start `{FloatSeconds} (trace : Trace) : result UTCDateTime :=
  let start := starttime (stats trace) in
  try_pass_KeyError start
    (d ← stats_sac_item trace;
     iztype ← getitem d "iztype";
     if py_eq_num iztype 11 then
       b ← getitem d "b";
       off ← py_float_us b;
       Ok (start - off)
     else if py_eq_num iztype 9 || py_eq_num iztype (-12345) then
       Ok start
     else Ok start).

(** The header the writer builds for one trace. *)
Definition write_header `{FloatSeconds} (trace : Trace) : result ReadSac :=
  let t := InitArrays in
  (* building array of floats, require correct type *)
  (* filling in SAC/sacio specific defaults *)
  delta ← stats_delta trace;
  t ← fromarray t (data trace) (VFloat f32_zero) delta;
  (* overwriting with ObsPy defaults *)
  let t := fold_left (overlay_common trace) convert_dict t in
  (* overwriting up SAC specific values *)
  let t := fold_left (overlay_extra trace) sac_extra t in
  (* setting start time depending on iztype *)
  start ← write_start trace;
  (* overwriting date and time *)
  t ← SetHvalue t "nzyear" (VInt (year start));
  (* strftime("%j") prints the day of the year in decimal; the integer slot
     holds the number printed *)
  t ← SetHvalue t "nzjday" (VInt (julday start));
  t ← SetHvalue t "nzhour" (VInt (hour start));
  t ← SetHvalue t "nzmin" (VInt (minute start));
  t ← SetHvalue t "nzsec" (VInt (second start));
  (* microsecond / 1e3 is a float between 0 and 1000; the integer slot keeps
     its integer part *)
  SetHvalue t "nzmsec" (VInt (microsecond start / 1000)).

(** The body of the loop over the stream; the loop carries the counter [i],
    the variable [filename] and the file system. *)
Definition write_trace `{FloatSeconds} (base ext : string)
    (st : nat * string * filesystem) (trace : Trace)
  : result (nat * string * filesystem) :=
  let '(i, filename, fs) := st in
  t ← write_header trace;
  let filename :=
    if negb (i =? 0)%nat then base +:+ format_02d i +:+ ext else filename in
  fs ← WriteSacBinary t fs filename;
  Ok (S i, filename, fs).

Definition writeSAC `{FloatSeconds} (stream : list Trace) (filename : string)
    (fs : filesystem) : result filesystem :=
  let i := 0%nat in
  let '(base, ext) := splitext filename in
  st ← foldM (write_trace base ext) (i, filename, fs) stream;
  Ok (snd st).

(** ** Notions of the specification *)

(** The signed 32-bit integer that four bytes spell, least significant byte
    first (little-endian) or most significant byte first (big-endian). *)
Definition le_i32 (b0 b1 b2 b3 : byte) : Z :=
  signed32 (byte.unsigned b0 + 2 ^ 8 * byte.unsigned b1
            + 2 ^ 16 * byte.unsigned b2 + 2 ^ 24 * byte.unsigned b3).

Definition be_i32 (b0 b1 b2 b3 : byte) : Z := le_i32 b3 b2 b1 b0.

(** A time stamp cut to whole milliseconds. *)
Definition trunc_ms (t : UTCDateTime) : UTCDateTime := t - t mod 1000.

(** The path the specification gives the trace number [i] of a stream
    written to [filename]. *)
Definition sac_path (filename : string) (i : nat) : string :=
  match i with
  | O => filename
  | S _ => fst (splitext filename) +:+ format_02d i +:+ snd (splitext filename)
  end.

(** The sample count in the metadata of a trace, when it is an integer, is
    the number of its samples. *)
Definition npts_consistent (tr : Trace) : Prop :=
  forall n, entries (stats tr) !! "npts" = Some (VInt n) ->
            n = Z.of_nat (length (data tr)).

(** The sample count in the metadata of a trace, when the trace has one, is
    the integer number of its samples: an entry of any other kind, or any
    other number, is ruled out. *)
Definition npts_matches (tr : Trace) : Prop :=
  match entries (stats tr) !! "npts" with
  | Some v => v = VInt (Z.of_nat (length (data tr)))
  | None => True
  end.

(** ** Definitions used by the proofs *)

(** A header with its 70 float slots, its 40 integer slots and every string
    slot filled to its width. *)
Definition wf_hdr (t : ReadSac) : Prop :=
  length (hf t) = 70%nat /\ length (hi t) = 40%nat
  /\ Forall2 (fun s w => String.length s = w) (hs t) swidths.

(** What [SetHvalue] leaves in the slot [item] when given [v]; [None] when
    it raises.  The outcome does not depend on the header. *)
Definition stored (item : string) (v : value) : option value :=
  match index_of item fdict with
  | Some _ =>
      match v with
      | VFloat w => Some (VFloat w)
      | _ => None
      end
  | None =>
  match index_of item idict with
  | Some _ =>
      match v with
      | VInt n => if in_int32 n then Some (VInt n) else None
      | _ => None
      end
  | None =>
  match index_of item (map fst sdict) with
  | Some i =>
      match v with
      | VStr s =>
          let width := default 0%nat (swidths !! i) in
          if (String.length s <=? width)%nat then Some (VStr (pad width s))
          else None
      | _ => None
      end
  | None => None
  end end end.

(** A header seen through [GetHvalue], and that view after one field has
    been set. *)
Definition set_view (g : string -> result value) (item : string) (v' : value)
  : string -> result value :=
  fun x => if String.eqb x item then Ok v' else g x.

(** [g] is what [GetHvalue] returns on [t]. *)
Definition views (t : ReadSac) (g : string -> result value) : Prop :=
  forall x, GetHvalue t x = g x.

(** The effect of one step of the overlay of the common entries on the view
    of the header. *)
Definition upd_common (tr : Trace) (g : string -> result value)
    (jk : string * string) : string -> result value :=
  match entries (stats tr) !! jk.2 ≫= stored jk.1 with
  | Some v' => set_view g jk.1 v'
  | None => g
  end.

(** The entry [i] of the [sac] dictionary of a trace, if there is one. *)
Definition extra_value (tr : Trace) (i : string) : option value :=
  match sac (stats tr) with
  | Some d => d !! i
  | None => None
  end.

(** The effect of one step of the overlay of the extra fields. *)
Definition upd_extra (tr : Trace) (g : string -> result value) (i : string)
  : string -> result value :=
  match extra_value tr i ≫= stored i with
  | Some v' => set_view g i v'
  | None => g
  end.

(** The view of the header that [write_header] builds, statement by
    statement. *)
Definition header_view (tr : Trace) (delta : value) (start : UTCDateTime)
  : string -> result value :=
  let g := GetHvalue InitArrays in
  let g := set_view g "npts" (VInt (Z.of_nat (length (data tr)))) in
  let g := set_view g "delta" delta in
  let g := set_view g "b" (VFloat f32_zero) in
  let g := fold_left (upd_common tr) convert_dict g in
  let g := fold_left (upd_extra tr) sac_extra g in
  let g := set_view g "nzyear" (VInt (year start)) in
  let g := set_view g "nzjday" (VInt (julday start)) in
  let g := set_view g "nzhour" (VInt (hour start)) in
  let g := set_view g "nzmin" (VInt (minute start)) in
  let g := set_view g "nzsec" (VInt (second start)) in
  set_view g "nzmsec" (VInt (microsecond start / 1000)).

(** What makes the writer's header construction succeed. *)
Definition write_header_ok `{FloatSeconds} (tr : Trace) (wd : word32)
    (start : UTCDateTime) : Prop :=
  entries (stats tr) !! "delta" = Some (VFloat wd)
  /\ in_int32 (Z.of_nat (length (data tr))) = true
  /\ write_start tr = Ok start
  /\ in_int32 (year start) = true
  /\ in_int32 (julday start) = true.

(** The names the header schema has. *)
Definition known (item : string) : bool :=
  match index_of item fdict, index_of item idict, index_of item (map fst sdict) with
  | None, None, None => false
  | _, _, _ => true
  end.

(** The value of a field of the schema. *)
Definition getv (t : ReadSac) (item : string) : value :=
  match GetHvalue t item with
  | Ok v => v
  | Err _ => VStr ""
  end.

(** The conversion of the reader's first loop: strings are stripped and the
    string sentinel becomes the empty string. *)
Definition conv (v : value) : value :=
  match v with
  | VStr s => if String.eqb (strip s) "-12345" then VStr "" else VStr (strip s)
  | _ => v
  end.

(** The dictionaries the two loops of the reader build. *)
Definition header_of (t : ReadSac) : gmap string value :=
  fold_left (fun m (ij : string * string) => <[ij.2 := conv (getv t ij.1)]> m)
            convert_dict ∅.

Definition extra_of (t : ReadSac) : gmap string value :=
  fold_left (fun m i => <[i := getv t i]> m) sac_extra ∅.

(** The calibration sentinel replaced by 1.0. *)
Definition calib_fix (header : gmap string value) : gmap string value :=
  match header !! "calib" with
  | Some calib =>
      if py_eq_num calib (-12345) then <["calib" := VFloat f32_one]> header
      else header
  | None => header
  end.

(** The dates of the years 1 to 9999, the range of Python's [datetime]. *)
Definition datetime_range (t : UTCDateTime) : Prop :=
  1 <= toordinal t <= 3652059.

(** The trace declares the begin-time reference: [iztype] is 9, the
    undefined sentinel, or not there at all. *)
Definition iztype_begin (tr : Trace) : Prop :=
  match extra_value tr "iztype" with
  | None => True
  | Some v => py_eq_num v 9 = true \/ py_eq_num v (-12345) = true
  end.

(** A string of white space only; a string that begins, or ends, with a
    white space character. *)
Fixpoint all_space (s : string) : bool :=
  match s with
  | EmptyString => true
  | String a s' => is_space a && all_space s'
  end.

Definition starts_with_space (s : string) : bool :=
  match s with
  | EmptyString => false
  | String a _ => is_space a
  end.

Fixpoint ends_with_space (s : string) : bool :=
  match s with
  | EmptyString => false
  | String a EmptyString => is_space a
  | String _ s' => ends_with_space s'
  end.

(** The float a header slot holds. *)
Definition hfloat (t : ReadSac) (item : string) : word32 :=
  match GetHvalue t item with
  | Ok (VFloat w) => w
  | _ => f32_sentinel
  end.

(** The number a string of decimal digits spells. *)
Definition parse_nat (s : string) : option nat :=
  Nat.of_uint <$> NilEmpty.uint_of_string s.

(** The file system after the headers [ts] have been written as the traces
    number [i], [i + 1], ... of a stream. *)
Fixpoint write_all (filename : string) (i : nat) (ts : list ReadSac)
    (fs : filesystem) : filesystem :=
  match ts with
  | [] => fs
  | t :: ts' => write_all filename (S i) ts' (<[sac_path filename i := file_bytes t]> fs)
  end.

(** The microseconds in a single-precision number of seconds, the fraction
    of a microsecond dropped. *)
Definition f32_us (w : word32) : Z :=
  match f32_decode w with
  | None => 0
  | Some (m, e) =>
      if 0 <=? e then m * 2 ^ e * 1000000
      else Z.quot (m * 1000000) (2 ^ (- e))
  end.

#[export] Instance exact_seconds : FloatSeconds :=
  {| float_us := f32_us; str_us := fun _ => None |}.

(** 2.5 as a single *)
Definition f32_2_5 : word32 := W32 Byte.x00 Byte.x00 Byte.x20 Byte.x40.

(** Metadata, a start time and samples for the example traces. *)
Definition example_entries : gmap string value :=
  list_to_map [("delta", VFloat f32_one); ("npts", VInt 2);
               ("station", VStr "STA"); ("channel", VStr "BHZ")].

(** 2009-02-13T23:31:30.123456 *)
Definition example_time : UTCDateTime := 1234567890123456.

Definition example_trace (extra : option (gmap string value)) : Trace :=
  mkTrace (mkStats example_time example_entries extra) [f32_one; f32_2_5].

(** Traces that declare the begin time, the origin time with an offset of
    2.5 s, and a reference type the reader does not know. *)
Definition trace_begin : Trace :=
  example_trace (Some (list_to_map [("iztype", VInt 9)])).

Definition trace_origin : Trace :=
  example_trace (Some (list_to_map [("iztype", VInt 11); ("b", VFloat f32_2_5)])).

Definition trace_other : Trace :=
  example_trace (Some (list_to_map [("iztype", VInt 3)])).

(** A trace whose sample count entry is a string. *)
Definition trace_bad_npts : Trace :=
  mkTrace (mkStats example_time
             (list_to_map [("delta", VFloat f32_one); ("npts", VStr "many")])
             None)
          [f32_one; f32_2_5].

(** The file system after a stream has been written to an empty one. *)
Definition written (stream : list Trace) (filename : string) : filesystem :=
  match writeSAC stream filename ∅ with
  | Ok fs => fs
  | Err _ => ∅
  end.

(** The header parsed from a file. *)
Definition parsed (fs : filesystem) (filename : string) : ReadSac :=
  match ReadSacFile fs filename with
  | Ok t => t
  | Err _ => InitArrays
  end.

(** The header parsed by a header-only read. *)
Definition parsed_header (fs : filesystem) (filename : string) : ReadSac :=
  match ReadSacHeader fs filename with
  | Ok t => t
  | Err _ => InitArrays
  end.

(** The trace a read returns. *)
Definition read_trace (fs : filesystem) (filename : string) (headonly : bool)
  : Trace :=
  match readSAC fs filename headonly with
  | Ok [tr] => tr
  | _ => mkTrace (mkStats 0 ∅ None) []
  end.





(** Claim C8 as the specification states it: when setting a present common
    field raises, the write raises. *)
Definition overlay_errors_propagate `{FloatSeconds} : Prop :=
  forall (tr : Trace) (filename : string) (fs : filesystem) (j k : string)
         (v : value),
    (j, k) ∈ convert_dict ->
    entries (stats tr) !! k = Some v ->
    (forall t, exists e, SetHvalue t j v = Err e) ->
    exists e, writeSAC [tr] filename fs = Err e.

(** A trace without a sample interval. *)
Definition trace_no_delta : Trace :=
  mkTrace (mkStats example_time (list_to_map [("npts", VInt 2)]) None)
          [f32_one; f32_2_5].

(** A trace that declares the origin reference and carries no offset. *)
Definition trace_origin_no_b : Trace :=
  example_trace (Some (list_to_map [("iztype", VInt 11)])).

(** A trace that declares the origin reference with an offset that is no
    number. *)
Definition trace_bad_offset : Trace :=
  example_trace (Some (list_to_map [("iztype", VInt 11); ("b", VStr "late")])).

(** A trace whose extras carry a year of their own and a station
    latitude. *)
Definition trace_stale_nz : Trace :=
  example_trace (Some (list_to_map [("nzyear", VInt 1999);
                                    ("stla", VFloat f32_2_5)])).

(** A fresh header after its station latitude was set. *)
Definition header_with_stla : ReadSac :=
  match SetHvalue InitArrays "stla" (VFloat f32_2_5) with
  | Ok t => t
  | Err _ => InitArrays
  end.

(** The file system after the trace read from [run.sac] was written to
    [copy.sac]. *)
Definition rewritten : filesystem :=
  written [read_trace (written [trace_origin] "run.sac") "run.sac" false]
          "copy.sac".

(** * Proofs *)

Lemma lor_shiftl_8 (a b : Z) : 0 <= a < 2 ^ 8 -> Z.lor a (Z.shiftl b 8) = a + 256 * b.
Proof.
  intros Ha.
  rewrite Z.shiftl_mul_pow2 by lia.
  rewrite <- Z.lxor_lor, <- Z.add_nocarry_lxor; [lia | |].
  all: apply Z.bits_inj'; intros n Hn; rewrite Z.land_spec, Z.bits_0.
  all: destruct (Z.ltb_spec n 8).
  all: try (rewrite Z.mul_pow2_bits_low by lia; apply andb_false_r).
  all: rewrite (Z.bits_above_log2 a n); [reflexivity| lia |].
  all: destruct (Z.eq_dec a 0) as [->|]; [simpl; lia|].
  all: apply Z.lt_le_trans with 8; [apply Z.log2_lt_pow2; lia | lia].
Qed.

Lemma le_combine_4 (b0 b1 b2 b3 : byte) :
  le_combine [b0; b1; b2; b3]
  = byte.unsigned b0 + 2 ^ 8 * byte.unsigned b1 + 2 ^ 16 * byte.unsigned b2
    + 2 ^ 24 * byte.unsigned b3.
Proof.
  unfold le_combine.
  pose proof (byte.unsigned_range b0). pose proof (byte.unsigned_range b1).
  pose proof (byte.unsigned_range b2). pose proof (byte.unsigned_range b3).
  rewrite Z.shiftl_0_l, Z.lor_0_r.
  rewrite !lor_shiftl_8 by assumption. lia.
Qed.

Lemma struct_unpack_i_4 o b0 b1 b2 b3 :
  struct_unpack_i o [b0; b1; b2; b3]
  = Ok (match o with
        | LittleEndian => le_i32 b0 b1 b2 b3
        | BigEndian => be_i32 b0 b1 b2 b3
        end).
Proof.
  unfold struct_unpack_i, combine32, be_i32, le_i32. simpl length. simpl Nat.eqb.
  cbv iota. destruct o; simpl rev; simpl app; rewrite le_combine_4; reflexivity.
Qed.

Lemma struct_unpack_i_Ok o data n :
  struct_unpack_i o data = Ok n -> exists b0 b1 b2 b3, data = [b0; b1; b2; b3].
Proof.
  unfold struct_unpack_i.
  destruct data as [|b0 [|b1 [|b2 [|b3 [|b4 data]]]]]; simpl; try discriminate.
  eauto.
Qed.

Lemma sub_eqb_0 (a b : Z) : (a - b =? 0) = (a =? b).
Proof. destruct (Z.eqb_spec (a - b) 0), (Z.eqb_spec a b); lia. Qed.

Lemma isSAC_unfold fs filename :
  isSAC fs filename =
  match fs !! filename with
  | None => Ok false
  | Some bs =>
      match take 4 (drop 316 bs) with
      | [b0; b1; b2; b3] =>
          Ok ((Z.of_nat (length bs) =? 632 + 4 * le_i32 b0 b1 b2 b3)
              || (Z.of_nat (length bs) =? 632 + 4 * be_i32 b0 b1 b2 b3))
      | _ => Ok false
      end
  end.
Proof.
  unfold isSAC, isSAC_probe, open_rb, os_stat_size.
  destruct (fs !! filename) as [bs|]; [|reflexivity].
  cbn [mbind result_bind seek read content pos].
  change (4 * 70 + 4 * 9)%nat with 316%nat.
  destruct (struct_unpack_i LittleEndian (take 4 (drop 316 bs))) as [n|e] eqn:E.
  - destruct (struct_unpack_i_Ok _ _ _ E) as (b0 & b1 & b2 & b3 & Hd).
    rewrite Hd in *. rewrite struct_unpack_i_4 in E. injection E as <-.
    cbn [mbind result_bind]. rewrite struct_unpack_i_4.
    rewrite !sub_eqb_0.
    destruct (Z.of_nat (length bs) =? 632 + 4 * le_i32 b0 b1 b2 b3); [reflexivity|].
    cbn [negb orb mbind result_bind]. rewrite sub_eqb_0.
    destruct (Z.of_nat (length bs) =? 632 + 4 * be_i32 b0 b1 b2 b3); reflexivity.
  - unfold struct_unpack_i in E.
    destruct (take 4 (drop 316 bs)) as [|b0 [|b1 [|b2 [|b3 [|b4 data]]]]]; try reflexivity.
    discriminate E.
Qed.

(** Claim C2.  [isSAC] answers true exactly when the file can be opened, has
    four bytes at offset 316, and those bytes, read as a signed 32-bit
    integer least significant byte first or else most significant byte first,
    give an [npts] with file size = 632 + 4 * npts.  It never raises: it
    answers false when the file cannot be opened and when the file is
    shorter than 320 bytes. *)
Theorem isSAC_size_check (fs : filesystem) (filename : string) :
  (isSAC fs filename = Ok true <->
   exists bs b0 b1 b2 b3,
     fs !! filename = Some bs /\
     take 4 (drop 316 bs) = [b0; b1; b2; b3] /\
     (Z.of_nat (length bs) = 632 + 4 * le_i32 b0 b1 b2 b3 \/
      Z.of_nat (length bs) = 632 + 4 * be_i32 b0 b1 b2 b3))
  /\ (isSAC fs filename = Ok true \/ isSAC fs filename = Ok false)
  /\ (fs !! filename = None -> isSAC fs filename = Ok false)
  /\ (forall bs, fs !! filename = Some bs -> (length bs < 320)%nat ->
      isSAC fs filename = Ok false).
Proof.
  rewrite isSAC_unfold. split; [split|split; [|split]].
  - destruct (fs !! filename) as [bs|]; [|discriminate].
    destruct (take 4 (drop 316 bs)) as [|b0 [|b1 [|b2 [|b3 [|b4 data]]]]] eqn:E;
      try discriminate.
    intros [= H]. exists bs, b0, b1, b2, b3.
    split; [reflexivity|]. split; [exact E|].
    apply orb_true_iff in H. lia.
  - intros (bs & b0 & b1 & b2 & b3 & -> & -> & H). f_equal.
    apply orb_true_iff. lia.
  - destruct (fs !! filename) as [bs|]; [|auto].
    destruct (take 4 (drop 316 bs)) as [|b0 [|b1 [|b2 [|b3 [|b4 data]]]]]; auto.
    match goal with |- context [Ok ?b] => destruct b end; auto.
  - intros ->. reflexivity.
  - intros bs -> Hlen.
    assert (Hl : (length (take 4 (drop 316 bs)) < 4)%nat).
    { rewrite length_take, length_drop. lia. }
    destruct (take 4 (drop 316 bs)) as [|b0 [|b1 [|b2 [|b3 [|b4 data]]]]];
      try reflexivity; simpl in Hl; lia.
Qed.

(** What an accepted file looks like, read off the unfolded detector. *)
Lemma isSAC_accepted (fs : filesystem) (filename : string) (bs : list byte) :
  fs !! filename = Some bs -> isSAC fs filename = Ok true ->
  exists b0 b1 b2 b3,
    take 4 (drop 316 bs) = [b0; b1; b2; b3]
    /\ (Z.of_nat (length bs) = 632 + 4 * le_i32 b0 b1 b2 b3
        \/ Z.of_nat (length bs) = 632 + 4 * be_i32 b0 b1 b2 b3).
Proof.
  intros Hbs. rewrite isSAC_unfold, Hbs.
  destruct (take 4 (drop 316 bs)) as [|b0 [|b1 [|b2 [|b3 [|b4 data]]]]];
    try discriminate.
  intros [= H]. exists b0, b1, b2, b3. split; [reflexivity|].
  apply orb_true_iff in H. lia.
Qed.

Lemma isSAC_total (fs : filesystem) (filename : string) :
  isSAC fs filename = Ok true \/ isSAC fs filename = Ok false.
Proof.
  rewrite isSAC_unfold.
  destruct (fs !! filename) as [bs|]; [|auto].
  destruct (take 4 (drop 316 bs)) as [|b0 [|b1 [|b2 [|b3 [|b4 data]]]]]; auto.
  match goal with |- context [Ok ?b] => destruct b end; auto.
Qed.

(** A file that [isSAC] accepts has a whole number of 4-byte cells after 632
    bytes. *)
Lemma isSAC_size_mod4 (fs : filesystem) (filename : string) (bs : list byte) :
  fs !! filename = Some bs -> isSAC fs filename = Ok true ->
  (320 <= length bs)%nat /\ (Z.of_nat (length bs) - 632) mod 4 = 0.
Proof.
  intros Hbs Hsac.
  destruct (isSAC_accepted fs filename bs Hbs Hsac)
    as (b0 & b1 & b2 & b3 & Hdata & Hsize).
  split.
  - apply (f_equal length) in Hdata. rewrite length_take, length_drop in Hdata.
    cbn [length] in Hdata. lia.
  - destruct Hsize as [-> | ->].
    + replace (632 + 4 * le_i32 b0 b1 b2 b3 - 632) with (le_i32 b0 b1 b2 b3 * 4) by lia.
      apply Z.mod_mul. lia.
    + replace (632 + 4 * be_i32 b0 b1 b2 b3 - 632) with (be_i32 b0 b1 b2 b3 * 4) by lia.
      apply Z.mod_mul. lia.
Qed.

(** ** Words *)

Lemma word_bytes_of_Z z : word_bytes (word_of_Z z) = le_split 4 z.
Proof. reflexivity. Qed.

Lemma word_unsigned_of_Z z : word_unsigned (word_of_Z z) = z mod 2 ^ 32.
Proof.
  unfold word_unsigned. rewrite word_bytes_of_Z, le_combine_split. reflexivity.
Qed.

Lemma in_int32_spec n : in_int32 n = true <-> - 2 ^ 31 <= n < 2 ^ 31.
Proof. unfold in_int32. rewrite andb_true_iff, Z.leb_le, Z.ltb_lt. tauto. Qed.

Lemma word_signed_of_Z n : in_int32 n = true -> word_signed (word_of_Z n) = n.
Proof.
  intros H%in_int32_spec. unfold word_signed, signed32.
  rewrite word_unsigned_of_Z.
  destruct (Z.ltb_spec (n mod 2 ^ 32) (2 ^ 31)) as [Hlt|Hge].
  - destruct (Z.lt_ge_cases n 0).
    + rewrite <- (Z.mod_add n 1 (2 ^ 32)) in Hlt by lia.
      rewrite Z.mod_small in Hlt by lia. lia.
    + apply Z.mod_small. lia.
    - destruct (Z.lt_ge_cases n 0).
    + rewrite <- (Z.mod_add n 1 (2 ^ 32)) by lia.
      rewrite Z.mod_small by lia. lia.
    + rewrite Z.mod_small in Hge by lia. lia.
Qed.

Lemma length_word_bytes w : length (word_bytes w) = 4%nat.
Proof. reflexivity. Qed.

Lemma length_concat_words (ws : list word32) :
  length (concat (map word_bytes ws)) = (4 * length ws)%nat.
Proof. induction ws as [|w ws IH]; simpl; [reflexivity|]. rewrite IH. lia. Qed.

Lemma words_of_bytes_concat (ws : list word32) (rest : list byte) :
  words_of_bytes LittleEndian (length ws) (concat (map word_bytes ws) ++ rest) = ws.
Proof.
  induction ws as [|[a b c d] ws IH]; simpl; [reflexivity|].
  f_equal. exact IH.
Qed.

Lemma take_drop_word (ws : list word32) (i : nat) (w : word32) (rest : list byte) :
  ws !! i = Some w ->
  take 4 (drop (4 * i) (concat (map word_bytes ws) ++ rest)) = word_bytes w.
Proof.
  revert i. induction ws as [|w' ws IH]; intros i Hi; [discriminate|].
  destruct i as [|i].
  - injection Hi as ->. destruct w; reflexivity.
  - replace (4 * S i)%nat with (4 + 4 * i)%nat by lia.
    destruct w'. simpl. apply IH. exact Hi.
Qed.

(** ** Strings and bytes *)

Lemma length_list_byte_of_string s :
  length (list_byte_of_string s) = String.length s.
Proof. induction s as [|a s IH]; simpl; [reflexivity|]. f_equal. exact IH. Qed.

Lemma strings_of_bytes_concat (ss : list string) (ws : list nat) (rest : list byte) :
  Forall2 (fun s w => String.length s = w) ss ws ->
  strings_of_bytes ws (concat (map list_byte_of_string ss) ++ rest) = ss.
Proof.
  induction 1 as [|s w ss ws Hs _ IH]; simpl; [reflexivity|].
  rewrite <- app_assoc.
  assert (Hl : w = length (list_byte_of_string s))
    by (rewrite length_list_byte_of_string; symmetry; exact Hs).
  rewrite take_app_length', drop_app_length' by exact Hl.
  rewrite string_of_list_byte_of_string. f_equal. exact IH.
Qed.

Lemma length_concat_strings (ss : list string) (ws : list nat) :
  Forall2 (fun s w => String.length s = w) ss ws ->
  length (concat (map list_byte_of_string ss)) = foldr Nat.add 0%nat ws.
Proof.
  induction 1 as [|s w ss ws Hs _ IH]; simpl; [reflexivity|].
  rewrite length_app, length_list_byte_of_string, IH, Hs. reflexivity.
Qed.

Lemma length_pad w s : (String.length s <= w)%nat -> String.length (pad w s) = w.
Proof.
  intros H. unfold pad.
  assert (Happ : forall a b, String.length (a +:+ b) = (String.length a + String.length b)%nat).
  { induction a as [|c a IH]; intros b; simpl; [reflexivity|]. rewrite IH. reflexivity. }
  assert (Hrep : forall n c, String.length (string_of_list_ascii (replicate n c)) = n).
  { induction n as [|n IH]; intros c; simpl; [reflexivity|]. rewrite IH. reflexivity. }
  rewrite Happ, Hrep. lia.
Qed.

(** ** Well-formed headers *)

Lemma wf_InitArrays : wf_hdr InitArrays.
Proof.
  split; [reflexivity|]. split; [reflexivity|].
  unfold InitArrays, hs, swidths, sdict. simpl map.
  repeat constructor.
Qed.

Lemma index_of_lookup name l i :
  index_of name l = Some i -> l !! i = Some name.
Proof.
  revert i. induction l as [|x l IH]; intros i; simpl; [discriminate|].
  destruct (String.eqb_spec name x) as [->|Hne].
  - intros [= <-]. reflexivity.
  - destruct (index_of name l) as [k|]; [|discriminate].
    intros [= <-]. simpl. apply IH. reflexivity.
Qed.

Lemma index_of_lt name l i : index_of name l = Some i -> (i < length l)%nat.
Proof. intros H%index_of_lookup. eapply lookup_lt_Some. exact H. Qed.

Lemma index_of_inj a b l i :
  index_of a l = Some i -> index_of b l = Some i -> a = b.
Proof.
  intros Ha%index_of_lookup Hb%index_of_lookup. congruence.
Qed.

Lemma SetHvalue_stored (t : ReadSac) (item : string) (v : value) :
  wf_hdr t ->
  match stored item v with
  | Some v' =>
      exists t', SetHvalue t item v = Ok t' /\ wf_hdr t' /\ seis t' = seis t
                 /\ forall x, GetHvalue t' x = set_view (GetHvalue t) item v' x
  | None => exists e, SetHvalue t item v = Err e
  end.
Proof.
  intros (Hf & Hi & Hs). unfold stored, SetHvalue.
  destruct (index_of item fdict) as [i|] eqn:Ef.
  { destruct v as [w|n|s]; try (eexists; reflexivity).
    eexists. split; [reflexivity|]. split.
    { split; [|split]; simpl; [rewrite length_insert| |]; assumption. }
    split; [reflexivity|]. intros x. unfold set_view, GetHvalue. cbn [hf hi hs seis].
    pose proof (index_of_lt _ _ _ Ef) as Hlt. change (length fdict) with 70%nat in Hlt.
    destruct (String.eqb_spec x item) as [->|Hne].
    - rewrite Ef, list_lookup_insert_eq by lia. reflexivity.
    - destruct (index_of x fdict) as [k|] eqn:Ek; [|reflexivity].
      rewrite list_lookup_insert_ne; [reflexivity|].
      intros <-. apply Hne. eapply index_of_inj; eassumption. }
  destruct (index_of item idict) as [i|] eqn:Ei.
  { destruct v as [w|n|s]; try (eexists; reflexivity).
    destruct (in_int32 n) eqn:En; [|eexists; reflexivity].
    eexists. split; [reflexivity|]. split.
    { split; [|split]; simpl; [|rewrite length_insert|]; assumption. }
    split; [reflexivity|]. intros x. unfold set_view, GetHvalue. cbn [hf hi hs seis].
    pose proof (index_of_lt _ _ _ Ei) as Hlt. change (length idict) with 40%nat in Hlt.
    destruct (String.eqb_spec x item) as [->|Hne].
    - rewrite Ef, Ei, list_lookup_insert_eq by lia. cbn [from_option id].
      rewrite word_signed_of_Z by exact En. reflexivity.
    - destruct (index_of x fdict) as [k|] eqn:Ek; [reflexivity|].
      destruct (index_of x idict) as [k|] eqn:Ek'; [|reflexivity].
      rewrite list_lookup_insert_ne; [reflexivity|].
      intros <-. apply Hne. eapply index_of_inj; eassumption. }
  destruct (index_of item (map fst sdict)) as [i|] eqn:Es; [|eexists; reflexivity].
  destruct v as [w|n|s]; try (eexists; reflexivity).
  pose proof (index_of_lt _ _ _ Es) as Hlt. rewrite length_map in Hlt.
  destruct (swidths !! i) as [width|] eqn:Ew.
  2:{ apply lookup_ge_None in Ew. unfold swidths in Ew. rewrite length_map in Ew. lia. }
  cbn [from_option id].
  destruct (Nat.leb_spec (String.length s) width) as [Hle|Hgt]; [|eexists; reflexivity].
  eexists. split; [reflexivity|]. split.
  { split; [|split]; simpl; [assumption..|].
    rewrite <- (list_insert_id swidths i width) by exact Ew.
    apply Forall2_insert; [exact Hs|]. apply length_pad. exact Hle. }
  split; [reflexivity|]. intros x. unfold set_view, GetHvalue. cbn [hf hi hs seis].
  assert (Hlen : length (hs t) = length swidths) by (eapply Forall2_length; exact Hs).
  unfold swidths in Hlen. rewrite length_map in Hlen.
  destruct (String.eqb_spec x item) as [->|Hne].
  - rewrite Ef, Ei, Es, list_lookup_insert_eq by lia. reflexivity.
  - destruct (index_of x fdict) as [k|] eqn:Ek; [reflexivity|].
    destruct (index_of x idict) as [k|] eqn:Ek'; [reflexivity|].
    destruct (index_of x (map fst sdict)) as [k|] eqn:Ek''; [|reflexivity].
    rewrite list_lookup_insert_ne; [reflexivity|].
    intros <-. apply Hne. eapply index_of_inj; eassumption.
Qed.

Lemma views_set_view t g g' item v' :
  views t (set_view g item v') -> (forall x, g x = g' x) ->
  views t (set_view g' item v').
Proof. intros H Hg x. rewrite H. unfold set_view. rewrite Hg. reflexivity. Qed.

Lemma SetHvalue_views t g item v t' :
  wf_hdr t -> views t g -> SetHvalue t item v = Ok t' ->
  exists v', stored item v = Some v' /\ wf_hdr t' /\ seis t' = seis t
             /\ views t' (set_view g item v').
Proof.
  intros Hwf Hg Hset. pose proof (SetHvalue_stored t item v Hwf) as H.
  destruct (stored item v) as [v'|].
  - destruct H as (t'' & Hset' & Hwf' & Hseis & Hv).
    rewrite Hset in Hset'. injection Hset' as <-.
    exists v'. split; [reflexivity|]. split; [assumption|]. split; [assumption|].
    intros x. rewrite Hv. unfold set_view. rewrite Hg. reflexivity.
  - destruct H as (e & He). congruence.
Qed.

Lemma SetHvalue_succeeds t g item v v' :
  wf_hdr t -> views t g -> stored item v = Some v' ->
  exists t', SetHvalue t item v = Ok t' /\ wf_hdr t' /\ seis t' = seis t
             /\ views t' (set_view g item v').
Proof.
  intros Hwf Hg Hst. pose proof (SetHvalue_stored t item v Hwf) as H.
  rewrite Hst in H. destruct H as (t' & Hset & Hwf' & Hseis & Hv).
  exists t'. split; [assumption|]. split; [assumption|]. split; [assumption|].
  intros x. rewrite Hv. unfold set_view. rewrite Hg. reflexivity.
Qed.

Lemma try_SetHvalue_views t g item (ov : option value) (m : result value) :
  wf_hdr t -> views t g ->
  (match ov with Some v => m = Ok v | None => exists e, m = Err e end) ->
  let t' := try_pass t (v ← m; SetHvalue t item v) in
  wf_hdr t' /\ seis t' = seis t
  /\ views t' (match ov ≫= stored item with
               | Some v' => set_view g item v'
               | None => g
               end).
Proof.
  intros Hwf Hg Hm. destruct ov as [v|]; cbn [mbind option_bind].
  - subst m. cbn [mbind result_bind].
    pose proof (SetHvalue_stored t item v Hwf) as H.
    destruct (stored item v) as [v'|].
    + destruct H as (t' & -> & Hwf' & Hseis & Hv). cbn [try_pass].
      split; [assumption|]. split; [assumption|].
      intros x. rewrite Hv. unfold set_view. rewrite Hg. reflexivity.
    + destruct H as (e & ->). cbn [try_pass]. auto.
  - destruct Hm as (e & ->). cbn. auto.
Qed.

Lemma overlay_common_views tr t g jk :
  wf_hdr t -> views t g ->
  wf_hdr (overlay_common tr t jk) /\ seis (overlay_common tr t jk) = seis t
  /\ views (overlay_common tr t jk) (upd_common tr g jk).
Proof.
  intros Hwf Hg. destruct jk as [j k]. unfold overlay_common, upd_common.
  apply try_SetHvalue_views; [assumption..|].
  cbn [snd]. unfold getitem.
  destruct (entries (stats tr) !! k); eauto.
Qed.

Lemma overlay_extra_views tr t g i :
  wf_hdr t -> views t g ->
  wf_hdr (overlay_extra tr t i) /\ seis (overlay_extra tr t i) = seis t
  /\ views (overlay_extra tr t i) (upd_extra tr g i).
Proof.
  intros Hwf Hg. unfold overlay_extra, upd_extra.
  pose proof (try_SetHvalue_views t g i
                (extra_value tr i)
                (d ← stats_sac_attr tr; getitem d i) Hwf Hg) as H.
  cbn zeta in H.
  assert (Heq : (d ← stats_sac_attr tr; v ← getitem d i; SetHvalue t i v)
                = (v ← (d ← stats_sac_attr tr; getitem d i); SetHvalue t i v)).
  { destruct (stats_sac_attr tr); reflexivity. }
  rewrite Heq. apply H.
  unfold stats_sac_attr, getitem, extra_value. destruct (sac (stats tr)) as [d|]; cbn.
  - destruct (d !! i); eauto.
  - eauto.
Qed.

Lemma fold_overlay_common_views tr l t g :
  wf_hdr t -> views t g ->
  wf_hdr (fold_left (overlay_common tr) l t)
  /\ seis (fold_left (overlay_common tr) l t) = seis t
  /\ views (fold_left (overlay_common tr) l t) (fold_left (upd_common tr) l g).
Proof.
  revert t g. induction l as [|jk l IH]; intros t g Hwf Hg; [auto|].
  cbn [fold_left].
  destruct (overlay_common_views tr t g jk Hwf Hg) as (Hwf' & Hseis & Hg').
  destruct (IH _ _ Hwf' Hg') as (? & ? & ?).
  split; [assumption|]. split; [congruence|]. assumption.
Qed.

Lemma fold_overlay_extra_views tr l t g :
  wf_hdr t -> views t g ->
  wf_hdr (fold_left (overlay_extra tr) l t)
  /\ seis (fold_left (overlay_extra tr) l t) = seis t
  /\ views (fold_left (overlay_extra tr) l t) (fold_left (upd_extra tr) l g).
Proof.
  revert t g. induction l as [|i l IH]; intros t g Hwf Hg; [auto|].
  cbn [fold_left].
  destruct (overlay_extra_views tr t g i Hwf Hg) as (Hwf' & Hseis & Hg').
  destruct (IH _ _ Hwf' Hg') as (? & ? & ?).
  split; [assumption|]. split; [congruence|]. assumption.
Qed.

Lemma stored_float_item item i v v' :
  index_of item fdict = Some i -> stored item v = Some v' ->
  exists w, v = VFloat w /\ v' = VFloat w.
Proof.
  intros Hi. unfold stored. rewrite Hi. destruct v; try discriminate.
  intros [= <-]. eauto.
Qed.

Lemma stored_int_item item i n v' :
  index_of item fdict = None -> index_of item idict = Some i ->
  stored item (VInt n) = Some v' -> v' = VInt n /\ in_int32 n = true.
Proof.
  intros Hf Hi. unfold stored. rewrite Hf, Hi.
  destruct (in_int32 n); [|discriminate]. intros [= <-]. auto.
Qed.

Lemma stored_int_ok item i n :
  index_of item fdict = None -> index_of item idict = Some i ->
  in_int32 n = true -> stored item (VInt n) = Some (VInt n).
Proof. intros Hf Hi Hn. unfold stored. rewrite Hf, Hi, Hn. reflexivity. Qed.

Lemma in_int32_small n : -1000000 <= n <= 1000000 -> in_int32 n = true.
Proof. intros H. apply in_int32_spec. lia. Qed.

Lemma hour_range t : 0 <= hour t < 24.
Proof.
  unfold hour, us_per_day.
  pose proof (Z.mod_pos_bound t 86400000000 ltac:(lia)).
  split; [apply Z.div_pos; lia|]. apply Z.div_lt_upper_bound; lia.
Qed.

Lemma minute_range t : 0 <= minute t < 60.
Proof.
  unfold minute.
  pose proof (Z.mod_pos_bound t 3600000000 ltac:(lia)).
  split; [apply Z.div_pos; lia|]. apply Z.div_lt_upper_bound; lia.
Qed.

Lemma second_range t : 0 <= second t < 60.
Proof.
  unfold second.
  pose proof (Z.mod_pos_bound t 60000000 ltac:(lia)).
  split; [apply Z.div_pos; lia|]. apply Z.div_lt_upper_bound; lia.
Qed.

Lemma msec_range t : 0 <= microsecond t / 1000 < 1000.
Proof.
  unfold microsecond.
  pose proof (Z.mod_pos_bound t 1000000 ltac:(lia)).
  split; [apply Z.div_pos; lia|]. apply Z.div_lt_upper_bound; lia.
Qed.

Section WriteHeader.
Context `{FloatSeconds}.

Lemma write_header_inv (tr : Trace) (t : ReadSac) :
  write_header tr = Ok t ->
  exists wd start,
    write_header_ok tr wd start /\ wf_hdr t /\ seis t = data tr
    /\ views t (header_view tr (VFloat wd) start).
Proof.
  unfold write_header, stats_delta, fromarray.
  destruct (entries (stats tr) !! "delta") as [delta|] eqn:Ed; [|discriminate].
  cbn [mbind result_bind].
  set (t0 := mkReadSac (hf InitArrays) (hi InitArrays) (hs InitArrays) (data tr)).
  assert (Hwf0 : wf_hdr t0) by exact wf_InitArrays.
  assert (Hv0 : views t0 (GetHvalue InitArrays)) by (intros x; reflexivity).
  destruct (SetHvalue t0 "npts" _) as [t1|] eqn:E1; [|discriminate].
  destruct (SetHvalue_views _ _ _ _ _ Hwf0 Hv0 E1) as (v1 & Hs1 & Hwf1 & Hseis1 & Hv1).
  apply (stored_int_item _ 9%nat) in Hs1; [|reflexivity..]. destruct Hs1 as [-> Hn].
  cbn [mbind result_bind].
  destruct (SetHvalue t1 "delta" _) as [t2|] eqn:E2; [|discriminate].
  destruct (SetHvalue_views _ _ _ _ _ Hwf1 Hv1 E2) as (v2 & Hs2 & Hwf2 & Hseis2 & Hv2).
  apply (stored_float_item _ 0%nat) in Hs2; [|reflexivity]. destruct Hs2 as (wd & -> & ->).
  cbn [mbind result_bind].
  destruct (SetHvalue t2 "b" _) as [t3|] eqn:E3; [|discriminate].
  destruct (SetHvalue_views _ _ _ _ _ Hwf2 Hv2 E3) as (v3 & Hs3 & Hwf3 & Hseis3 & Hv3).
  apply (stored_float_item _ 5%nat) in Hs3; [|reflexivity]. destruct Hs3 as (w3 & [= <-] & ->).
  cbn [mbind result_bind].
  destruct (fold_overlay_common_views tr convert_dict _ _ Hwf3 Hv3) as (Hwf4 & Hseis4 & Hv4).
  set (t4 := fold_left (overlay_common tr) convert_dict t3) in *.
  destruct (fold_overlay_extra_views tr sac_extra _ _ Hwf4 Hv4) as (Hwf5 & Hseis5 & Hv5).
  set (t5 := fold_left (overlay_extra tr) sac_extra t4) in *.
  destruct (write_start tr) as [start|] eqn:Est; [|discriminate].
  cbn [mbind result_bind].
  destruct (SetHvalue t5 "nzyear" _) as [t6|] eqn:E6; [|discriminate].
  destruct (SetHvalue_views _ _ _ _ _ Hwf5 Hv5 E6) as (v6 & Hs6 & Hwf6 & Hseis6 & Hv6).
  apply (stored_int_item _ 0%nat) in Hs6; [|reflexivity..]. destruct Hs6 as [-> Hy].
  cbn [mbind result_bind].
  destruct (SetHvalue t6 "nzjday" _) as [t7|] eqn:E7; [|discriminate].
  destruct (SetHvalue_views _ _ _ _ _ Hwf6 Hv6 E7) as (v7 & Hs7 & Hwf7 & Hseis7 & Hv7).
  apply (stored_int_item _ 1%nat) in Hs7; [|reflexivity..]. destruct Hs7 as [-> Hj].
  cbn [mbind result_bind].
  destruct (SetHvalue t7 "nzhour" _) as [t8|] eqn:E8; [|discriminate].
  destruct (SetHvalue_views _ _ _ _ _ Hwf7 Hv7 E8) as (v8 & Hs8 & Hwf8 & Hseis8 & Hv8).
  apply (stored_int_item _ 2%nat) in Hs8; [|reflexivity..]. destruct Hs8 as [-> _].
  cbn [mbind result_bind].
  destruct (SetHvalue t8 "nzmin" _) as [t9|] eqn:E9; [|discriminate].
  destruct (SetHvalue_views _ _ _ _ _ Hwf8 Hv8 E9) as (v9 & Hs9 & Hwf9 & Hseis9 & Hv9).
  apply (stored_int_item _ 3%nat) in Hs9; [|reflexivity..]. destruct Hs9 as [-> _].
  cbn [mbind result_bind].
  destruct (SetHvalue t9 "nzsec" _) as [t10|] eqn:E10; [|discriminate].
  destruct (SetHvalue_views _ _ _ _ _ Hwf9 Hv9 E10) as (v10 & Hs10 & Hwf10 & Hseis10 & Hv10).
  apply (stored_int_item _ 4%nat) in Hs10; [|reflexivity..]. destruct Hs10 as [-> _].
  cbn [mbind result_bind].
  intros E11.
  destruct (SetHvalue_views _ _ _ _ _ Hwf10 Hv10 E11) as (v11 & Hs11 & Hwf11 & Hseis11 & Hv11).
  apply (stored_int_item _ 5%nat) in Hs11; [|reflexivity..]. destruct Hs11 as [-> _].
  exists wd, start. split; [|split; [exact Hwf11|split]].
  - repeat split; assumption.
  - rewrite Hseis11, Hseis10, Hseis9, Hseis8, Hseis7, Hseis6, Hseis5, Hseis4,
      Hseis3, Hseis2, Hseis1. reflexivity.
  - exact Hv11.
Qed.

Lemma write_header_succeeds (tr : Trace) (wd : word32) (start : UTCDateTime) :
  write_header_ok tr wd start -> exists t, write_header tr = Ok t.
Proof.
  intros (Ed & Hn & Est & Hy & Hj).
  unfold write_header, stats_delta, fromarray. rewrite Ed.
  cbn [mbind result_bind].
  set (t0 := mkReadSac (hf InitArrays) (hi InitArrays) (hs InitArrays) (data tr)).
  assert (Hwf0 : wf_hdr t0) by exact wf_InitArrays.
  assert (Hv0 : views t0 (GetHvalue InitArrays)) by (intros x; reflexivity).
  destruct (SetHvalue_succeeds t0 _ "npts" _ _ Hwf0 Hv0
              (stored_int_ok "npts" 9%nat _ eq_refl eq_refl Hn))
    as (t1 & -> & Hwf1 & _ & Hv1).
  cbn [mbind result_bind].
  destruct (SetHvalue_succeeds t1 _ "delta" (VFloat wd) (VFloat wd) Hwf1 Hv1 eq_refl)
    as (t2 & -> & Hwf2 & _ & Hv2).
  cbn [mbind result_bind].
  destruct (SetHvalue_succeeds t2 _ "b" (VFloat f32_zero) (VFloat f32_zero) Hwf2 Hv2 eq_refl)
    as (t3 & -> & Hwf3 & _ & Hv3).
  cbn [mbind result_bind].
  destruct (fold_overlay_common_views tr convert_dict _ _ Hwf3 Hv3) as (Hwf4 & _ & Hv4).
  set (t4 := fold_left (overlay_common tr) convert_dict t3) in *.
  destruct (fold_overlay_extra_views tr sac_extra _ _ Hwf4 Hv4) as (Hwf5 & _ & Hv5).
  set (t5 := fold_left (overlay_extra tr) sac_extra t4) in *.
  rewrite Est. cbn [mbind result_bind].
  destruct (SetHvalue_succeeds t5 _ "nzyear" _ _ Hwf5 Hv5
              (stored_int_ok "nzyear" 0%nat _ eq_refl eq_refl Hy))
    as (t6 & -> & Hwf6 & _ & Hv6).
  cbn [mbind result_bind].
  destruct (SetHvalue_succeeds t6 _ "nzjday" _ _ Hwf6 Hv6
              (stored_int_ok "nzjday" 1%nat _ eq_refl eq_refl Hj))
    as (t7 & -> & Hwf7 & _ & Hv7).
  cbn [mbind result_bind].
  pose proof (hour_range start). pose proof (minute_range start).
  pose proof (second_range start). pose proof (msec_range start).
  destruct (SetHvalue_succeeds t7 _ "nzhour" _ _ Hwf7 Hv7
              (stored_int_ok "nzhour" 2%nat _ eq_refl eq_refl (in_int32_small (hour start) ltac:(lia))))
    as (t8 & -> & Hwf8 & _ & Hv8).
  cbn [mbind result_bind].
  destruct (SetHvalue_succeeds t8 _ "nzmin" _ _ Hwf8 Hv8
              (stored_int_ok "nzmin" 3%nat _ eq_refl eq_refl (in_int32_small (minute start) ltac:(lia))))
    as (t9 & -> & Hwf9 & _ & Hv9).
  cbn [mbind result_bind].
  destruct (SetHvalue_succeeds t9 _ "nzsec" _ _ Hwf9 Hv9
              (stored_int_ok "nzsec" 4%nat _ eq_refl eq_refl (in_int32_small (second start) ltac:(lia))))
    as (t10 & -> & Hwf10 & _ & Hv10).
  cbn [mbind result_bind].
  destruct (SetHvalue_succeeds t10 _ "nzmsec" _ _ Hwf10 Hv10
              (stored_int_ok "nzmsec" 5%nat _ eq_refl eq_refl (in_int32_small (microsecond start / 1000) ltac:(lia))))
    as (t11 & -> & _).
  eauto.
Qed.
End WriteHeader.

Lemma length_header_bytes t : wf_hdr t -> length (header_bytes t) = 632%nat.
Proof.
  intros (Hf & Hi & Hs). unfold header_bytes.
  rewrite !length_app, !length_concat_words, Hf, Hi.
  rewrite (length_concat_strings _ _ Hs). reflexivity.
Qed.

Lemma length_file_bytes t :
  wf_hdr t -> length (file_bytes t) = (632 + 4 * length (seis t))%nat.
Proof.
  intros Hwf. unfold file_bytes.
  rewrite length_app, length_header_bytes, length_concat_words by assumption.
  reflexivity.
Qed.

Lemma parse_header_file_bytes t :
  wf_hdr t ->
  parse_header LittleEndian (file_bytes t) = mkReadSac (hf t) (hi t) (hs t) [].
Proof.
  intros (Hf & Hi & Hs). unfold parse_header, file_bytes, header_bytes.
  rewrite <- !app_assoc.
  assert (H280 : 280%nat = length (concat (map word_bytes (hf t))))
    by (rewrite length_concat_words, Hf; reflexivity).
  assert (H160 : 160%nat = length (concat (map word_bytes (hi t))))
    by (rewrite length_concat_words, Hi; reflexivity).
  f_equal.
  - rewrite <- Hf at 1. apply words_of_bytes_concat.
  - rewrite drop_app_length' by (rewrite length_concat_words; lia).
    rewrite <- Hi at 1. apply words_of_bytes_concat.
  - change 440%nat with (280 + 160)%nat. rewrite <- drop_drop.
    rewrite drop_app_length' by (rewrite length_concat_words; lia).
    rewrite drop_app_length' by (rewrite length_concat_words; lia).
    apply strings_of_bytes_concat. exact Hs.
Qed.

Lemma npts_bytes_file_bytes t :
  wf_hdr t ->
  take 4 (drop 316 (file_bytes t))
  = word_bytes (default (word_of_Z (-12345)) (hi t !! 9%nat)).
Proof.
  intros (Hf & Hi & Hs). unfold file_bytes, header_bytes.
  rewrite <- !app_assoc.
  change 316%nat with (280 + 4 * 9)%nat. rewrite <- drop_drop.
  rewrite drop_app_length' by (rewrite length_concat_words; lia).
  destruct (hi t !! 9%nat) as [w|] eqn:E.
  - apply take_drop_word. exact E.
  - apply lookup_ge_None in E. lia.
Qed.

Lemma detect_order_file_bytes t :
  wf_hdr t ->
  GetHvalue t "npts" = Ok (VInt (Z.of_nat (length (seis t)))) ->
  detect_order (file_bytes t) = Ok LittleEndian.
Proof.
  intros Hwf Hn. unfold detect_order.
  rewrite npts_bytes_file_bytes by assumption.
  change (GetHvalue t "npts")
    with (Ok (VInt (word_signed (default (word_of_Z (-12345)) (hi t !! 9%nat))))) in Hn.
  injection Hn as Hn.
  unfold struct_unpack_i, combine32. cbn [length word_bytes Nat.eqb].
  fold (word_bytes (default (word_of_Z (-12345)) (hi t !! 9%nat))).
  fold (word_unsigned (default (word_of_Z (-12345)) (hi t !! 9%nat))).
  fold (word_signed (default (word_of_Z (-12345)) (hi t !! 9%nat))).
  rewrite Hn, length_file_bytes by assumption.
  destruct (Z.eqb_spec (Z.of_nat (632 + 4 * length (seis t)))
                       (632 + 4 * Z.of_nat (length (seis t)))); [reflexivity|lia].
Qed.

Lemma ReadSacFile_written (fs : filesystem) (filename : string) (t : ReadSac) :
  wf_hdr t ->
  GetHvalue t "npts" = Ok (VInt (Z.of_nat (length (seis t)))) ->
  ReadSacFile (<[filename := file_bytes t]> fs) filename = Ok t.
Proof.
  intros Hwf Hn. unfold ReadSacFile, open_rb.
  rewrite lookup_insert_eq. cbn [mbind result_bind content].
  rewrite detect_order_file_bytes by assumption. cbn [mbind result_bind].
  rewrite length_file_bytes by assumption.
  destruct (Nat.ltb_spec (632 + 4 * length (seis t)) 632); [lia|].
  rewrite parse_header_file_bytes by assumption. cbn [hf hi hs].
  change (GetHvalue t "npts")
    with (Ok (VInt (word_signed (default (word_of_Z (-12345)) (hi t !! 9%nat))))) in Hn.
  injection Hn as ->. rewrite Nat2Z.id.
  unfold file_bytes.
  rewrite drop_app_length' by (rewrite length_header_bytes by assumption; reflexivity).
  rewrite <- (app_nil_r (concat _)), words_of_bytes_concat.
  destruct t; reflexivity.
Qed.

Lemma ReadSacHeader_written (fs : filesystem) (filename : string) (t : ReadSac) :
  wf_hdr t ->
  GetHvalue t "npts" = Ok (VInt (Z.of_nat (length (seis t)))) ->
  ReadSacHeader (<[filename := file_bytes t]> fs) filename
  = Ok (mkReadSac (hf t) (hi t) (hs t) []).
Proof.
  intros Hwf Hn. unfold ReadSacHeader, open_rb.
  rewrite lookup_insert_eq. cbn [mbind result_bind content].
  rewrite detect_order_file_bytes by assumption. cbn [mbind result_bind].
  rewrite length_file_bytes by assumption.
  destruct (Nat.ltb_spec (632 + 4 * length (seis t)) 632); [lia|].
  rewrite parse_header_file_bytes by assumption. reflexivity.
Qed.

(** The reader's endianness probe is the check of [isSAC]: a file is parsed
    exactly when [isSAC] accepts it and it holds a whole header. *)
Lemma detect_order_isSAC (fs : filesystem) (filename : string) (bs : list byte) :
  fs !! filename = Some bs ->
  (isSAC fs filename = Ok true <-> exists o, detect_order bs = Ok o).
Proof.
  intros Hbs. rewrite isSAC_unfold, Hbs. unfold detect_order.
  destruct (take 4 (drop 316 bs)) as [|b0 [|b1 [|b2 [|b3 [|b4 data]]]]] eqn:E;
    try (split; [discriminate|intros [o Ho]; discriminate Ho]).
  rewrite !struct_unpack_i_4.
  destruct (Z.of_nat (length bs) =? 632 + 4 * le_i32 b0 b1 b2 b3).
  - split; [eauto|reflexivity].
  - destruct (Z.of_nat (length bs) =? 632 + 4 * be_i32 b0 b1 b2 b3).
    + split; [eauto|reflexivity].
    + split; [discriminate|intros [o Ho]; discriminate Ho].
Qed.

Lemma ReadSacFile_isSAC (fs : filesystem) (filename : string) (t : ReadSac) :
  ReadSacFile fs filename = Ok t -> isSAC fs filename = Ok true.
Proof.
  unfold ReadSacFile, open_rb.
  destruct (fs !! filename) as [bs|] eqn:Hbs; [|discriminate].
  cbn [mbind result_bind content].
  destruct (detect_order bs) as [o|] eqn:Ho; [|discriminate].
  intros _. apply (detect_order_isSAC fs filename bs Hbs). eauto.
Qed.

Lemma ReadSacFile_not_SAC (fs : filesystem) (filename : string) (bs : list byte) :
  fs !! filename = Some bs -> isSAC fs filename = Ok false ->
  ReadSacFile fs filename = Err SacError.
Proof.
  intros Hbs Hsac. unfold ReadSacFile, open_rb. rewrite Hbs.
  cbn [mbind result_bind content].
  destruct (detect_order bs) as [o|e] eqn:Ho.
  - assert (isSAC fs filename = Ok true)
      by (apply (detect_order_isSAC fs filename bs Hbs); eauto).
    congruence.
  - unfold detect_order in Ho.
    destruct (struct_unpack_i LittleEndian _); [|injection Ho as <-; reflexivity].
    destruct (_ =? _); [discriminate|].
    destruct (struct_unpack_i BigEndian _); [|injection Ho as <-; reflexivity].
    destruct (_ =? _); [discriminate|]. injection Ho as <-. reflexivity.
Qed.

(** A header-only read parses what a full read parses, less the samples. *)
Lemma ReadSacHeader_of_ReadSacFile (fs : filesystem) (filename : string)
    (t : ReadSac) :
  ReadSacFile fs filename = Ok t ->
  ReadSacHeader fs filename = Ok (mkReadSac (hf t) (hi t) (hs t) []).
Proof.
  unfold ReadSacFile, ReadSacHeader, open_rb.
  destruct (fs !! filename) as [bs|]; [|discriminate].
  cbn [mbind result_bind content].
  destruct (detect_order bs) as [o|]; [|discriminate].
  cbn [mbind result_bind].
  destruct (length bs <? 632)%nat; [discriminate|].
  intros [= <-]. reflexivity.
Qed.

Lemma GetHvalue_known t item : known item = true -> GetHvalue t item = Ok (getv t item).
Proof.
  unfold known, getv, GetHvalue.
  destruct (index_of item fdict); [reflexivity|].
  destruct (index_of item idict); [reflexivity|].
  destruct (index_of item (map fst sdict)); [reflexivity|discriminate].
Qed.

Lemma convert_entry_known t m i j :
  known i = true -> convert_entry t m (i, j) = Ok (<[j := conv (getv t i)]> m).
Proof.
  intros Hi. unfold convert_entry. rewrite (GetHvalue_known t i Hi).
  cbn [mbind result_bind]. unfold conv. destruct (getv t i); reflexivity.
Qed.

Lemma foldM_convert_entry t (l : list (string * string)) (m : gmap string value) :
  forallb (fun ij : string * string => known ij.1) l = true ->
  foldM (convert_entry t) m l
  = Ok (fold_left (fun m (ij : string * string) => <[ij.2 := conv (getv t ij.1)]> m) l m).
Proof.
  revert m. induction l as [|[i j] l IH]; intros m Hk; [reflexivity|].
  cbn [forallb fst] in Hk. apply andb_true_iff in Hk as [Hi Hl].
  cbn [foldM fold_left]. rewrite (convert_entry_known t m i j Hi).
  cbn [mbind result_bind]. apply IH. exact Hl.
Qed.

Lemma extra_entry_known t m i :
  known i = true -> extra_entry t m i = Ok (<[i := getv t i]> m).
Proof.
  intros Hi. unfold extra_entry. rewrite (GetHvalue_known t i Hi). reflexivity.
Qed.

Lemma foldM_extra_entry t (l : list string) (m : gmap string value) :
  forallb known l = true ->
  foldM (extra_entry t) m l = Ok (fold_left (fun m i => <[i := getv t i]> m) l m).
Proof.
  revert m. induction l as [|i l IH]; intros m Hk; [reflexivity|].
  cbn [forallb] in Hk. apply andb_true_iff in Hk as [Hi Hl].
  cbn [foldM fold_left]. rewrite (extra_entry_known t m i Hi).
  cbn [mbind result_bind]. apply IH. exact Hl.
Qed.

Lemma lookup_fold_insert (f : string -> value) (l : list string)
    (m : gmap string value) (k : string) :
  fold_left (fun m i => <[i := f i]> m) l m !! k
  = if bool_decide (k ∈ l) then Some (f k) else m !! k.
Proof.
  revert m. induction l as [|i l IH]; intros m; [reflexivity|].
  cbn [fold_left]. rewrite IH.
  destruct (bool_decide_reflect (k ∈ l)) as [Hin|Hnin].
  - rewrite bool_decide_eq_true_2 by (right; exact Hin). reflexivity.
  - destruct (decide (i = k)) as [->|Hne].
    + rewrite bool_decide_eq_true_2 by left. apply lookup_insert_eq.
    + rewrite bool_decide_eq_false_2.
      * apply lookup_insert_ne. exact Hne.
      * intros [->|?]%elem_of_cons; [congruence|contradiction].
Qed.

Lemma lookup_extra_of t k :
  extra_of t !! k = if bool_decide (k ∈ sac_extra) then Some (getv t k) else None.
Proof. unfold extra_of. rewrite lookup_fold_insert. reflexivity. Qed.

Lemma lookup_fold_insert_pairs (f : string -> value) (l : list (string * string))
    (m : gmap string value) (i j : string) :
  NoDup (map snd l) -> (i, j) ∈ l ->
  fold_left (fun m (ij : string * string) => <[ij.2 := f ij.1]> m) l m !! j = Some (f i).
Proof.
  revert m. induction l as [|[i' j'] l IH]; intros m Hnd Hin.
  - inversion Hin.
  - cbn [fold_left fst snd]. cbn [map snd] in Hnd. apply NoDup_cons in Hnd as [Hj' Hnd].
    apply elem_of_cons in Hin as [[= -> ->]|Hin].
    + clear IH. revert m. induction l as [|[i2 j2] l IHl]; intros m.
      * apply lookup_insert_eq.
      * cbn [fold_left fst snd]. cbn [map snd] in Hj', Hnd.
        apply not_elem_of_cons in Hj' as [Hne Hj'].
        apply NoDup_cons in Hnd as [_ Hnd].
        rewrite insert_insert_ne by congruence. apply IHl; assumption.
    + apply IH; assumption.
Qed.

Lemma lookup_header_of t i j :
  (i, j) ∈ convert_dict -> header_of t !! j = Some (conv (getv t i)).
Proof.
  intros Hin. unfold header_of.
  apply (lookup_fold_insert_pairs (fun i => conv (getv t i))); [|exact Hin].
  apply (bool_decide_unpack _). vm_compute. reflexivity.
Qed.

Section Reader.
Context `{FloatSeconds}.

(** The reader, once the file has been parsed into the header [t]. *)
Lemma readSAC_parsed (fs : filesystem) (filename : string) (headonly : bool)
    (t : ReadSac) :
  (if headonly then ReadSacHeader fs filename else ReadSacFile fs filename) = Ok t ->
  readSAC fs filename headonly
  = (start ← read_starttime (sac_starttime t) (extra_of t);
     Ok [mkTrace (mkStats start (calib_fix (header_of t)) (Some (extra_of t)))
                 (if headonly then [] else seis t)]).
Proof.
  intros Ht. unfold readSAC. rewrite Ht. cbn [mbind result_bind].
  rewrite foldM_convert_entry by reflexivity. cbn [mbind result_bind].
  fold (header_of t). unfold getitem at 1.
  rewrite (lookup_header_of t "scale" "calib") by set_solver.
  cbn [mbind result_bind].
  rewrite foldM_extra_entry by reflexivity. cbn [mbind result_bind].
  fold (extra_of t).
  unfold calib_fix. rewrite (lookup_header_of t "scale" "calib") by set_solver.
  destruct (read_starttime (sac_starttime t) (extra_of t)); [|reflexivity].
  cbn [mbind result_bind]. destruct headonly; reflexivity.
Qed.
End Reader.

Lemma word_unsigned_range w : 0 <= word_unsigned w < 2 ^ 32.
Proof. unfold word_unsigned. apply (le_combine_bound (word_bytes w)). Qed.

Lemma word_unsigned_inj w w' : word_unsigned w = word_unsigned w' -> w = w'.
Proof.
  unfold word_unsigned. intros Heq.
  apply le_combine_inj in Heq; [|reflexivity].
  destruct w, w'. injection Heq as -> -> -> ->. reflexivity.
Qed.

Lemma f32_sentinel_unsigned : word_unsigned f32_sentinel = 3326141440.
Proof. reflexivity. Qed.

(** Comparing a single with [-12345.0] is comparing its bits with those of
    the sentinel. *)
Lemma f32_eq_sentinel w : f32_eq_Z w (-12345) = true <-> w = f32_sentinel.
Proof.
  split; [|intros ->; reflexivity].
  unfold f32_eq_Z, f32_decode. intros Heq.
  apply word_unsigned_inj. rewrite f32_sentinel_unsigned.
  pose proof (word_unsigned_range w) as Hu.
  set (u := word_unsigned w) in *. clearbody u.
  assert (Hq : u / 2 ^ 31 = u / 2 ^ 23 / 2 ^ 8) by (rewrite Z.div_div by lia; reflexivity).
  pose proof (Z.div_mod u (2 ^ 23) ltac:(lia)) as Hdm.
  pose proof (Z.mod_pos_bound u (2 ^ 23) ltac:(lia)) as HF.
  pose proof (Z.div_mod (u / 2 ^ 23) (2 ^ 8) ltac:(lia)) as Hdm'.
  pose proof (Z.mod_pos_bound (u / 2 ^ 23) (2 ^ 8) ltac:(lia)) as HE.
  rewrite Hq in Heq.
  set (F := u mod 2 ^ 23) in *. set (E := (u / 2 ^ 23) mod 2 ^ 8) in *.
  set (s := u / 2 ^ 23 / 2 ^ 8) in *. set (q := u / 2 ^ 23) in *.
  assert (Hs : 0 <= s <= 1).
  { assert (0 <= q < 512).
    { subst q. split; [apply Z.div_pos; lia|apply Z.div_lt_upper_bound; lia]. }
    lia. }
  clearbody F E s q.
  destruct (Z.eqb_spec E 255); [discriminate|].
  destruct (Z.eqb_spec E 0) as [->|HE0].
  - (* subnormal *)
    cbn [Z.leb Z.opp] in Heq. change (0 <=? -149) with false in Heq.
    cbv iota in Heq. apply Z.eqb_eq in Heq.
    change (-12345 * 2 ^ (- (-149))) with (-12345 * 2 ^ 149) in Heq.
    assert (2 ^ 23 < 2 ^ 149) by (apply Z.pow_lt_mono_r; lia).
    destruct (s =? 0); lia.
  - destruct (Z.leb_spec 0 (E - 150)) as [Hge|Hlt]; apply Z.eqb_eq in Heq.
    + assert (1 <= 2 ^ (E - 150)) by (apply (Z.pow_le_mono_r 2 0); lia).
      destruct (s =? 0); nia.
    + replace (- (E - 150)) with (150 - E) in Heq by lia.
      destruct (Z.eqb_spec s 0) as [Hs0|Hs1].
      { assert (0 < 2 ^ (150 - E)) by (apply Z.pow_pos_nonneg; lia). nia. }
      assert (Hs1' : s = 1) by lia.
      destruct (Z.le_gt_cases 11 (150 - E)) as [Hk|Hk].
      { assert (2 ^ 11 <= 2 ^ (150 - E)) by (apply Z.pow_le_mono_r; lia). lia. }
      destruct (Z.le_gt_cases (150 - E) 9) as [Hk'|Hk'].
      { assert (2 ^ (150 - E) <= 2 ^ 9) by (apply Z.pow_le_mono_r; lia). lia. }
      assert (E = 140) by lia. subst E.
      change (2 ^ (150 - 140)) with 1024 in Heq. lia.
Qed.

Lemma utc_fields_roundtrip (s : UTCDateTime) :
  utc_of_fields (year s) (julday s) (hour s) (minute s) (second s)
                (microsecond s / 1000 * 1000)
  = trunc_ms s.
Proof.
  unfold utc_of_fields, julday, toordinal, hour, minute, second, microsecond,
    trunc_ms, us_per_day.
  generalize (days_before_year (year s)). intros d.
  Z.div_mod_to_equations. lia.
Qed.


Lemma trunc_ms_aligned (s : UTCDateTime) : trunc_ms s mod 1000 = 0.
Proof.
  unfold trunc_ms. rewrite Zminus_mod, Z.mod_mod, Z.sub_diag by lia. reflexivity.
Qed.

(** The calendar is right: the day number lies in the year found for it. *)
Lemma year_of_ordinal_spec (n : Z) :
  1 <= n ->
  days_before_year (year_of_ordinal n) < n
  /\ n <= days_before_year (year_of_ordinal n + 1).
Proof.
  intros Hn. unfold year_of_ordinal, days_before_year. cbv zeta.
  destruct (Z.eqb_spec ((((n - 1) mod 146097) mod 36524) mod 1461 / 365) 4) as [E1|E1];
  destruct (Z.eqb_spec ((n - 1) mod 146097 / 36524) 4) as [E2|E2]; cbn [orb];
  Z.div_mod_to_equations; lia.
Qed.

Lemma days_in_year (y : Z) :
  365 <= days_before_year (y + 1) - days_before_year y <= 366.
Proof. unfold days_before_year. Z.div_mod_to_equations. lia. Qed.

Lemma julday_range (t : UTCDateTime) : 1 <= toordinal t -> 1 <= julday t <= 366.
Proof.
  intros Ht. unfold julday, year.
  pose proof (year_of_ordinal_spec (toordinal t) Ht).
  pose proof (days_in_year (year_of_ordinal (toordinal t))). lia.
Qed.

Lemma year_range (t : UTCDateTime) : datetime_range t -> 1 <= year t <= 9999.
Proof.
  intros [Hlo Hhi]. unfold year.
  pose proof (year_of_ordinal_spec (toordinal t) Hlo) as [H1 H2].
  revert H1 H2. generalize (year_of_ordinal (toordinal t)). intros y.
  unfold days_before_year. intros H1 H2.
  Z.div_mod_to_equations. lia.
Qed.

Lemma fold_upd_extra tr (l : list string) (g : string -> result value) (x : string) :
  fold_left (upd_extra tr) l g x
  = if bool_decide (x ∈ l) then
      match extra_value tr x ≫= stored x with
      | Some v' => Ok v'
      | None => g x
      end
    else g x.
Proof.
  revert g. induction l as [|i l IH]; intros g; [reflexivity|].
  cbn [fold_left]. rewrite IH.
  assert (Hg : upd_extra tr g i x
               = if decide (i = x) then
                   match extra_value tr x ≫= stored x with
                   | Some v' => Ok v'
                   | None => g x
                   end
                 else g x).
  { unfold upd_extra. destruct (decide (i = x)) as [->|Hne].
    - destruct (extra_value tr x ≫= stored x); [|reflexivity].
      unfold set_view. rewrite String.eqb_refl. reflexivity.
    - destruct (extra_value tr i ≫= stored i); [|reflexivity].
      unfold set_view. destruct (String.eqb_spec x i); [congruence|reflexivity]. }
  rewrite Hg.
  destruct (decide (i = x)) as [->|Hne].
  - rewrite (bool_decide_eq_true_2 (x ∈ x :: l)) by left.
    destruct (bool_decide (x ∈ l)); destruct (extra_value tr x ≫= stored x); reflexivity.
  - destruct (bool_decide_reflect (x ∈ l)) as [Hin|Hnin].
    + rewrite bool_decide_eq_true_2 by (right; exact Hin). reflexivity.
    + rewrite bool_decide_eq_false_2; [reflexivity|].
      intros [->|?]%elem_of_cons; [congruence|contradiction].
Qed.

Lemma fold_upd_common tr (l : list (string * string)) (g : string -> result value)
    (x kx : string) :
  Forall (fun jk : string * string => jk.1 = x -> jk.2 = kx) l ->
  fold_left (upd_common tr) l g x
  = if bool_decide (x ∈ map fst l) then
      match entries (stats tr) !! kx ≫= stored x with
      | Some v' => Ok v'
      | None => g x
      end
    else g x.
Proof.
  revert g. induction l as [|[j k] l IH]; intros g Hall; [reflexivity|].
  apply Forall_cons in Hall as [Hjk Hall]. cbn [fst snd] in Hjk.
  cbn [fold_left map fst]. rewrite IH by exact Hall.
  assert (Hg : upd_common tr g (j, k) x
               = if decide (j = x) then
                   match entries (stats tr) !! kx ≫= stored x with
                   | Some v' => Ok v'
                   | None => g x
                   end
                 else g x).
  { unfold upd_common. cbn [fst snd]. destruct (decide (j = x)) as [->|Hne].
    - rewrite (Hjk eq_refl).
      destruct (entries (stats tr) !! kx ≫= stored x); [|reflexivity].
      unfold set_view. rewrite String.eqb_refl. reflexivity.
    - destruct (entries (stats tr) !! k ≫= stored j); [|reflexivity].
      unfold set_view. destruct (String.eqb_spec x j); [congruence|reflexivity]. }
  rewrite Hg.
  destruct (decide (j = x)) as [->|Hne].
  - rewrite (bool_decide_eq_true_2 (x ∈ x :: map fst l)) by left.
    destruct (bool_decide (x ∈ map fst l));
      destruct (entries (stats tr) !! kx ≫= stored x); reflexivity.
  - destruct (bool_decide_reflect (x ∈ map fst l)) as [Hin|Hnin].
    + rewrite bool_decide_eq_true_2 by (right; exact Hin). reflexivity.
    + rewrite bool_decide_eq_false_2; [reflexivity|].
      intros [->|?]%elem_of_cons; [congruence|contradiction].
Qed.

Lemma set_view_other g item v' x :
  String.eqb x item = false -> set_view g item v' x = g x.
Proof. intros H. unfold set_view. rewrite H. reflexivity. Qed.

Lemma set_view_same g item v' : set_view g item v' item = Ok v'.
Proof. unfold set_view. rewrite String.eqb_refl. reflexivity. Qed.

Lemma header_view_npts tr delta start :
  header_view tr delta start "npts"
  = match entries (stats tr) !! "npts" ≫= stored "npts" with
    | Some v' => Ok v'
    | None => Ok (VInt (Z.of_nat (length (data tr))))
    end.
Proof.
  unfold header_view. cbv zeta.
  do 6 (rewrite (set_view_other _ _ _ "npts") by (vm_compute; reflexivity)).
  rewrite fold_upd_extra.
  rewrite bool_decide_eq_false_2 by (apply (bool_decide_unpack _); vm_compute; reflexivity).
  rewrite (fold_upd_common tr convert_dict _ "npts" "npts")
    by (apply (bool_decide_unpack _); vm_compute; reflexivity).
  rewrite bool_decide_eq_true_2 by (apply (bool_decide_unpack _); vm_compute; reflexivity).
  reflexivity.
Qed.

Ltac decide_by_computation :=
  first [ apply (bool_decide_unpack _); vm_compute; reflexivity
        | vm_compute; reflexivity ].

Lemma header_view_extra tr delta start (x : string) :
  x ∈ sac_extra ->
  (~ x ∈ ["nzyear"; "nzjday"; "nzhour"; "nzmin"; "nzsec"; "nzmsec"]) ->
  (~ x ∈ map fst convert_dict) ->
  header_view tr delta start x
  = match extra_value tr x ≫= stored x with
    | Some v' => Ok v'
    | None =>
        if String.eqb x "b" then Ok (VFloat f32_zero) else GetHvalue InitArrays x
    end.
Proof.
  intros Hin Hnz Hcd. unfold header_view. cbv zeta.
  do 6 (rewrite (set_view_other _ _ _ x)
         by (apply String.eqb_neq; intros ->; apply Hnz; decide_by_computation)).
  rewrite fold_upd_extra, bool_decide_eq_true_2 by exact Hin.
  destruct (extra_value tr x ≫= stored x); [reflexivity|].
  rewrite (fold_upd_common tr convert_dict _ x x).
  2:{ apply Forall_forall. intros [j k] Hjk. cbn [fst snd]. intros ->.
      exfalso. apply Hcd. apply (list_elem_of_fmap_2 fst _ (x, k)). exact Hjk. }
  rewrite bool_decide_eq_false_2 by exact Hcd.
  unfold set_view at 1. destruct (String.eqb x "b"); [reflexivity|].
  rewrite !set_view_other; [reflexivity| |].
  - apply String.eqb_neq. intros ->. apply Hcd. decide_by_computation.
  - apply String.eqb_neq. intros ->. apply Hcd. decide_by_computation.
Qed.

Lemma header_view_iztype tr delta start :
  header_view tr delta start "iztype"
  = match extra_value tr "iztype" ≫= stored "iztype" with
    | Some v' => Ok v'
    | None => Ok (VInt (-12345))
    end.
Proof.
  rewrite header_view_extra by decide_by_computation.
  destruct (extra_value tr "iztype" ≫= stored "iztype"); reflexivity.
Qed.

Lemma header_view_b tr delta start :
  header_view tr delta start "b"
  = match extra_value tr "b" ≫= stored "b" with
    | Some v' => Ok v'
    | None => Ok (VFloat f32_zero)
    end.
Proof.
  rewrite header_view_extra by decide_by_computation.
  destruct (extra_value tr "b" ≫= stored "b"); reflexivity.
Qed.

Lemma sac_starttime_view t tr delta start :
  views t (header_view tr delta start) -> sac_starttime t = trunc_ms start.
Proof.
  intros Hv. unfold sac_starttime, hint. rewrite !Hv.
  change (header_view tr delta start "nzyear") with (Ok (VInt (year start))).
  change (header_view tr delta start "nzjday") with (Ok (VInt (julday start))).
  change (header_view tr delta start "nzhour") with (Ok (VInt (hour start))).
  change (header_view tr delta start "nzmin") with (Ok (VInt (minute start))).
  change (header_view tr delta start "nzsec") with (Ok (VInt (second start))).
  change (header_view tr delta start "nzmsec")
    with (Ok (VInt (microsecond start / 1000))).
  apply utc_fields_roundtrip.
Qed.

Lemma stored_npts_consistent tr :
  npts_consistent tr ->
  match entries (stats tr) !! "npts" ≫= stored "npts" with
  | Some v' => Ok v'
  | None => Ok (VInt (Z.of_nat (length (data tr))))
  end = Ok (VInt (Z.of_nat (length (data tr)))).
Proof.
  intros Hc. destruct (entries (stats tr) !! "npts") as [v|] eqn:E; [|reflexivity].
  cbn [mbind option_bind].
  destruct (stored "npts" v) as [v'|] eqn:Es; [|reflexivity].
  destruct v as [w|n|s]; try discriminate Es.
  apply (stored_int_item "npts" 9%nat) in Es; [|reflexivity..].
  destruct Es as [-> _]. rewrite (Hc n E). reflexivity.
Qed.

Section WriteSingle.
Context `{FloatSeconds}.

Lemma writeSAC_single (tr : Trace) (filename : string) (fs : filesystem) :
  writeSAC [tr] filename fs
  = (t ← write_header tr; Ok (<[filename := file_bytes t]> fs)).
Proof.
  unfold writeSAC. destruct (splitext filename) as [base ext].
  cbn [foldM mbind result_bind]. unfold write_trace.
  destruct (write_header tr) as [t|e]; reflexivity.
Qed.

(** A written trace reads back: the header the reader parses is the header
    the writer built. *)
Lemma written_trace_reads (tr : Trace) (filename : string)
    (fs fs' : filesystem) :
  npts_consistent tr ->
  writeSAC [tr] filename fs = Ok fs' ->
  exists t wd start,
    write_header_ok tr wd start
    /\ views t (header_view tr (VFloat wd) start)
    /\ seis t = data tr
    /\ fs' = <[filename := file_bytes t]> fs
    /\ ReadSacFile fs' filename = Ok t
    /\ sac_starttime t = trunc_ms start.
Proof.
  intros Hc Hw. rewrite writeSAC_single in Hw.
  destruct (write_header tr) as [t|] eqn:Et; [|discriminate].
  injection Hw as <-.
  destruct (write_header_inv tr t Et) as (wd & start & Hok & Hwf & Hseis & Hv).
  exists t, wd, start.
  split; [exact Hok|]. split; [exact Hv|]. split; [exact Hseis|].
  split; [reflexivity|]. split.
  - apply ReadSacFile_written; [exact Hwf|].
    rewrite Hv, header_view_npts, Hseis. apply stored_npts_consistent. exact Hc.
  - eapply sac_starttime_view. exact Hv.
Qed.
End WriteSingle.

Lemma py_eq_num_functional v n n' :
  py_eq_num v n = true -> n <> n' -> py_eq_num v n' = false.
Proof.
  destruct v as [w|m|s]; cbn [py_eq_num]; [|lia|discriminate].
  unfold f32_eq_Z. destruct (f32_decode w) as [[m e]|]; [|discriminate].
  destruct (Z.leb_spec 0 e) as [He|He]; intros H1%Z.eqb_eq Hne; apply Z.eqb_neq.
  - lia.
  - assert (0 < 2 ^ (- e)) by (apply Z.pow_pos_nonneg; lia). nia.
Qed.

Lemma extra_of_iztype t : extra_of t !! "iztype" = Some (getv t "iztype").
Proof. rewrite lookup_extra_of. reflexivity. Qed.

Lemma extra_of_b t : extra_of t !! "b" = Some (getv t "b").
Proof. rewrite lookup_extra_of. reflexivity. Qed.

Lemma npts_matches_consistent (tr : Trace) :
  npts_matches tr -> npts_consistent tr.
Proof.
  unfold npts_matches, npts_consistent. intros Hm n Hn. rewrite Hn in Hm.
  injection Hm as ->. reflexivity.
Qed.

Section RoundTrip.
Context `{FloatSeconds}.

Lemma write_start_begin (tr : Trace) :
  iztype_begin tr -> write_start tr = Ok (starttime (stats tr)).
Proof.
  unfold iztype_begin, extra_value, write_start, stats_sac_item, getitem.
  destruct (sac (stats tr)) as [d|]; [|reflexivity].
  cbn [mbind result_bind].
  destruct (d !! "iztype") as [v|]; [|reflexivity].
  cbn [mbind result_bind]. intros Hv.
  assert (H11 : py_eq_num v 11 = false).
  { destruct Hv as [Hv|Hv]; eapply py_eq_num_functional; eauto; lia. }
  rewrite H11. destruct (py_eq_num v 9 || py_eq_num v (-12345)); reflexivity.
Qed.

(** What the header holds for [iztype] when the trace declares the begin
    time. *)
Lemma header_iztype_begin (tr : Trace) :
  iztype_begin tr ->
  exists n, (n = 9 \/ n = -12345)
            /\ match extra_value tr "iztype" ≫= stored "iztype" with
               | Some v' => Ok v'
               | None => Ok (VInt (-12345))
               end = Ok (VInt n).
Proof.
  unfold iztype_begin. destruct (extra_value tr "iztype") as [v|]; [|eauto].
  cbn [mbind option_bind]. intros Hv.
  destruct v as [w|n|s].
  - eauto.
  - exists n. cbn [py_eq_num] in Hv. split; [lia|].
    rewrite (stored_int_ok "iztype" 17%nat n eq_refl eq_refl); [reflexivity|].
    apply in_int32_spec. lia.
  - destruct Hv; discriminate.
Qed.

Lemma read_starttime_begin (t : ReadSac) (n : Z) :
  GetHvalue t "iztype" = Ok (VInt n) -> n = 9 \/ n = -12345 ->
  read_starttime (sac_starttime t) (extra_of t) = Ok (sac_starttime t).
Proof.
  intros Hg Hn. unfold read_starttime, getitem.
  rewrite extra_of_iztype. unfold getv. rewrite Hg.
  cbn [mbind result_bind py_eq_num].
  destruct Hn as [-> | ->]; reflexivity.
Qed.
End RoundTrip.



(** ** [strip] *)

Lemma lstrip_spec (s : string) :
  exists l, s = l +:+ lstrip s /\ all_space l = true
            /\ starts_with_space (lstrip s) = false.
Proof.
  induction s as [|a s (l & Hs & Hl & Hst)].
  - exists "". auto.
  - cbn [lstrip]. destruct (is_space a) eqn:Ea.
    + exists (String a l). split; [|split].
      * change (String a l +:+ lstrip s) with (String a (l +:+ lstrip s)).
        rewrite <- Hs. reflexivity.
      * cbn [all_space]. rewrite Ea, Hl. reflexivity.
      * exact Hst.
    + exists "". split; [reflexivity|]. split; [reflexivity|exact Ea].
Qed.

Lemma rstrip_spec (s : string) :
  exists r, s = rstrip s +:+ r /\ all_space r = true
            /\ ends_with_space (rstrip s) = false.
Proof.
  induction s as [|a s (r & Hs & Hr & Hend)].
  - exists "". auto.
  - cbn [rstrip]. destruct (rstrip s) as [|b q] eqn:Eq.
    + change ("" +:+ r) with r in Hs. subst r.
      destruct (is_space a) eqn:Ea.
      * exists (String a s). split; [reflexivity|]. split; [|reflexivity].
        cbn [all_space]. rewrite Ea, Hr. reflexivity.
      * exists s. split; [reflexivity|]. split; [exact Hr|exact Ea].
    + exists r. split; [|split; [exact Hr|exact Hend]].
      change (String a (String b q) +:+ r) with (String a (String b q +:+ r)).
      rewrite <- Hs. reflexivity.
Qed.

Lemma rstrip_keeps_head (s : string) :
  starts_with_space s = false -> starts_with_space (rstrip s) = false.
Proof.
  destruct s as [|a s]; [reflexivity|]. cbn [starts_with_space rstrip].
  intros Ea. destruct (rstrip s); [rewrite Ea|]; cbn [starts_with_space]; auto.
Qed.

(** [strip] removes white space from both ends, all of it, and nothing
    else. *)
Lemma strip_spec (s : string) :
  exists l r,
    s = l +:+ strip s +:+ r
    /\ all_space l = true /\ all_space r = true
    /\ starts_with_space (strip s) = false
    /\ ends_with_space (strip s) = false.
Proof.
  destruct (lstrip_spec s) as (l & Hs & Hl & Hst).
  destruct (rstrip_spec (lstrip s)) as (r & Hs' & Hr & Hend).
  exists l, r. unfold strip. split; [|split; [exact Hl|split; [exact Hr|split]]].
  - rewrite <- Hs'. exact Hs.
  - apply rstrip_keeps_head. exact Hst.
  - exact Hend.
Qed.

Lemma getv_iztype t : getv t "iztype" = VInt (hint t "iztype").
Proof. reflexivity. Qed.

Lemma getv_b t : getv t "b" = VFloat (hfloat t "b").
Proof. reflexivity. Qed.

Lemma conv_getv_scale t : conv (getv t "scale") = VFloat (hfloat t "scale").
Proof. reflexivity. Qed.

Section ReaderRules.
Context `{FloatSeconds}.

Lemma read_starttime_cases (t : ReadSac) :
  read_starttime (sac_starttime t) (extra_of t)
  = if hint t "iztype" =? 11 then Ok (sac_starttime t + float_us (hfloat t "b"))
    else if (hint t "iztype" =? 9) || (hint t "iztype" =? -12345)
         then Ok (sac_starttime t)
         else Err NotImplementedError.
Proof.
  unfold read_starttime, getitem. rewrite extra_of_iztype, extra_of_b.
  rewrite getv_iztype, getv_b.
  cbn [mbind result_bind py_eq_num py_float_us].
  destruct (hint t "iztype" =? 11); reflexivity.
Qed.

Lemma readSAC_rule (fs : filesystem) (filename : string) (headonly : bool)
    (t : ReadSac) :
  (if headonly then ReadSacHeader fs filename else ReadSacFile fs filename) = Ok t ->
  (hint t "iztype" = 11 ->
   exists tr, readSAC fs filename headonly = Ok [tr]
              /\ data tr = (if headonly then [] else seis t)
              /\ starttime (stats tr)
                 = sac_starttime t + float_us (hfloat t "b"))
  /\ (hint t "iztype" = 9 \/ hint t "iztype" = -12345 ->
      exists tr, readSAC fs filename headonly = Ok [tr]
                 /\ data tr = (if headonly then [] else seis t)
                 /\ starttime (stats tr) = sac_starttime t)
  /\ (hint t "iztype" <> 11 -> hint t "iztype" <> 9 ->
      hint t "iztype" <> -12345 ->
      readSAC fs filename headonly = Err NotImplementedError).
Proof.
  intros Ht. rewrite (readSAC_parsed fs filename headonly t Ht).
  rewrite read_starttime_cases.
  split; [|split].
  - intros ->. cbn [Z.eqb Pos.eqb mbind result_bind].
    eexists. split; [reflexivity|]. split; reflexivity.
  - intros Hiz.
    assert (H11 : (hint t "iztype" =? 11) = false) by (apply Z.eqb_neq; lia).
    assert (H9 : ((hint t "iztype" =? 9) || (hint t "iztype" =? -12345)) = true).
    { apply orb_true_iff. rewrite !Z.eqb_eq. exact Hiz. }
    rewrite H11, H9. cbn [mbind result_bind].
    eexists. split; [reflexivity|]. split; reflexivity.
  - intros H11 H9 Hs.
    apply Z.eqb_neq in H11, H9, Hs. rewrite H11, H9, Hs. reflexivity.
Qed.
End ReaderRules.

(** Claim C3.  For a file that parses into the header [t], the start time of
    a full read follows the header's [iztype]: with 11 it is the reference
    time assembled from the [nz*] fields plus the float field [b]; with 9 or
    the sentinel -12345 it is the reference time itself; with any other value
    the read raises [NotImplementedError] and returns no trace. *)
Theorem read_resolves_starttime `{FloatSeconds} (fs : filesystem)
    (filename : string) (t : ReadSac) :
  ReadSacFile fs filename = Ok t ->
  (hint t "iztype" = 11 ->
   exists tr, readSAC fs filename false = Ok [tr]
              /\ starttime (stats tr)
                 = sac_starttime t + float_us (hfloat t "b"))
  /\ (hint t "iztype" = 9 \/ hint t "iztype" = -12345 ->
      exists tr, readSAC fs filename false = Ok [tr]
                 /\ starttime (stats tr) = sac_starttime t)
  /\ (hint t "iztype" <> 11 -> hint t "iztype" <> 9 ->
      hint t "iztype" <> -12345 ->
      readSAC fs filename false = Err NotImplementedError).
Proof.
  intros Ht. destruct (readSAC_rule fs filename false t Ht) as (H11 & H9 & Hno).
  split; [|split].
  - intros Hiz. destruct (H11 Hiz) as (tr & ? & _ & ?). eauto.
  - intros Hiz. destruct (H9 Hiz) as (tr & ? & _ & ?). eauto.
  - exact Hno.
Qed.

(** Claim C10.  A header-only read checks [iztype] as a full read does: with
    a value outside 9, 11 and -12345 it raises [NotImplementedError]; with a
    supported value it returns one trace without samples whose start time
    follows the same rule. *)
Theorem headonly_read_validates_iztype `{FloatSeconds} (fs : filesystem)
    (filename : string) (t : ReadSac) :
  ReadSacHeader fs filename = Ok t ->
  (hint t "iztype" <> 11 -> hint t "iztype" <> 9 ->
   hint t "iztype" <> -12345 ->
   readSAC fs filename true = Err NotImplementedError)
  /\ (hint t "iztype" = 11 ->
      exists tr, readSAC fs filename true = Ok [tr] /\ data tr = []
                 /\ starttime (stats tr)
                    = sac_starttime t + float_us (hfloat t "b"))
  /\ (hint t "iztype" = 9 \/ hint t "iztype" = -12345 ->
      exists tr, readSAC fs filename true = Ok [tr] /\ data tr = []
                 /\ starttime (stats tr) = sac_starttime t).
Proof.
  intros Ht. destruct (readSAC_rule fs filename true t Ht) as (H11 & H9 & Hno).
  split; [exact Hno|]. split; assumption.
Qed.

(** Claim C5.  On read, a header whose [scale] is exactly the float sentinel
    -12345.0 gives the calibration 1.0; a header with any other [scale]
    gives that value unchanged. *)
Theorem read_calibration `{FloatSeconds} (fs : filesystem) (filename : string)
    (headonly : bool) (t : ReadSac) (tr : Trace) :
  (if headonly then ReadSacHeader fs filename else ReadSacFile fs filename) = Ok t ->
  readSAC fs filename headonly = Ok [tr] ->
  (hfloat t "scale" = f32_sentinel ->
   entries (stats tr) !! "calib" = Some (VFloat f32_one))
  /\ (hfloat t "scale" <> f32_sentinel ->
      entries (stats tr) !! "calib" = Some (VFloat (hfloat t "scale"))).
Proof.
  intros Ht Hr. rewrite (readSAC_parsed fs filename headonly t Ht) in Hr.
  destruct (read_starttime _ _) as [start|]; [|discriminate].
  injection Hr as <-. cbn [entries stats].
  unfold calib_fix. rewrite (lookup_header_of t "scale" "calib") by decide_by_computation.
  rewrite conv_getv_scale.
  cbn [py_eq_num].
  split.
  - intros Hs. rewrite (proj2 (f32_eq_sentinel _) Hs). apply lookup_insert_eq.
  - intros Hs. destruct (f32_eq_Z (hfloat t "scale") (-12345)) eqn:E.
    + apply f32_eq_sentinel in E. contradiction.
    + rewrite (lookup_header_of t "scale" "calib") by decide_by_computation.
      reflexivity.
Qed.

(** Claim C6.  On read, a common field whose header value is a string is
    stored without its leading and trailing white space, and as the empty
    string when what remains is exactly "-12345". *)
Theorem read_trims_strings `{FloatSeconds} (fs : filesystem) (filename : string)
    (headonly : bool) (t : ReadSac) (tr : Trace) (i j s : string) :
  (if headonly then ReadSacHeader fs filename else ReadSacFile fs filename) = Ok t ->
  readSAC fs filename headonly = Ok [tr] ->
  (i, j) ∈ convert_dict ->
  GetHvalue t i = Ok (VStr s) ->
  entries (stats tr) !! j
  = Some (VStr (if String.eqb (strip s) "-12345" then "" else strip s)).
Proof.
  intros Ht Hr Hin Hg. rewrite (readSAC_parsed fs filename headonly t Ht) in Hr.
  destruct (read_starttime _ _) as [start|]; [|discriminate].
  injection Hr as <-. cbn [entries stats].
  assert (Hj : header_of t !! j
               = Some (VStr (if String.eqb (strip s) "-12345" then "" else strip s))).
  { rewrite (lookup_header_of t i j Hin). unfold getv. rewrite Hg.
    unfold conv. destruct (String.eqb (strip s) "-12345"); reflexivity. }
  unfold calib_fix.
  rewrite (lookup_header_of t "scale" "calib") by decide_by_computation.
  rewrite conv_getv_scale.
  destruct (py_eq_num _ _); [|exact Hj].
  rewrite lookup_insert_ne; [exact Hj|].
  intros <-.
  rewrite (lookup_header_of t "scale" "calib") in Hj by decide_by_computation.
  rewrite conv_getv_scale in Hj. discriminate Hj.
Qed.

Lemma fold_left_pointwise {A B : Type} (f g : A -> B -> A) (l : list B) (a : A) :
  (forall a b, f a b = g a b) -> fold_left f l a = fold_left g l a.
Proof.
  intros Hfg. revert a. induction l as [|b l IH]; intros a; [reflexivity|].
  cbn [fold_left]. rewrite Hfg. apply IH.
Qed.

Lemma getv_without_samples t x :
  getv (mkReadSac (hf t) (hi t) (hs t) []) x = getv t x.
Proof. reflexivity. Qed.

Lemma hint_without_samples t x :
  hint (mkReadSac (hf t) (hi t) (hs t) []) x = hint t x.
Proof. reflexivity. Qed.

Lemma header_without_samples t :
  header_of (mkReadSac (hf t) (hi t) (hs t) []) = header_of t
  /\ extra_of (mkReadSac (hf t) (hi t) (hs t) []) = extra_of t
  /\ sac_starttime (mkReadSac (hf t) (hi t) (hs t) []) = sac_starttime t.
Proof.
  split; [|split].
  - unfold header_of. apply fold_left_pointwise.
    intros m ij. rewrite getv_without_samples. reflexivity.
  - unfold extra_of. apply fold_left_pointwise.
    intros m i. rewrite getv_without_samples. reflexivity.
  - unfold sac_starttime. rewrite !hint_without_samples. reflexivity.
Qed.

(** The result of a header-only read is that of the full read with the
    samples left out. *)
Lemma headonly_read_agrees `{FloatSeconds} (fs : filesystem) (filename : string) :
  (forall tr, readSAC fs filename false = Ok [tr] ->
              readSAC fs filename true = Ok [mkTrace (stats tr) []])
  /\ (readSAC fs filename false = Err NotImplementedError ->
      readSAC fs filename true = Err NotImplementedError).
Proof.
  destruct (ReadSacFile fs filename) as [t|e] eqn:Ht.
  - pose proof (ReadSacHeader_of_ReadSacFile fs filename t Ht) as Hh.
    rewrite (readSAC_parsed fs filename false t Ht).
    rewrite (readSAC_parsed fs filename true _ Hh).
    destruct (header_without_samples t) as (-> & -> & ->).
    destruct (read_starttime (sac_starttime t) (extra_of t)) as [start|e].
    + split; [|discriminate]. intros tr [= <-]. reflexivity.
    + split; [discriminate|]. intros Hr. exact Hr.
  - split.
    + intros tr Hr. unfold readSAC in Hr. rewrite Ht in Hr. discriminate Hr.
    + intros Hr. unfold readSAC in Hr. rewrite Ht in Hr.
      cbn [mbind result_bind] in Hr. injection Hr as ->.
      unfold ReadSacFile, open_rb in Ht.
      destruct (fs !! filename) as [bs|]; [|discriminate Ht].
      cbn [mbind result_bind content] in Ht.
      destruct (detect_order bs) as [o|e] eqn:Ho.
      * cbn [mbind result_bind] in Ht.
        destruct (length bs <? 632)%nat; discriminate Ht.
      * cbn [mbind result_bind] in Ht. injection Ht as ->.
        unfold detect_order in Ho.
        destruct (struct_unpack_i LittleEndian _); [|discriminate Ho].
        destruct (_ =? _); [discriminate Ho|].
        destruct (struct_unpack_i BigEndian _); [|discriminate Ho].
        destruct (_ =? _); discriminate Ho.
Qed.

(** ** Strings *)

Lemma append_cons (c : ascii) (a b : string) :
  String c a +:+ b = String c (a +:+ b).
Proof. reflexivity. Qed.

Lemma string_length_app (a b : string) :
  String.length (a +:+ b) = (String.length a + String.length b)%nat.
Proof.
  induction a as [|c a IH]; [reflexivity|].
  rewrite append_cons. cbn [String.length]. rewrite IH. reflexivity.
Qed.

Lemma string_app_nil_r (a : string) : a +:+ "" = a.
Proof.
  induction a as [|c a IH]; [reflexivity|].
  rewrite append_cons, IH. reflexivity.
Qed.

Lemma string_app_inv_tail (a b c : string) : a +:+ c = b +:+ c -> a = b.
Proof.
  revert b. induction a as [|x a IH]; intros [|y b] Heq.
  - reflexivity.
  - apply (f_equal String.length) in Heq.
    rewrite append_cons in Heq. cbn [String.length] in Heq.
    change ("" +:+ c) with c in Heq.
    rewrite string_length_app in Heq. lia.
  - apply (f_equal String.length) in Heq.
    rewrite append_cons in Heq. cbn [String.length] in Heq.
    change ("" +:+ c) with c in Heq.
    rewrite string_length_app in Heq. lia.
  - rewrite !append_cons in Heq. injection Heq as -> Heq.
    f_equal. apply IH. exact Heq.
Qed.

Lemma substring_split (p : string) (k : nat) :
  substring 0 k p +:+ substring k (String.length p - k) p = p.
Proof.
  revert k. induction p as [|c p IH]; intros k.
  - destruct k; reflexivity.
  - destruct k as [|k].
    + cbn [substring String.length Nat.sub]. change ("" +:+ ?x) with x.
      f_equal.
      assert (Hall : forall s, substring 0 (String.length s) s = s).
      { induction s as [|a s IHs]; cbn [substring String.length]; [reflexivity|].
        rewrite IHs. reflexivity. }
      apply Hall.
    + cbn [substring String.length Nat.sub]. rewrite append_cons.
      f_equal. apply IH.
Qed.

Lemma splitext_app (p : string) : fst (splitext p) +:+ snd (splitext p) = p.
Proof.
  unfold splitext.
  destruct (rfind "/" p <? rfind "." p); [|apply string_app_nil_r].
  destruct (all_dots _); [apply string_app_nil_r|].
  cbn [fst snd]. apply substring_split.
Qed.

(** ** The numbering of the sibling files *)

Lemma parse_nat_zeros (k : nat) (s : string) :
  parse_nat (string_of_list_ascii (replicate k "0"%char) +:+ s) = parse_nat s.
Proof.
  induction k as [|k IH]; [reflexivity|].
  unfold parse_nat in *. cbn [replicate string_of_list_ascii].
  rewrite append_cons. cbn [NilEmpty.uint_of_string].
  destruct (NilEmpty.uint_of_string (string_of_list_ascii (replicate k "0"%char) +:+ s))
    as [d|]; destruct (NilEmpty.uint_of_string s) as [d'|]; try discriminate IH.
  - cbn in *. exact IH.
  - reflexivity.
Qed.

Lemma parse_format_02d (i : nat) : parse_nat (format_02d i) = Some i.
Proof.
  unfold format_02d. rewrite parse_nat_zeros. unfold parse_nat.
  rewrite NilEmpty.usu. cbn. rewrite Unsigned.of_to. reflexivity.
Qed.

Lemma format_02d_inj (i j : nat) : format_02d i = format_02d j -> i = j.
Proof.
  intros Heq. apply (f_equal parse_nat) in Heq.
  rewrite !parse_format_02d in Heq. congruence.
Qed.

Lemma format_02d_two_digits (i : nat) :
  (i < 100)%nat ->
  format_02d i
  = String (ascii_of_nat (48 + i / 10)) (String (ascii_of_nat (48 + i mod 10)) "").
Proof.
  intros Hi.
  assert (Hall : forallb (fun i => String.eqb (format_02d i)
                   (String (ascii_of_nat (48 + i / 10))
                      (String (ascii_of_nat (48 + i mod 10)) "")))
                   (seq 0 100) = true) by (vm_compute; reflexivity).
  rewrite forallb_forall in Hall.
  apply String.eqb_eq. apply Hall. apply in_seq. lia.
Qed.

Lemma format_02d_length (i : nat) : (2 <= String.length (format_02d i))%nat.
Proof.
  unfold format_02d. rewrite string_length_app.
  assert (Hrep : forall n c, String.length (string_of_list_ascii (replicate n c)) = n).
  { induction n as [|n IH]; intros c; cbn [replicate string_of_list_ascii String.length];
      [reflexivity|]. rewrite IH. reflexivity. }
  rewrite Hrep. lia.
Qed.

Lemma sac_path_inj (filename : string) (i j : nat) :
  sac_path filename i = sac_path filename j -> i = j.
Proof.
  unfold sac_path. pose proof (splitext_app filename) as Happ.
  destruct (splitext filename) as [base ext]. cbn [fst snd] in *.
  destruct i as [|i], j as [|j]; intros Heq.
  - reflexivity.
  - apply (f_equal String.length) in Heq. rewrite <- Happ in Heq.
    rewrite !string_length_app in Heq.
    pose proof (format_02d_length (S j)). lia.
  - apply (f_equal String.length) in Heq. rewrite <- Happ in Heq.
    rewrite !string_length_app in Heq.
    pose proof (format_02d_length (S i)). lia.
  - apply String.app_inj in Heq. apply string_app_inv_tail in Heq.
    apply format_02d_inj. exact Heq.
Qed.

Lemma write_all_lookup_other filename i ts fs (p : string) :
  (forall k, (k < length ts)%nat -> p <> sac_path filename (i + k)) ->
  write_all filename i ts fs !! p = fs !! p.
Proof.
  revert i fs. induction ts as [|t ts IH]; intros i fs Hp; [reflexivity|].
  cbn [write_all]. rewrite IH.
  - apply lookup_insert_ne. intros Heq. apply (Hp 0%nat); [simpl; lia|].
    rewrite Nat.add_0_r. congruence.
  - intros k Hk. replace (S i + k)%nat with (i + S k)%nat by lia.
    apply Hp. simpl. lia.
Qed.

Lemma write_all_lookup filename i ts fs (k : nat) (t : ReadSac) :
  ts !! k = Some t ->
  write_all filename i ts fs !! sac_path filename (i + k) = Some (file_bytes t).
Proof.
  revert i fs k. induction ts as [|t' ts IH]; intros i fs k Hk; [discriminate|].
  cbn [write_all]. destruct k as [|k].
  - injection Hk as ->. rewrite Nat.add_0_r.
    rewrite write_all_lookup_other; [apply lookup_insert_eq|].
    intros k _ Heq. apply sac_path_inj in Heq. lia.
  - replace (i + S k)%nat with (S i + k)%nat by lia. apply IH. exact Hk.
Qed.

Section WriteStream.
Context `{FloatSeconds}.

Lemma write_trace_step (base ext : string) (i : nat) (fn : string)
    (fs : filesystem) (tr : Trace) :
  write_trace base ext (i, fn, fs) tr
  = (t ← write_header tr;
     let fn' := if negb (i =? 0)%nat then base +:+ format_02d i +:+ ext else fn in
     Ok (S i, fn', <[fn' := file_bytes t]> fs)).
Proof. unfold write_trace. destruct (write_header tr); reflexivity. Qed.

Lemma foldM_write_trace (filename : string) (stream : list Trace) (i : nat)
    (fn : string) (fs : filesystem) (st : nat * string * filesystem) :
  (i = 0%nat -> fn = filename) ->
  foldM (write_trace (splitext filename).1 (splitext filename).2) (i, fn, fs) stream
  = Ok st ->
  exists ts,
    Forall2 (fun tr t => write_header tr = Ok t) stream ts
    /\ st.2 = write_all filename i ts fs.
Proof.
  revert i fn fs. induction stream as [|tr stream IH]; intros i fn fs Hfn Hst.
  - cbn [foldM] in Hst. injection Hst as Hst. subst st.
    exists []. split; [constructor|reflexivity].
  - cbn [foldM] in Hst. rewrite write_trace_step in Hst.
    destruct (write_header tr) as [t|] eqn:Et; [|discriminate].
    cbn [mbind result_bind] in Hst. cbv zeta in Hst.
    apply IH in Hst; [|discriminate].
    destruct Hst as (ts & Hts & Hfs).
    exists (t :: ts). split; [constructor; assumption|].
    rewrite Hfs. cbn [write_all]. f_equal. f_equal.
    unfold sac_path. destruct i as [|i]; [cbn; apply Hfn; reflexivity|reflexivity].
Qed.

Lemma writeSAC_stream (stream : list Trace) (filename : string)
    (fs fs' : filesystem) :
  writeSAC stream filename fs = Ok fs' ->
  exists ts,
    Forall2 (fun tr t => write_header tr = Ok t) stream ts
    /\ fs' = write_all filename 0 ts fs.
Proof.
  unfold writeSAC. intros Hw.
  assert (Hsp : splitext filename = ((splitext filename).1, (splitext filename).2))
    by (destruct (splitext filename); reflexivity).
  rewrite Hsp in Hw.
  destruct (foldM _ _ stream) as [st|] eqn:Est; [|discriminate].
  injection Hw as <-.
  apply (foldM_write_trace filename) in Est; [exact Est|reflexivity].
Qed.
End WriteStream.

(** Claim C7.  When a stream is written to [filename], the trace number [i]
    ends up in the file [sac_path filename i] and no other file changes:
    number 0 goes to [filename] itself, number [i > 0] to the base name, then
    [i] printed with "%02d", then the extension; below 100 that print is the
    two decimal digits of [i]. *)
Theorem write_file_naming `{FloatSeconds} (stream : list Trace)
    (filename : string) (fs fs' : filesystem) :
  writeSAC stream filename fs = Ok fs' ->
  (forall (i : nat) (tr : Trace), stream !! i = Some tr ->
     exists t, write_header tr = Ok t
               /\ fs' !! sac_path filename i = Some (file_bytes t))
  /\ (forall p, (forall i, (i < length stream)%nat -> p <> sac_path filename i) ->
        fs' !! p = fs !! p)
  /\ sac_path filename 0 = filename
  /\ (forall i, (0 < i)%nat ->
        sac_path filename i
        = (splitext filename).1 +:+ format_02d i +:+ (splitext filename).2)
  /\ (splitext filename).1 +:+ (splitext filename).2 = filename
  /\ (forall i, (i < 100)%nat ->
        format_02d i
        = String (ascii_of_nat (48 + i / 10))
                 (String (ascii_of_nat (48 + i mod 10)) "")).
Proof.
  intros Hw. destruct (writeSAC_stream stream filename fs fs' Hw) as (ts & Hts & ->).
  split; [|split; [|split; [|split; [|split]]]].
  - intros i tr Hi.
    destruct (Forall2_lookup_l _ _ _ _ _ Hts Hi) as (t & Ht & Hwt).
    exists t. split; [exact Hwt|].
    apply (write_all_lookup filename 0 ts fs i t Ht).
  - intros p Hp. apply write_all_lookup_other.
    intros k Hk. apply Hp. rewrite (Forall2_length _ _ _ Hts). exact Hk.
  - reflexivity.
  - intros [|i] Hi; [lia|reflexivity].
  - apply splitext_app.
  - apply format_02d_two_digits.
Qed.

Section WriteOutcome.
Context `{FloatSeconds}.

(** The writer of a single trace succeeds exactly when the header
    construction does, and that depends on nothing the overlay passes
    read. *)
Lemma writeSAC_single_succeeds (tr : Trace) (filename : string)
    (fs : filesystem) :
  (exists fs', writeSAC [tr] filename fs = Ok fs')
  <-> (exists wd start, write_header_ok tr wd start).
Proof.
  rewrite writeSAC_single. split.
  - intros (fs' & Hw).
    destruct (write_header tr) as [t|] eqn:Et; [|discriminate].
    destruct (write_header_inv tr t Et) as (wd & start & Hok & _). eauto.
  - intros (wd & start & Hok).
    destruct (write_header_succeeds tr wd start Hok) as (t & ->). eauto.
Qed.

End WriteOutcome.


(** Claim C8, as amended.  In both overlay passes a field missing from the
    metadata leaves the header as it is, and so does a field that is there
    but whose [SetHvalue] raises: the error is swallowed too.  Whether the
    write of a trace succeeds depends only on the sample interval, the number
    of samples and the reference time, never on an overlay error. *)
Theorem overlay_swallows_errors `{FloatSeconds} (tr : Trace) (t : ReadSac)
    (filename : string) (fs : filesystem) :
  (forall j k, entries (stats tr) !! k = None -> overlay_common tr t (j, k) = t)
  /\ (forall j k v e,
        entries (stats tr) !! k = Some v -> SetHvalue t j v = Err e ->
        overlay_common tr t (j, k) = t)
  /\ (forall i, extra_value tr i = None -> overlay_extra tr t i = t)
  /\ (forall i v e,
        extra_value tr i = Some v -> SetHvalue t i v = Err e ->
        overlay_extra tr t i = t)
  /\ ((exists fs', writeSAC [tr] filename fs = Ok fs')
      <-> (exists wd start, write_header_ok tr wd start)).
Proof.
  split; [|split; [|split; [|split]]].
  - intros j k Hk. unfold overlay_common, getitem. rewrite Hk. reflexivity.
  - intros j k v e Hk He. unfold overlay_common, getitem. rewrite Hk.
    cbn [mbind result_bind]. rewrite He. reflexivity.
  - intros i Hi. unfold overlay_extra, stats_sac_attr, getitem.
    unfold extra_value in Hi. destruct (sac (stats tr)) as [d|]; [|reflexivity].
    cbn [mbind result_bind]. rewrite Hi. reflexivity.
  - intros i v e Hi He. unfold overlay_extra, stats_sac_attr, getitem.
    unfold extra_value in Hi. destruct (sac (stats tr)) as [d|]; [|discriminate].
    cbn [mbind result_bind]. rewrite Hi. cbn [mbind result_bind].
    rewrite He. reflexivity.
  - apply writeSAC_single_succeeds.
Qed.

(** ** Concrete data for the examples *)

Example f32_us_2_5 : f32_us f32_2_5 = 2500000.
Proof. reflexivity. Qed.

Example strip_padded : strip "STA     " = "STA" /\ strip " -12345 " = "-12345".
Proof. split; reflexivity. Qed.

Example example_fields :
  (year example_time, julday example_time, hour example_time,
   minute example_time, second example_time, microsecond example_time)
  = (2009, 44, 23, 31, 30, 123456).
Proof. vm_compute. reflexivity. Qed.

Example sibling_names :
  map (sac_path "run.sac") [0; 1; 2]%nat = ["run.sac"; "run01.sac"; "run02.sac"].
Proof. vm_compute. reflexivity. Qed.



Lemma read_resolves_starttime_witness :
  hint (parsed (written [trace_origin] "run.sac") "run.sac") "iztype" = 11
  /\ exists tr,
       readSAC (written [trace_origin] "run.sac") "run.sac" false = Ok [tr]
       /\ starttime (stats tr)
          = sac_starttime (parsed (written [trace_origin] "run.sac") "run.sac")
            + float_us (hfloat (parsed (written [trace_origin] "run.sac") "run.sac") "b").
Proof.
  split; [vm_compute; reflexivity|].
  apply (read_resolves_starttime (written [trace_origin] "run.sac") "run.sac"
           (parsed (written [trace_origin] "run.sac") "run.sac")).
  - vm_compute. reflexivity.
  - vm_compute. reflexivity.
Defined.

Lemma headonly_read_validates_iztype_witness :
  hint (parsed_header (written [trace_other] "run.sac") "run.sac") "iztype" = 3
  /\ readSAC (written [trace_other] "run.sac") "run.sac" true
     = Err NotImplementedError.
Proof.
  split; [vm_compute; reflexivity|].
  apply (headonly_read_validates_iztype (written [trace_other] "run.sac") "run.sac"
           (parsed_header (written [trace_other] "run.sac") "run.sac")).
  - vm_compute. reflexivity.
  - vm_compute. discriminate.
  - vm_compute. discriminate.
  - vm_compute. discriminate.
Defined.

Lemma read_calibration_witness :
  hfloat (parsed (written [trace_begin] "run.sac") "run.sac") "scale" = f32_sentinel
  /\ entries (stats (read_trace (written [trace_begin] "run.sac") "run.sac" false))
       !! "calib" = Some (VFloat f32_one).
Proof.
  split; [vm_compute; reflexivity|].
  apply (read_calibration (written [trace_begin] "run.sac") "run.sac" false
           (parsed (written [trace_begin] "run.sac") "run.sac")).
  - vm_compute. reflexivity.
  - vm_compute. reflexivity.
  - vm_compute. reflexivity.
Defined.

Lemma read_trims_strings_witness :
  GetHvalue (parsed (written [trace_begin] "run.sac") "run.sac") "kstnm"
  = Ok (VStr "STA     ")
  /\ entries (stats (read_trace (written [trace_begin] "run.sac") "run.sac" false))
       !! "station" = Some (VStr "STA").
Proof.
  split; [vm_compute; reflexivity|].
  apply (read_trims_strings (written [trace_begin] "run.sac") "run.sac" false
           (parsed (written [trace_begin] "run.sac") "run.sac") _ "kstnm" "station"
           "STA     ").
  - vm_compute. reflexivity.
  - vm_compute. reflexivity.
  - apply (bool_decide_unpack _). vm_compute. reflexivity.
  - vm_compute. reflexivity.
Defined.

Lemma write_file_naming_witness :
  writeSAC [trace_begin; trace_origin; trace_other] "run.sac" ∅
  = Ok (written [trace_begin; trace_origin; trace_other] "run.sac")
  /\ exists t, write_header trace_origin = Ok t
               /\ written [trace_begin; trace_origin; trace_other] "run.sac"
                    !! "run01.sac" = Some (file_bytes t).
Proof.
  assert (Hw : writeSAC [trace_begin; trace_origin; trace_other] "run.sac" ∅
               = Ok (written [trace_begin; trace_origin; trace_other] "run.sac"))
    by (vm_compute; reflexivity).
  split; [exact Hw|].
  destruct (write_file_naming [trace_begin; trace_origin; trace_other] "run.sac" ∅
              _ Hw) as (Hfiles & _).
  exact (Hfiles 1%nat trace_origin eq_refl).
Defined.




Lemma overlay_error_swallowed : ~ overlay_errors_propagate.
Proof.
  intros Hclaim.
  destruct (Hclaim trace_bad_npts "run.sac" ∅ "npts" "npts" (VStr "many"))
    as (e & He).
  - apply (bool_decide_unpack _). vm_compute. reflexivity.
  - vm_compute. reflexivity.
  - intros t. exists TypeError. reflexivity.
  - vm_compute in He. discriminate He.
Qed.

(** The reader looks at nothing but the content of the path it is given. *)
Lemma ReadSacFile_lookup (fs : filesystem) (filename : string) (t : ReadSac) :
  fs !! filename = Some (file_bytes t) ->
  wf_hdr t ->
  GetHvalue t "npts" = Ok (VInt (Z.of_nat (length (seis t)))) ->
  ReadSacFile fs filename = Ok t.
Proof.
  intros Hfs Hwf Hn. rewrite <- (insert_id fs filename _ Hfs).
  apply ReadSacFile_written; assumption.
Qed.

Section WrittenFiles.
Context `{FloatSeconds}.

(** The header built for a trace whose sample count entry agrees with its
    samples carries that count. *)
Lemma write_header_npts (tr : Trace) (t : ReadSac) :
  write_header tr = Ok t -> npts_consistent tr ->
  GetHvalue t "npts" = Ok (VInt (Z.of_nat (length (seis t)))).
Proof.
  intros Et Hc.
  destruct (write_header_inv tr t Et) as (wd & start & _ & _ & Hseis & Hv).
  rewrite Hv, header_view_npts, Hseis. apply stored_npts_consistent. exact Hc.
Qed.

(** Where the file of each trace of a stream ends up. *)
Lemma stream_written (stream : list Trace) (filename : string)
    (fs fs' : filesystem) (i : nat) (tr : Trace) :
  writeSAC stream filename fs = Ok fs' ->
  stream !! i = Some tr ->
  exists t, write_header tr = Ok t
            /\ fs' !! sac_path filename i = Some (file_bytes t).
Proof.
  intros Hw Hi.
  destruct (writeSAC_stream stream filename fs fs' Hw) as (ts & Hall & ->).
  destruct (Forall2_lookup_l _ _ _ _ _ Hall Hi) as (t & Ht & Et).
  exists t. split; [exact Et|].
  apply (write_all_lookup filename 0 ts fs i t Ht).
Qed.
End WrittenFiles.

(** [isSAC] turns down every file whose size is not a whole number of
    4-byte cells, whatever the file holds: 632 is a multiple of four, so no
    sample count can account for such a size in either byte order. *)
Theorem isSAC_rejects_ragged_size (fs : filesystem) (filename : string)
    (bs : list byte) :
  fs !! filename = Some bs ->
  Z.of_nat (length bs) mod 4 <> 0 ->
  isSAC fs filename = Ok false.
Proof.
  intros Hbs Hmod. destruct (isSAC_total fs filename) as [Ht|Hf]; [|exact Hf].
  exfalso. destruct (isSAC_size_mod4 fs filename bs Hbs Ht) as [_ Hm].
  apply Hmod. revert Hm. generalize (Z.of_nat (length bs)). intros z Hm.
  apply Z.mod_divide in Hm; [|lia]. destruct Hm as [a Ha].
  replace z with ((a + 158) * 4) by lia. apply Z.mod_mul. lia.
Qed.

(** The files of one stream never share a path: the trace number can be read
    back from the path, also past the 99th trace, where the number takes
    three digits or more. *)
Theorem sac_path_distinct (filename : string) (i j : nat) :
  sac_path filename i = sac_path filename j <-> i = j.
Proof.
  split; [apply sac_path_inj|]. intros ->. reflexivity.
Qed.

(** Every file a successful write leaves behind for a trace whose sample
    count entry, when there is one, is the integer number of its samples
    passes the detector [isSAC]. *)
Theorem written_files_are_SAC `{FloatSeconds} (stream : list Trace)
    (filename : string) (fs fs' : filesystem) (i : nat) (tr : Trace) :
  writeSAC stream filename fs = Ok fs' ->
  stream !! i = Some tr ->
  npts_matches tr ->
  isSAC fs' (sac_path filename i) = Ok true.
Proof.
  intros Hw Hi Hc%npts_matches_consistent.
  destruct (stream_written stream filename fs fs' i tr Hw Hi) as (t & Et & Hfs).
  destruct (write_header_inv tr t Et) as (wd & start & _ & Hwf & _ & _).
  apply (detect_order_isSAC fs' _ _ Hfs). exists LittleEndian.
  apply detect_order_file_bytes; [exact Hwf|].
  apply (write_header_npts tr t Et Hc).
Qed.

(** Each trace of a stream can be read back from its own file: the trace
    number [i] of a successfully written stream, when its reference is the
    begin time and its sample count entry, if it has one, is the integer
    number of its samples, reads back from the path number [i] with the
    same samples and its start time cut to whole milliseconds. *)
Theorem stream_roundtrip `{FloatSeconds} (stream : list Trace)
    (filename : string) (fs fs' : filesystem) (i : nat) (tr : Trace) :
  writeSAC stream filename fs = Ok fs' ->
  stream !! i = Some tr ->
  iztype_begin tr ->
  npts_matches tr ->
  exists tr',
    readSAC fs' (sac_path filename i) false = Ok [tr']
    /\ data tr' = data tr
    /\ starttime (stats tr') = trunc_ms (starttime (stats tr)).
Proof.
  intros Hw Hi Hb Hc%npts_matches_consistent.
  destruct (stream_written stream filename fs fs' i tr Hw Hi) as (t & Et & Hfs).
  destruct (write_header_inv tr t Et) as (wd & start & Hok & Hwf & Hseis & Hv).
  destruct Hok as (_ & _ & Hstart & _).
  rewrite (write_start_begin tr Hb) in Hstart. injection Hstart as <-.
  destruct (header_iztype_begin tr Hb) as (n & Hn & Hiz).
  pose proof (ReadSacFile_lookup fs' _ t Hfs Hwf (write_header_npts tr t Et Hc))
    as Hread.
  rewrite (readSAC_parsed fs' _ false t Hread).
  rewrite (read_starttime_begin t n);
    [|rewrite Hv, header_view_iztype; exact Hiz|exact Hn].
  cbn [mbind result_bind]. eexists. split; [reflexivity|].
  cbn [data stats starttime]. split; [exact Hseis|].
  apply (sac_starttime_view t tr (VFloat wd)). exact Hv.
Qed.

Lemma known_sac_extra (i : string) : i ∈ sac_extra -> known i = true.
Proof.
  intros Hin.
  assert (Hall : forallb known sac_extra = true) by (vm_compute; reflexivity).
  rewrite forallb_forall in Hall. apply Hall. apply list_elem_of_In. exact Hin.
Qed.

Lemma known_convert_dict (i j : string) :
  (i, j) ∈ convert_dict -> known i = true.
Proof.
  intros Hin.
  assert (Hall : forallb (fun ij : string * string => known ij.1) convert_dict = true)
    by (vm_compute; reflexivity).
  rewrite forallb_forall in Hall.
  apply (Hall (i, j)). apply list_elem_of_In. exact Hin.
Qed.

Lemma lookup_fold_insert_pairs_None (f : string -> value)
    (l : list (string * string)) (m : gmap string value) (k : string) :
  k ∉ map snd l ->
  fold_left (fun m (ij : string * string) => <[ij.2 := f ij.1]> m) l m !! k = m !! k.
Proof.
  revert m. induction l as [|[i j] l IH]; intros m Hk; [reflexivity|].
  cbn [fold_left fst snd]. cbn [map snd] in Hk.
  apply not_elem_of_cons in Hk as [Hne Hk].
  rewrite IH by exact Hk. apply lookup_insert_ne. congruence.
Qed.

Lemma lookup_header_of_None t k :
  k ∉ map snd convert_dict -> header_of t !! k = None.
Proof.
  intros Hk. unfold header_of.
  rewrite (lookup_fold_insert_pairs_None (fun i => conv (getv t i))) by exact Hk.
  apply lookup_empty.
Qed.

Lemma lookup_calib_fix_ne (m : gmap string value) (k : string) :
  k <> "calib" -> calib_fix m !! k = m !! k.
Proof.
  intros Hk. unfold calib_fix.
  destruct (m !! "calib") as [c|]; [|reflexivity].
  destruct (py_eq_num c (-12345)); [|reflexivity].
  apply lookup_insert_ne. congruence.
Qed.

Lemma is_Some_calib_fix (m : gmap string value) (k : string) :
  is_Some (calib_fix m !! k) <-> is_Some (m !! k).
Proof.
  destruct (decide (k = "calib")) as [->|Hk];
    [|rewrite lookup_calib_fix_ne by exact Hk; reflexivity].
  unfold calib_fix.
  destruct (m !! "calib") as [c|] eqn:E; [|rewrite E; reflexivity].
  destruct (py_eq_num c (-12345)); [|rewrite E; reflexivity].
  rewrite lookup_insert_eq. split; eauto.
Qed.

Lemma getv_npts t : getv t "npts" = VInt (hint t "npts").
Proof. reflexivity. Qed.

Lemma getv_delta t : getv t "delta" = VFloat (hfloat t "delta").
Proof. reflexivity. Qed.

Section ReadTrace.
Context `{FloatSeconds}.

(** The one trace of a successful read, spelled out. *)
Lemma readSAC_trace (fs : filesystem) (filename : string) (headonly : bool)
    (t : ReadSac) (tr : Trace) :
  (if headonly then ReadSacHeader fs filename else ReadSacFile fs filename) = Ok t ->
  readSAC fs filename headonly = Ok [tr] ->
  read_starttime (sac_starttime t) (extra_of t) = Ok (starttime (stats tr))
  /\ entries (stats tr) = calib_fix (header_of t)
  /\ sac (stats tr) = Some (extra_of t)
  /\ data tr = (if headonly then [] else seis t).
Proof.
  intros Ht Hr. rewrite (readSAC_parsed fs filename headonly t Ht) in Hr.
  destruct (read_starttime (sac_starttime t) (extra_of t)) as [start|e];
    [|discriminate Hr].
  injection Hr as <-. auto.
Qed.
End ReadTrace.

(** The [sac] dictionary of a trace that was read holds the header's value
    of every field of [sac_extra] exactly as the header has it (strings keep
    their padding, undefined fields keep the sentinel) and has no other
    key. *)
Theorem read_extras_verbatim `{FloatSeconds} (fs : filesystem)
    (filename : string) (headonly : bool) (t : ReadSac) (tr : Trace) :
  (if headonly then ReadSacHeader fs filename else ReadSacFile fs filename) = Ok t ->
  readSAC fs filename headonly = Ok [tr] ->
  exists d,
    sac (stats tr) = Some d
    /\ (forall i, i ∈ sac_extra ->
          exists v, GetHvalue t i = Ok v /\ d !! i = Some v)
    /\ (forall i, i ∉ sac_extra -> d !! i = None).
Proof.
  intros Ht Hr.
  destruct (readSAC_trace fs filename headonly t tr Ht Hr) as (_ & _ & Hd & _).
  exists (extra_of t). split; [exact Hd|]. split.
  - intros i Hi. exists (getv t i).
    split; [apply GetHvalue_known, known_sac_extra, Hi|].
    rewrite lookup_extra_of, bool_decide_eq_true_2 by exact Hi. reflexivity.
  - intros i Hi.
    rewrite lookup_extra_of, bool_decide_eq_false_2 by exact Hi. reflexivity.
Qed.

(** The common metadata of a trace that was read has the seven trace-side
    names of [convert_dict] as its keys and no other (the SAC-side names do
    not appear); the sample count and the sample interval are handed over
    as the header has them, the sentinel included: only [calib] is
    normalised. *)
Theorem read_common_entries `{FloatSeconds} (fs : filesystem)
    (filename : string) (headonly : bool) (t : ReadSac) (tr : Trace) :
  (if headonly then ReadSacHeader fs filename else ReadSacFile fs filename) = Ok t ->
  readSAC fs filename headonly = Ok [tr] ->
  (forall k, is_Some (entries (stats tr) !! k) <-> k ∈ map snd convert_dict)
  /\ entries (stats tr) !! "npts" = Some (VInt (hint t "npts"))
  /\ entries (stats tr) !! "delta" = Some (VFloat (hfloat t "delta")).
Proof.
  intros Ht Hr.
  destruct (readSAC_trace fs filename headonly t tr Ht Hr) as (_ & -> & _ & _).
  split; [|split].
  - intros k. rewrite is_Some_calib_fix. split.
    + intros Hs. destruct (decide (k ∈ map snd convert_dict)) as [Hin|Hnin];
        [exact Hin|].
      rewrite lookup_header_of_None in Hs by exact Hnin.
      destruct Hs as [v Hv]. discriminate Hv.
    + intros Hin. apply list_elem_of_fmap in Hin as ([i j] & -> & Hij).
      cbn [snd]. rewrite (lookup_header_of t i j Hij). eauto.
  - rewrite lookup_calib_fix_ne by discriminate.
    rewrite (lookup_header_of t "npts" "npts") by decide_by_computation.
    rewrite getv_npts. reflexivity.
  - rewrite lookup_calib_fix_ne by discriminate.
    rewrite (lookup_header_of t "delta" "delta") by decide_by_computation.
    rewrite getv_delta. reflexivity.
Qed.

(** The reader treats the header in the same way in both modes: whenever the
    header-only parse and the full parse of a file give the same header
    fields, the header-only read is the full read with the samples left
    out, and it fails exactly as the full read does. *)
Theorem headonly_same_stats `{FloatSeconds} (fs : filesystem)
    (filename : string) (t t0 : ReadSac) :
  ReadSacFile fs filename = Ok t ->
  ReadSacHeader fs filename = Ok t0 ->
  hf t0 = hf t -> hi t0 = hi t -> hs t0 = hs t ->
  readSAC fs filename true
  = (trs ← readSAC fs filename false;
     Ok (map (fun tr => mkTrace (stats tr) []) trs)).
Proof.
  intros Ht Ht0 Hf Hi Hs.
  rewrite (readSAC_parsed fs filename false t Ht).
  rewrite (readSAC_parsed fs filename true t0 Ht0).
  assert (Hg : forall x, getv t0 x = getv t x).
  { intros x. unfold getv, GetHvalue. rewrite Hf, Hi, Hs. reflexivity. }
  assert (Hh : header_of t0 = header_of t).
  { unfold header_of. apply fold_left_pointwise. intros m ij. rewrite Hg. reflexivity. }
  assert (He : extra_of t0 = extra_of t).
  { unfold extra_of. apply fold_left_pointwise. intros m i. rewrite Hg. reflexivity. }
  assert (Hst : sac_starttime t0 = sac_starttime t).
  { unfold sac_starttime, hint, GetHvalue. rewrite Hf, Hi, Hs. reflexivity. }
  rewrite Hh, He, Hst.
  destruct (read_starttime (sac_starttime t) (extra_of t)) as [start|e]; reflexivity.
Qed.

Lemma foldM_app {A B : Type} (f : A -> B -> result A) (a : A) (l1 l2 : list B) :
  foldM f a (l1 ++ l2) = (a' ← foldM f a l1; foldM f a' l2).
Proof.
  revert a. induction l1 as [|b l1 IH]; intros a; [reflexivity|].
  cbn [app foldM]. destruct (f a b) as [a'|e]; [|reflexivity].
  cbn [mbind result_bind]. apply IH.
Qed.

Section WriterErrors.
Context `{FloatSeconds}.

Lemma foldM_write_trace_all (base ext : string) (stream : list Trace)
    (st : nat * string * filesystem) :
  Forall (fun tr => exists t, write_header tr = Ok t) stream ->
  exists st', foldM (write_trace base ext) st stream = Ok st'.
Proof.
  revert st. induction stream as [|tr stream IH]; intros [[i fn] fs] Hall.
  - eexists. reflexivity.
  - apply Forall_cons in Hall as [(t & Et) Hall]. cbn [foldM].
    rewrite write_trace_step, Et. cbn [mbind result_bind]. apply IH. exact Hall.
Qed.

(** The stream write stops at the first trace whose header cannot be
    built. *)
Lemma writeSAC_stops (done rest : list Trace) (tr : Trace)
    (filename : string) (fs : filesystem) (e : exn) :
  Forall (fun tr0 => exists t, write_header tr0 = Ok t) done ->
  write_header tr = Err e ->
  writeSAC (done ++ tr :: rest) filename fs = Err e.
Proof.
  intros Hdone He. unfold writeSAC. destruct (splitext filename) as [base ext].
  rewrite foldM_app.
  destruct (foldM_write_trace_all base ext done (0%nat, filename, fs) Hdone)
    as ([[i fn] fs1] & ->).
  cbn [mbind result_bind foldM]. rewrite write_trace_step, He. reflexivity.
Qed.

(** An error of the start time block leaves the header unbuilt. *)
Lemma write_header_start_error (tr : Trace) (wd : word32) (e : exn) :
  entries (stats tr) !! "delta" = Some (VFloat wd) ->
  in_int32 (Z.of_nat (length (data tr))) = true ->
  write_start tr = Err e ->
  write_header tr = Err e.
Proof.
  intros Ed Hn Est.
  unfold write_header, stats_delta, fromarray. rewrite Ed.
  cbn [mbind result_bind].
  set (t0 := mkReadSac (hf InitArrays) (hi InitArrays) (hs InitArrays) (data tr)).
  assert (Hwf0 : wf_hdr t0) by exact wf_InitArrays.
  assert (Hv0 : views t0 (GetHvalue InitArrays)) by (intros x; reflexivity).
  destruct (SetHvalue_succeeds t0 _ "npts" _ _ Hwf0 Hv0
              (stored_int_ok "npts" 9%nat _ eq_refl eq_refl Hn))
    as (t1 & -> & Hwf1 & _ & Hv1).
  cbn [mbind result_bind].
  destruct (SetHvalue_succeeds t1 _ "delta" (VFloat wd) (VFloat wd) Hwf1 Hv1 eq_refl)
    as (t2 & -> & Hwf2 & _ & Hv2).
  cbn [mbind result_bind].
  destruct (SetHvalue_succeeds t2 _ "b" (VFloat f32_zero) (VFloat f32_zero) Hwf2 Hv2 eq_refl)
    as (t3 & -> & _).
  cbn [mbind result_bind]. rewrite Est. reflexivity.
Qed.


End WriterErrors.

(** The write raises the error of the first trace whose header cannot be
    built, whatever comes after it in the stream. *)
Theorem writeSAC_first_failure `{FloatSeconds} (done rest : list Trace)
    (tr : Trace) (filename : string) (fs : filesystem) (e : exn) :
  Forall (fun tr0 => exists t, write_header tr0 = Ok t) done ->
  write_header tr = Err e ->
  writeSAC (done ++ tr :: rest) filename fs = Err e.
Proof. apply writeSAC_stops. Qed.

(** The start time block swallows [KeyError] only.  A trace that declares
    the origin reference with an offset [b] that [float()] turns down gets
    through the overlay pass, where the error of setting [b] is swallowed,
    and then makes the write raise [ValueError]. *)
Theorem bad_offset_raises `{FloatSeconds} (tr : Trace) (rest : list Trace)
    (filename : string) (fs : filesystem) (d : gmap string value)
    (v : value) (s : string) (wd : word32) :
  sac (stats tr) = Some d ->
  d !! "iztype" = Some v ->
  py_eq_num v 11 = true ->
  d !! "b" = Some (VStr s) ->
  str_us s = None ->
  entries (stats tr) !! "delta" = Some (VFloat wd) ->
  Z.of_nat (length (data tr)) < 2 ^ 31 ->
  (forall t, overlay_extra tr t "b" = t)
  /\ writeSAC (tr :: rest) filename fs = Err ValueError.
Proof.
  intros Hd Hiz H11 Hb Hs Hdelta Hlen. split.
  - intros t. unfold overlay_extra, stats_sac_attr, getitem. rewrite Hd.
    cbn [mbind result_bind]. rewrite Hb. reflexivity.
  - apply (writeSAC_stops [] rest tr filename fs ValueError); [constructor|].
    apply (write_header_start_error tr wd); [exact Hdelta| |].
    + apply in_int32_spec. lia.
    + unfold write_start, stats_sac_item, getitem. rewrite Hd.
      cbn [mbind result_bind]. rewrite Hiz. cbn [mbind result_bind].
      rewrite H11, Hb. cbn [mbind result_bind py_float_us]. rewrite Hs.
      reflexivity.
Qed.

(** A trace that declares the origin reference as the integer 11 but
    carries no offset [b] is written all the same, provided it can be
    written at all (a sample interval, a sample count and a date that the
    header can hold): the missing key is swallowed and the start time is
    encoded as it stands.  The header keeps [iztype] 11 with the begin
    offset 0.0 that [fromarray] was given; when the sample count entry of
    the trace, if it has one, is the integer number of its samples, the
    file reads back, and the reader adds the offset zero to the encoded
    time. *)
Theorem origin_without_offset `{FloatSeconds} (tr : Trace) (filename : string)
    (fs : filesystem) (d : gmap string value) (wd : word32) :
  sac (stats tr) = Some d ->
  d !! "iztype" = Some (VInt 11) ->
  d !! "b" = None ->
  entries (stats tr) !! "delta" = Some (VFloat wd) ->
  Z.of_nat (length (data tr)) < 2 ^ 31 ->
  datetime_range (starttime (stats tr)) ->
  npts_matches tr ->
  write_start tr = Ok (starttime (stats tr))
  /\ exists fs',
       writeSAC [tr] filename fs = Ok fs'
       /\ exists tr',
            readSAC fs' filename false = Ok [tr']
            /\ starttime (stats tr')
               = trunc_ms (starttime (stats tr)) + float_us f32_zero.
Proof.
  intros Hd Hiz Hb Hdelta Hlen Hrange Hc%npts_matches_consistent.
  assert (Hstart : write_start tr = Ok (starttime (stats tr))).
  { unfold write_start, stats_sac_item, getitem. rewrite Hd.
    cbn [mbind result_bind]. rewrite Hiz. cbn [mbind result_bind py_eq_num].
    change (11 =? 11) with true. cbv iota. rewrite Hb. reflexivity. }
  split; [exact Hstart|].
  assert (Hok : write_header_ok tr wd (starttime (stats tr))).
  { pose proof (year_range _ Hrange). pose proof (julday_range _ (proj1 Hrange)).
    split; [exact Hdelta|]. split; [apply in_int32_spec; lia|].
    split; [exact Hstart|]. split; apply in_int32_small; lia. }
  destruct (write_header_succeeds tr wd _ Hok) as (t0 & Et0).
  assert (Hw : writeSAC [tr] filename fs = Ok (<[filename := file_bytes t0]> fs)).
  { rewrite writeSAC_single, Et0. reflexivity. }
  eexists. split; [exact Hw|].
  destruct (written_trace_reads tr filename fs _ Hc Hw)
    as (t & wd' & start & Hok' & Hv & Hseis & _ & Hread & Hst).
  destruct Hok' as (_ & _ & Hstart' & _).
  rewrite Hstart in Hstart'. injection Hstart' as <-.
  assert (Giz : GetHvalue t "iztype" = Ok (VInt 11)).
  { rewrite Hv, header_view_iztype. unfold extra_value. rewrite Hd, Hiz. reflexivity. }
  assert (Gb : GetHvalue t "b" = Ok (VFloat f32_zero)).
  { rewrite Hv, header_view_b. unfold extra_value. rewrite Hd, Hb. reflexivity. }
  rewrite (readSAC_parsed _ filename false t Hread).
  unfold read_starttime, getitem. rewrite extra_of_iztype, extra_of_b.
  unfold getv. rewrite Giz, Gb. cbn [mbind result_bind py_eq_num].
  change (11 =? 11) with true. cbv iota. cbn [mbind result_bind py_float_us].
  eexists. split; [reflexivity|]. cbn [stats starttime]. rewrite Hst.
  reflexivity.
Qed.




(** ** Padding and stripping *)

Lemma all_space_blanks (k : nat) :
  all_space (string_of_list_ascii (replicate k " "%char)) = true.
Proof. induction k as [|k IH]; [reflexivity|]. cbn. exact IH. Qed.

Lemma rstrip_all_space (r : string) : all_space r = true -> rstrip r = "".
Proof.
  induction r as [|a r IH]; [reflexivity|]. cbn [all_space rstrip].
  intros [Ha Hr]%andb_true_iff. rewrite (IH Hr), Ha. reflexivity.
Qed.

Lemma lstrip_all_space (r : string) : all_space r = true -> lstrip r = "".
Proof.
  induction r as [|a r IH]; [reflexivity|]. cbn [all_space lstrip].
  intros [Ha Hr]%andb_true_iff. rewrite Ha. exact (IH Hr).
Qed.

Lemma rstrip_app_space (x r : string) :
  all_space r = true -> rstrip (x +:+ r) = rstrip x.
Proof.
  intros Hr. induction x as [|a x IH].
  - change ("" +:+ r) with r. rewrite rstrip_all_space by exact Hr. reflexivity.
  - rewrite append_cons. cbn [rstrip]. rewrite IH. reflexivity.
Qed.

Lemma strip_app_space (s r : string) :
  all_space r = true -> strip (s +:+ r) = strip s.
Proof.
  intros Hr. unfold strip. induction s as [|a s IH].
  - change ("" +:+ r) with r. rewrite lstrip_all_space by exact Hr. reflexivity.
  - rewrite append_cons. cbn [lstrip]. destruct (is_space a); [exact IH|].
    rewrite <- append_cons. apply rstrip_app_space. exact Hr.
Qed.

(** Padding a string with blanks does not show after [strip]. *)
Lemma strip_pad (w : nat) (s : string) : strip (pad w s) = strip s.
Proof. unfold pad. apply strip_app_space, all_space_blanks. Qed.

Lemma stored_str_ok (item : string) (i w : nat) (s : string) :
  index_of item fdict = None -> index_of item idict = None ->
  index_of item (map fst sdict) = Some i ->
  swidths !! i = Some w ->
  (String.length s <= w)%nat ->
  stored item (VStr s) = Some (VStr (pad w s)).
Proof.
  intros Hf Hi Hs Hw Hlen. unfold stored. rewrite Hf, Hi, Hs, Hw.
  cbn [from_option id]. destruct (Nat.leb_spec (String.length s) w); [reflexivity|lia].
Qed.

(** No name stands in both tables. *)
Lemma sac_extra_not_common (x : string) :
  x ∈ sac_extra -> x ∉ map fst convert_dict.
Proof.
  intros Hx Hc.
  assert (Hall : forallb (fun y => negb (bool_decide (y ∈ sac_extra)))
                         (map fst convert_dict) = true)
    by (vm_compute; reflexivity).
  rewrite forallb_forall in Hall.
  specialize (Hall x (proj1 (list_elem_of_In _ _) Hc)).
  rewrite bool_decide_eq_true_2 in Hall by exact Hx. discriminate Hall.
Qed.

(** ** What the header of a written trace holds *)

Ltac common_field_case x kx :=
  unfold header_view; cbv zeta;
  do 6 (rewrite (set_view_other _ _ _ x) by (vm_compute; reflexivity));
  rewrite fold_upd_extra;
  rewrite bool_decide_eq_false_2 by decide_by_computation;
  rewrite (fold_upd_common _ convert_dict _ x kx) by decide_by_computation;
  rewrite bool_decide_eq_true_2 by decide_by_computation;
  reflexivity.

Lemma header_view_common (tr : Trace) (delta : value) (start : UTCDateTime)
    (i j : string) :
  (i, j) ∈ convert_dict ->
  header_view tr delta start i
  = match entries (stats tr) !! j ≫= stored i with
    | Some v' => Ok v'
    | None =>
        if String.eqb i "npts" then Ok (VInt (Z.of_nat (length (data tr))))
        else if String.eqb i "delta" then Ok delta
        else GetHvalue InitArrays i
    end.
Proof.
  intros Hin. apply list_elem_of_In in Hin. cbn [convert_dict In] in Hin.
  destruct Hin as [Hin|[Hin|[Hin|[Hin|[Hin|[Hin|[Hin|[]]]]]]]];
    injection Hin as <- <-.
  - common_field_case "npts" "npts".
  - common_field_case "delta" "delta".
  - common_field_case "kcmpnm" "channel".
  - common_field_case "kstnm" "station".
  - common_field_case "scale" "calib".
  - common_field_case "knetwk" "network".
  - common_field_case "khole" "location".
Qed.

Lemma lookup_calib_fix (m : gmap string value) :
  calib_fix m !! "calib"
  = match m !! "calib" with
    | Some c => if py_eq_num c (-12345) then Some (VFloat f32_one) else Some c
    | None => None
    end.
Proof.
  unfold calib_fix. destruct (m !! "calib") as [c|] eqn:E; [|exact E].
  destruct (py_eq_num c (-12345)); [apply lookup_insert_eq|exact E].
Qed.

Section WrittenThenRead.
Context `{FloatSeconds}.

(** The trace that a file of a written stream reads back as, in terms of
    the header the writer built. *)
Lemma written_then_read (stream : list Trace) (filename : string)
    (fs fs' : filesystem) (i : nat) (tr tr' : Trace) :
  writeSAC stream filename fs = Ok fs' ->
  stream !! i = Some tr ->
  npts_consistent tr ->
  readSAC fs' (sac_path filename i) false = Ok [tr'] ->
  exists t wd start,
    write_header_ok tr wd start
    /\ views t (header_view tr (VFloat wd) start)
    /\ read_starttime (sac_starttime t) (extra_of t) = Ok (starttime (stats tr'))
    /\ entries (stats tr') = calib_fix (header_of t)
    /\ sac (stats tr') = Some (extra_of t)
    /\ data tr' = data tr.
Proof.
  intros Hw Hi Hc Hr.
  destruct (stream_written stream filename fs fs' i tr Hw Hi) as (t & Et & Hfs).
  destruct (write_header_inv tr t Et) as (wd & start & Hok & Hwf & Hseis & Hv).
  pose proof (ReadSacFile_lookup fs' _ t Hfs Hwf (write_header_npts tr t Et Hc))
    as Hread.
  destruct (readSAC_trace fs' _ false t tr' Hread Hr) as (Hst & He & Hd & Hdata).
  exists t, wd, start. rewrite <- Hseis. auto 10.
Qed.
End WrittenThenRead.

(** A station, channel, network or location code of at most eight
    characters survives writing and reading up to what [strip] removes; the
    one exception is the text -12345, which comes back as the empty
    string. *)
Theorem text_entries_roundtrip `{FloatSeconds} (stream : list Trace)
    (filename : string) (fs fs' : filesystem) (n : nat) (tr tr' : Trace)
    (i j s : string) :
  writeSAC stream filename fs = Ok fs' ->
  stream !! n = Some tr ->
  npts_consistent tr ->
  readSAC fs' (sac_path filename n) false = Ok [tr'] ->
  (i, j) ∈ [("kcmpnm", "channel"); ("kstnm", "station"); ("knetwk", "network");
            ("khole", "location")] ->
  entries (stats tr) !! j = Some (VStr s) ->
  (String.length s <= 8)%nat ->
  entries (stats tr') !! j
  = Some (VStr (if String.eqb (strip s) "-12345" then "" else strip s)).
Proof.
  intros Hw Hn Hc Hr Hij Hs Hlen.
  destruct (written_then_read stream filename fs fs' n tr tr' Hw Hn Hc Hr)
    as (t & wd & start & _ & Hv & _ & -> & _ & _).
  assert (Hcd : (i, j) ∈ convert_dict).
  { apply list_elem_of_In in Hij. cbn [In] in Hij.
    destruct Hij as [Hij|[Hij|[Hij|[Hij|[]]]]]; injection Hij as <- <-;
      decide_by_computation. }
  assert (Hj : j <> "calib").
  { apply list_elem_of_In in Hij. cbn [In] in Hij.
    destruct Hij as [Hij|[Hij|[Hij|[Hij|[]]]]]; injection Hij as <- <-;
      discriminate. }
  assert (Hst : stored i (VStr s) = Some (VStr (pad 8 s))).
  { apply list_elem_of_In in Hij. cbn [In] in Hij.
    destruct Hij as [Hij|[Hij|[Hij|[Hij|[]]]]]; injection Hij as <- <-.
    - apply (stored_str_ok "kcmpnm" 19%nat 8%nat); [reflexivity..|exact Hlen].
    - apply (stored_str_ok "kstnm" 0%nat 8%nat); [reflexivity..|exact Hlen].
    - apply (stored_str_ok "knetwk" 20%nat 8%nat); [reflexivity..|exact Hlen].
    - apply (stored_str_ok "khole" 2%nat 8%nat); [reflexivity..|exact Hlen]. }
  rewrite lookup_calib_fix_ne by exact Hj.
  rewrite (lookup_header_of t i j Hcd).
  unfold getv. rewrite Hv, (header_view_common tr _ _ i j Hcd), Hs.
  cbn [mbind option_bind]. rewrite Hst. cbn [conv]. rewrite strip_pad.
  destruct (String.eqb (strip s) "-12345"); reflexivity.
Qed.

(** The sample count and the calibration factor after writing and reading,
    for a trace whose sample count entry, if it has one, is the integer
    number of its samples: the sample count comes back as the number of
    samples, also when the trace had no such entry, and the calibration
    factor comes back as 1.0 when the trace had none and when it was
    -12345.0, a number that single and double precision hold alike. *)
Theorem count_and_calibration_roundtrip `{FloatSeconds} (stream : list Trace)
    (filename : string) (fs fs' : filesystem) (n : nat) (tr tr' : Trace) :
  writeSAC stream filename fs = Ok fs' ->
  stream !! n = Some tr ->
  npts_matches tr ->
  readSAC fs' (sac_path filename n) false = Ok [tr'] ->
  entries (stats tr') !! "npts" = Some (VInt (Z.of_nat (length (data tr))))
  /\ (entries (stats tr) !! "calib" = Some (VFloat f32_sentinel) ->
      entries (stats tr') !! "calib" = Some (VFloat f32_one))
  /\ (entries (stats tr) !! "calib" = None ->
      entries (stats tr') !! "calib" = Some (VFloat f32_one)).
Proof.
  intros Hw Hn Hc%npts_matches_consistent Hr.
  destruct (written_then_read stream filename fs fs' n tr tr' Hw Hn Hc Hr)
    as (t & wd & start & Hok & Hv & _ & -> & _ & _).
  split.
  - rewrite lookup_calib_fix_ne by discriminate.
    rewrite (lookup_header_of t "npts" "npts") by decide_by_computation.
    unfold getv. rewrite Hv, header_view_npts, (stored_npts_consistent tr Hc).
    reflexivity.
  - assert (Hg : GetHvalue t "scale"
                 = match entries (stats tr) !! "calib" ≫= stored "scale" with
                   | Some v' => Ok v'
                   | None => Ok (VFloat f32_sentinel)
                   end).
    { rewrite Hv.
      rewrite (header_view_common tr _ _ "scale" "calib") by decide_by_computation.
      reflexivity. }
    rewrite lookup_calib_fix.
    rewrite (lookup_header_of t "scale" "calib") by decide_by_computation.
    unfold getv. rewrite Hg. split; intros ->; reflexivity.
Qed.

(** An extra field other than the six [nz*] fields survives writing and
    reading whenever the header accepts its value: what comes back under its
    name in the [sac] dictionary is what a fresh header returns for the
    field after it was set to the value. *)
Theorem extras_roundtrip `{FloatSeconds} (stream : list Trace)
    (filename : string) (fs fs' : filesystem) (n : nat) (tr tr' : Trace)
    (x : string) (v : value) (t1 : ReadSac) :
  writeSAC stream filename fs = Ok fs' ->
  stream !! n = Some tr ->
  npts_consistent tr ->
  readSAC fs' (sac_path filename n) false = Ok [tr'] ->
  x ∈ sac_extra ->
  x ∉ ["nzyear"; "nzjday"; "nzhour"; "nzmin"; "nzsec"; "nzmsec"] ->
  extra_value tr x = Some v ->
  SetHvalue InitArrays x v = Ok t1 ->
  exists d' v',
    sac (stats tr') = Some d'
    /\ GetHvalue t1 x = Ok v'
    /\ d' !! x = Some v'.
Proof.
  intros Hw Hn Hc Hr Hx Hnz Hv Hset.
  destruct (written_then_read stream filename fs fs' n tr tr' Hw Hn Hc Hr)
    as (t & wd & start & _ & Hview & _ & _ & Hd & _).
  destruct (SetHvalue_views InitArrays (GetHvalue InitArrays) x v t1
              wf_InitArrays (fun y => eq_refl) Hset)
    as (v' & Hst & _ & _ & Hv1).
  exists (extra_of t), v'. split; [exact Hd|]. split.
  - rewrite Hv1. apply set_view_same.
  - rewrite lookup_extra_of, bool_decide_eq_true_2 by exact Hx.
    unfold getv. rewrite Hview.
    rewrite (header_view_extra tr _ _ x Hx Hnz (sac_extra_not_common x Hx)).
    rewrite Hv. cbn [mbind option_bind]. rewrite Hst. reflexivity.
Qed.

(** ** Headers parsed from a file *)

Lemma length_words_of_bytes (o : byteorder) (n : nat) (bs : list byte) :
  (4 * n <= length bs)%nat -> length (words_of_bytes o n bs) = n.
Proof.
  revert bs. induction n as [|n IH]; intros bs Hlen; [reflexivity|].
  destruct bs as [|a [|b [|c [|d rest]]]]; cbn [length] in Hlen; try lia.
  cbn [words_of_bytes length]. rewrite IH by lia. reflexivity.
Qed.

Lemma words_of_bytes_lookup (o : byteorder) (n : nat) (bs : list byte) (i : nat) :
  (i < n)%nat -> (4 * i + 4 <= length bs)%nat ->
  exists a b c d,
    take 4 (drop (4 * i) bs) = [a; b; c; d]
    /\ words_of_bytes o n bs !! i = Some (word_of_bytes o a b c d).
Proof.
  revert bs i. induction n as [|n IH]; intros bs i Hi Hlen; [lia|].
  destruct bs as [|a [|b [|c [|d rest]]]]; cbn [length] in Hlen; try lia.
  destruct i as [|i].
  - exists a, b, c, d. split; reflexivity.
  - replace (4 * S i)%nat with (S (S (S (S (4 * i))))) by lia.
    cbn [drop words_of_bytes]. apply IH; lia.
Qed.

Lemma length_string_of_list_byte (l : list byte) :
  String.length (string_of_list_byte l) = length l.
Proof.
  induction l as [|b l IH]; [reflexivity|]. cbn. rewrite <- IH. reflexivity.
Qed.

Lemma strings_of_bytes_lengths (ws : list nat) (bs : list byte) :
  (foldr Nat.add 0%nat ws <= length bs)%nat ->
  Forall2 (fun s w => String.length s = w) (strings_of_bytes ws bs) ws.
Proof.
  revert bs. induction ws as [|w ws IH]; intros bs Hlen; [constructor|].
  cbn [foldr] in Hlen. cbn [strings_of_bytes]. constructor.
  - rewrite length_string_of_list_byte, length_take. lia.
  - apply IH. rewrite length_drop. lia.
Qed.

Lemma word_signed_of_bytes (o : byteorder) (a b c d : byte) :
  word_signed (word_of_bytes o a b c d) = signed32 (combine32 o [a; b; c; d]).
Proof. destruct o; reflexivity. Qed.

Lemma detect_order_Ok (bs : list byte) (o : byteorder) :
  detect_order bs = Ok o ->
  Z.of_nat (length bs)
  = 632 + 4 * signed32 (combine32 o (take 4 (drop 316 bs))).
Proof.
  unfold detect_order, struct_unpack_i.
  destruct (length (take 4 (drop 316 bs)) =? 4)%nat; [|discriminate].
  destruct (Z.eqb_spec (Z.of_nat (length bs))
              (632 + 4 * signed32 (combine32 LittleEndian (take 4 (drop 316 bs)))))
    as [E|_]; [intros [= <-]; exact E|].
  destruct (Z.eqb_spec (Z.of_nat (length bs))
              (632 + 4 * signed32 (combine32 BigEndian (take 4 (drop 316 bs)))))
    as [E|_]; [intros [= <-]; exact E|discriminate].
Qed.

Lemma Ok_inj {A : Type} (a b : A) : Ok a = Ok b -> a = b.
Proof. intros [= ->]. reflexivity. Qed.

(** A header that [ReadSacFile] returns has all its slots, and as many
    samples as its [npts] field says. *)
Lemma ReadSacFile_wf (fs : filesystem) (filename : string) (t : ReadSac) :
  ReadSacFile fs filename = Ok t ->
  wf_hdr t /\ hint t "npts" = Z.of_nat (length (seis t)).
Proof.
  unfold ReadSacFile, open_rb.
  destruct (fs !! filename) as [bs|]; [|discriminate].
  cbn [mbind result_bind content].
  destruct (detect_order bs) as [o|] eqn:Ho; [|discriminate].
  cbn [mbind result_bind].
  destruct (Nat.ltb_spec (length bs) 632) as [|Hlen]; [discriminate|].
  intros <-%Ok_inj. apply detect_order_Ok in Ho.
  destruct (words_of_bytes_lookup o 40 (drop 280 bs) 9)
    as (a & b & c & d & Htake & Hlook); [lia|rewrite length_drop; lia|].
  rewrite drop_drop in Htake. change (280 + 4 * 9)%nat with 316%nat in Htake.
  rewrite Htake in Ho.
  split.
  - split; [|split]; cbn [hf hi hs parse_header].
    + apply length_words_of_bytes. lia.
    + apply length_words_of_bytes. rewrite length_drop. lia.
    + apply strings_of_bytes_lengths. rewrite length_drop.
      change (foldr Nat.add 0%nat swidths) with 192%nat. lia.
  - cbn [hf hi hs parse_header seis]. rewrite Hlook. cbn [from_option id].
    unfold hint.
    change (GetHvalue ?t "npts")
      with (Ok (VInt (word_signed (default (word_of_Z (-12345)) (hi t !! 9%nat))))).
    cbn [hi]. rewrite Hlook. cbn [from_option id].
    rewrite word_signed_of_bytes in *.
    rewrite length_words_of_bytes; [lia|]. rewrite length_drop. lia.
Qed.

Lemma in_int32_word_signed (w : word32) : in_int32 (word_signed w) = true.
Proof.
  apply in_int32_spec. unfold word_signed, signed32.
  pose proof (word_unsigned_range w).
  destruct (Z.ltb_spec (word_unsigned w) (2 ^ 31)); lia.
Qed.

Lemma pad_full (w : nat) (s : string) : String.length s = w -> pad w s = s.
Proof.
  intros <-. unfold pad. rewrite Nat.sub_diag. apply string_app_nil_r.
Qed.

(** A header takes its own values back as they are. *)
Lemma stored_getv (t : ReadSac) (x : string) :
  wf_hdr t -> known x = true -> stored x (getv t x) = Some (getv t x).
Proof.
  intros (_ & _ & Hs) Hk. unfold stored, getv, GetHvalue, known in *.
  destruct (index_of x fdict) as [i|]; [reflexivity|].
  destruct (index_of x idict) as [i|];
    [rewrite in_int32_word_signed; reflexivity|].
  destruct (index_of x (map fst sdict)) as [i|] eqn:E; [|discriminate].
  pose proof (index_of_lt _ _ _ E) as Hlt. rewrite length_map in Hlt.
  pose proof (Forall2_length _ _ _ Hs) as Hlen.
  unfold swidths in Hlen. rewrite length_map in Hlen.
  destruct (hs t !! i) as [s|] eqn:Es;
    [|apply lookup_ge_None in Es; lia].
  destruct (Forall2_lookup_l _ _ _ _ _ Hs Es) as (w & Ew & Hw).
  rewrite Ew. cbn [from_option id].
  destruct (Nat.leb_spec (String.length s) w); [|lia].
  rewrite pad_full by exact Hw. reflexivity.
Qed.

(** ** [strip] once is [strip] twice *)

Lemma lstrip_no_space (x : string) : starts_with_space x = false -> lstrip x = x.
Proof.
  destruct x as [|a x]; [reflexivity|]. cbn [starts_with_space lstrip].
  intros ->. reflexivity.
Qed.

Lemma rstrip_no_space (x : string) : ends_with_space x = false -> rstrip x = x.
Proof.
  induction x as [|a x IH]; [reflexivity|]. cbn [ends_with_space rstrip].
  destruct x as [|b x].
  - intros ->. reflexivity.
  - intros Hx. rewrite (IH Hx). reflexivity.
Qed.

Lemma strip_strip (s : string) : strip (strip s) = strip s.
Proof.
  destruct (strip_spec s) as (l & r & _ & _ & _ & Hst & Hend).
  unfold strip at 1. rewrite (lstrip_no_space _ Hst). apply rstrip_no_space, Hend.
Qed.

Lemma length_strip (s : string) : (String.length (strip s) <= String.length s)%nat.
Proof.
  destruct (strip_spec s) as (l & r & Hs & _).
  rewrite Hs at 2. rewrite !string_length_app. lia.
Qed.

(** What [conv] returns is left alone by padding and a second [conv]. *)
Lemma conv_pad_conv (w : nat) (s : string) :
  exists c, conv (VStr s) = VStr c
            /\ (String.length c <= String.length s)%nat
            /\ conv (VStr (pad w c)) = VStr c.
Proof.
  cbn [conv]. destruct (String.eqb_spec (strip s) "-12345") as [E|E].
  - exists "". split; [reflexivity|]. split; [cbn; lia|].
    cbn [conv]. rewrite strip_pad. reflexivity.
  - exists (strip s). split; [reflexivity|]. split; [apply length_strip|].
    cbn [conv]. rewrite strip_pad, strip_strip.
    destruct (String.eqb_spec (strip s) "-12345"); [contradiction|reflexivity].
Qed.

Lemma sac_starttime_aligned (t : ReadSac) : trunc_ms (sac_starttime t) = sac_starttime t.
Proof.
  unfold trunc_ms, sac_starttime, utc_of_fields.
  match goal with |- ?a - ?a mod 1000 = ?a => assert (Hm : a mod 1000 = 0) end.
  { match goal with
    | |- (?p * 60000000 + ?s * 1000000 + ?m * 1000) mod 1000 = 0 =>
        replace (p * 60000000 + s * 1000000 + m * 1000)
          with ((p * 60000 + s * 1000 + m) * 1000) by lia
    end.
    apply Z.mod_mul. lia. }
  lia.
Qed.

Lemma conv_not_string (v : value) :
  (forall s, v <> VStr s) -> conv v = v.
Proof. destruct v as [w|n|s]; intros Hv; [reflexivity..|]. destruct (Hv s eq_refl). Qed.

Section Reread.
Context `{FloatSeconds}.

(** How a file of a written stream reads. *)
Lemma written_reads_as (stream : list Trace) (filename : string)
    (fs fs' : filesystem) (i : nat) (tr : Trace) :
  writeSAC stream filename fs = Ok fs' ->
  stream !! i = Some tr ->
  npts_consistent tr ->
  exists t wd start,
    write_header_ok tr wd start
    /\ views t (header_view tr (VFloat wd) start)
    /\ seis t = data tr
    /\ sac_starttime t = trunc_ms start
    /\ readSAC fs' (sac_path filename i) false
       = (start' ← read_starttime (sac_starttime t) (extra_of t);
          Ok [mkTrace (mkStats start' (calib_fix (header_of t)) (Some (extra_of t)))
                      (seis t)]).
Proof.
  intros Hw Hi Hc.
  destruct (stream_written stream filename fs fs' i tr Hw Hi) as (t & Et & Hfs).
  destruct (write_header_inv tr t Et) as (wd & start & Hok & Hwf & Hseis & Hv).
  pose proof (ReadSacFile_lookup fs' _ t Hfs Hwf (write_header_npts tr t Et Hc))
    as Hread.
  exists t, wd, start. split; [exact Hok|]. split; [exact Hv|].
  split; [exact Hseis|]. split; [exact (sac_starttime_view t tr _ _ Hv)|].
  apply (readSAC_parsed fs' _ false t Hread).
Qed.

(** The reference time the writer resolves for a trace that was read is
    the reference time of the header it was read from. *)
Lemma write_start_of_read (t0 : ReadSac) (tr : Trace) :
  sac (stats tr) = Some (extra_of t0) ->
  read_starttime (sac_starttime t0) (extra_of t0) = Ok (starttime (stats tr)) ->
  write_start tr = Ok (sac_starttime t0).
Proof.
  intros Hd Hst. rewrite read_starttime_cases in Hst.
  unfold write_start, stats_sac_item, getitem. rewrite Hd.
  cbn [mbind result_bind]. rewrite extra_of_iztype, getv_iztype.
  cbn [mbind result_bind py_eq_num].
  destruct (hint t0 "iztype" =? 11).
  - rewrite extra_of_b, getv_b. cbn [mbind result_bind py_float_us try_pass_KeyError].
    injection Hst as <-. f_equal. lia.
  - destruct ((hint t0 "iztype" =? 9) || (hint t0 "iztype" =? -12345));
      [|discriminate Hst].
    injection Hst as <-. reflexivity.
Qed.

End Reread.

Section Headers.
Context `{FloatSeconds}.
Variables (t0 t : ReadSac) (tr : Trace) (wd : word32) (start : UTCDateTime).
Hypothesis Hwf0 : wf_hdr t0.
Hypothesis He0 : entries (stats tr) = calib_fix (header_of t0).
Hypothesis Hd0 : sac (stats tr) = Some (extra_of t0).
Hypothesis Hv : views t (header_view tr (VFloat wd) start).

(** The extra fields of the second header are those of the first. *)
Lemma reread_extra (x : string) :
  x ∈ sac_extra ->
  x ∉ ["nzyear"; "nzjday"; "nzhour"; "nzmin"; "nzsec"; "nzmsec"] ->
  getv t x = getv t0 x.
Proof.
  intros Hx Hnz. unfold getv at 1. rewrite Hv.
  rewrite (header_view_extra tr _ _ x Hx Hnz (sac_extra_not_common x Hx)).
  unfold extra_value. rewrite Hd0, lookup_extra_of, bool_decide_eq_true_2 by exact Hx.
  cbn [mbind option_bind]. rewrite (stored_getv t0 x Hwf0 (known_sac_extra x Hx)).
  reflexivity.
Qed.

Lemma reread_common_getv (i j : string) :
  (i, j) ∈ convert_dict -> j <> "calib" ->
  getv t i
  = match stored i (conv (getv t0 i)) with
    | Some v' => v'
    | None => getv t i
    end.
Proof.
  intros Hij Hj. unfold getv at 1. rewrite Hv, (header_view_common tr _ _ i j Hij).
  rewrite He0, lookup_calib_fix_ne, (lookup_header_of t0 i j Hij) by exact Hj.
  cbn [mbind option_bind].
  destruct (stored i (conv (getv t0 i))) as [v'|] eqn:Es; [reflexivity|].
  unfold getv. rewrite Hv, (header_view_common tr _ _ i j Hij).
  rewrite He0, lookup_calib_fix_ne, (lookup_header_of t0 i j Hij) by exact Hj.
  cbn [mbind option_bind]. rewrite Es. reflexivity.
Qed.

Lemma reread_number (i j : string) :
  (i, j) ∈ convert_dict -> j <> "calib" ->
  (forall s, getv t0 i <> VStr s) ->
  conv (getv t i) = conv (getv t0 i).
Proof.
  intros Hij Hj Hns. rewrite (reread_common_getv i j Hij Hj).
  rewrite (conv_not_string _ Hns).
  rewrite (stored_getv t0 i Hwf0 (known_convert_dict i j Hij)).
  apply (conv_not_string _ Hns).
Qed.

Lemma reread_text (i j : string) (k : nat) (s0 : string) :
  (i, j) ∈ convert_dict -> j <> "calib" ->
  index_of i fdict = None -> index_of i idict = None ->
  index_of i (map fst sdict) = Some k -> swidths !! k = Some 8%nat ->
  getv t0 i = VStr s0 ->
  conv (getv t i) = conv (getv t0 i).
Proof.
  intros Hij Hj Hf Hi Hs Hw Hg.
  pose proof (stored_getv t0 i Hwf0 (known_convert_dict i j Hij)) as Hst.
  rewrite Hg in Hst. unfold stored in Hst. rewrite Hf, Hi, Hs, Hw in Hst.
  cbn [from_option id] in Hst.
  destruct (Nat.leb_spec (String.length s0) 8) as [Hlen|]; [|discriminate Hst].
  clear Hst.
  rewrite (reread_common_getv i j Hij Hj), Hg.
  destruct (conv_pad_conv 8 s0) as (c & Hc & Hclen & Hcc).
  rewrite Hc, (stored_str_ok i k 8 c Hf Hi Hs Hw) by lia.
  exact Hcc.
Qed.

Lemma reread_common (i j : string) :
  (i, j) ∈ convert_dict -> j <> "calib" ->
  conv (getv t i) = conv (getv t0 i).
Proof.
  intros Hij Hj. pose proof Hij as Hin.
  apply list_elem_of_In in Hin. cbn [convert_dict In] in Hin.
  destruct Hin as [Hin|[Hin|[Hin|[Hin|[Hin|[Hin|[Hin|[]]]]]]]];
    injection Hin as <- <-.
  - apply (reread_number "npts" "npts" Hij Hj). intros s. rewrite getv_npts.
    discriminate.
  - apply (reread_number "delta" "delta" Hij Hj). intros s. rewrite getv_delta.
    discriminate.
  - eapply (reread_text "kcmpnm" "channel" 19%nat); [exact Hij|exact Hj|reflexivity..].
  - eapply (reread_text "kstnm" "station" 0%nat); [exact Hij|exact Hj|reflexivity..].
  - contradiction.
  - eapply (reread_text "knetwk" "network" 20%nat); [exact Hij|exact Hj|reflexivity..].
  - eapply (reread_text "khole" "location" 2%nat); [exact Hij|exact Hj|reflexivity..].
Qed.

Lemma reread_calib :
  calib_fix (header_of t) !! "calib" = calib_fix (header_of t0) !! "calib".
Proof.
  assert (Hg : GetHvalue t "scale"
               = match entries (stats tr) !! "calib" ≫= stored "scale" with
                 | Some v' => Ok v'
                 | None => Ok (VFloat f32_sentinel)
                 end).
  { rewrite Hv.
    rewrite (header_view_common tr _ _ "scale" "calib") by decide_by_computation.
    reflexivity. }
  rewrite He0 in Hg. rewrite !lookup_calib_fix in *.
  rewrite (lookup_header_of t "scale" "calib") by decide_by_computation.
  rewrite (lookup_header_of t0 "scale" "calib") in * by decide_by_computation.
  rewrite !conv_getv_scale in *. cbn [py_eq_num] in *.
  assert (Hh : hfloat t "scale"
               = if f32_eq_Z (hfloat t0 "scale") (-12345) then f32_one
                 else hfloat t0 "scale").
  { unfold hfloat at 1. rewrite Hg.
    destruct (f32_eq_Z (hfloat t0 "scale") (-12345)); reflexivity. }
  rewrite Hh.
  destruct (f32_eq_Z (hfloat t0 "scale") (-12345)) eqn:E.
  - destruct (f32_eq_Z f32_one (-12345)); reflexivity.
  - rewrite E. reflexivity.
Qed.

Lemma reread_entries : calib_fix (header_of t) = calib_fix (header_of t0).
Proof.
  apply map_eq. intros k.
  destruct (decide (k = "calib")) as [->|Hk]; [apply reread_calib|].
  rewrite !lookup_calib_fix_ne by exact Hk.
  destruct (decide (k ∈ map snd convert_dict)) as [Hin|Hnin].
  - apply list_elem_of_fmap in Hin as ([i j] & -> & Hij). cbn [snd] in *.
    rewrite (lookup_header_of t i j Hij), (lookup_header_of t0 i j Hij).
    f_equal. apply (reread_common i j Hij Hk).
  - rewrite !lookup_header_of_None by exact Hnin. reflexivity.
Qed.

Lemma reread_extras (x : string) :
  x ∉ ["nzyear"; "nzjday"; "nzhour"; "nzmin"; "nzsec"; "nzmsec"] ->
  extra_of t !! x = extra_of t0 !! x.
Proof.
  intros Hnz. rewrite !lookup_extra_of.
  destruct (bool_decide_reflect (x ∈ sac_extra)) as [Hx|]; [|reflexivity].
  f_equal. apply reread_extra; assumption.
Qed.
End Headers.

(** Reading, writing and reading again is stable.  A trace that was read
    from a file and is written out, alone or among others, reads back from
    its new file with the same samples, the same start time and the same
    common entries, and with the same extra fields apart from the six
    [nz*] fields, which come back as the fields of the reference time. *)
Theorem reread_stable `{FloatSeconds} (fs0 : filesystem) (filename0 : string)
    (tr : Trace) (stream : list Trace) (filename : string)
    (fs fs' : filesystem) (n : nat) :
  readSAC fs0 filename0 false = Ok [tr] ->
  writeSAC stream filename fs = Ok fs' ->
  stream !! n = Some tr ->
  exists tr' d d',
    readSAC fs' (sac_path filename n) false = Ok [tr']
    /\ data tr' = data tr
    /\ starttime (stats tr') = starttime (stats tr)
    /\ entries (stats tr') = entries (stats tr)
    /\ sac (stats tr) = Some d
    /\ sac (stats tr') = Some d'
    /\ forall x,
         x ∉ ["nzyear"; "nzjday"; "nzhour"; "nzmin"; "nzsec"; "nzmsec"] ->
         d' !! x = d !! x.
Proof.
  intros Hr0 Hw Hn.
  destruct (ReadSacFile fs0 filename0) as [t0|e] eqn:H0;
    [|unfold readSAC in Hr0; rewrite H0 in Hr0; discriminate Hr0].
  destruct (readSAC_trace fs0 filename0 false t0 tr H0 Hr0)
    as (Hst0 & He0 & Hd0 & Hdata0).
  destruct (ReadSacFile_wf fs0 filename0 t0 H0) as (Hwf0 & Hnpts0).
  assert (Hc : npts_consistent tr).
  { intros m Hm. rewrite He0, lookup_calib_fix_ne in Hm by discriminate.
    rewrite (lookup_header_of t0 "npts" "npts") in Hm by decide_by_computation.
    rewrite getv_npts in Hm. cbn [conv] in Hm. injection Hm as <-.
    rewrite Hdata0. exact Hnpts0. }
  destruct (written_reads_as stream filename fs fs' n tr Hw Hn Hc)
    as (t & wd & start & Hok & Hv & Hseis & Hst & Hread).
  destruct Hok as (_ & _ & Hstart & _).
  rewrite (write_start_of_read t0 tr Hd0 Hst0) in Hstart. injection Hstart as <-.
  rewrite sac_starttime_aligned in Hst.
  assert (Hiz : hint t "iztype" = hint t0 "iztype").
  { pose proof (reread_extra t0 t tr wd _ Hwf0 Hd0 Hv "iztype"
                  ltac:(decide_by_computation) ltac:(decide_by_computation)) as Hx.
    rewrite !getv_iztype in Hx. injection Hx as Hx. exact Hx. }
  assert (Hb : hfloat t "b" = hfloat t0 "b").
  { pose proof (reread_extra t0 t tr wd _ Hwf0 Hd0 Hv "b"
                  ltac:(decide_by_computation) ltac:(decide_by_computation)) as Hx.
    rewrite !getv_b in Hx. injection Hx as Hx. exact Hx. }
  assert (Hrs : read_starttime (sac_starttime t) (extra_of t)
                = Ok (starttime (stats tr))).
  { rewrite read_starttime_cases, Hst, Hiz, Hb, <- read_starttime_cases.
    exact Hst0. }
  rewrite Hrs in Hread. cbn [mbind result_bind] in Hread.
  eexists _, (extra_of t0), (extra_of t). split; [exact Hread|].
  cbn [data stats starttime entries sac].
  split; [rewrite Hseis; reflexivity|]. split; [reflexivity|].
  split; [rewrite He0; apply (reread_entries t0 t tr wd _ Hwf0 He0 Hv)|].
  split; [exact Hd0|]. split; [reflexivity|].
  intros x Hx. apply (reread_extras t0 t tr wd _ Hwf0 Hd0 Hv x Hx).
Qed.

Lemma isSAC_rejects_ragged_size_witness :
  isSAC (<["a.sac" := replicate 633 Byte.x00]> ∅) "a.sac" = Ok false.
Proof.
  apply (isSAC_rejects_ragged_size _ _ (replicate 633 Byte.x00)).
  - vm_compute. reflexivity.
  - vm_compute. discriminate.
Defined.

Lemma written_files_are_SAC_witness :
  isSAC (written [trace_begin; trace_origin] "run.sac") (sac_path "run.sac" 1)
  = Ok true.
Proof.
  apply (written_files_are_SAC [trace_begin; trace_origin] "run.sac" ∅ _ 1
           trace_origin).
  - vm_compute. reflexivity.
  - reflexivity.
  - vm_compute. reflexivity.
Defined.

Lemma stream_roundtrip_witness :
  exists tr',
    readSAC (written [trace_origin; trace_begin] "run.sac")
            (sac_path "run.sac" 1) false = Ok [tr']
    /\ data tr' = data trace_begin
    /\ starttime (stats tr') = trunc_ms (starttime (stats trace_begin)).
Proof.
  apply (stream_roundtrip [trace_origin; trace_begin] "run.sac" ∅).
  - vm_compute. reflexivity.
  - reflexivity.
  - left. vm_compute. reflexivity.
  - vm_compute. reflexivity.
Defined.

Lemma read_extras_verbatim_witness :
  exists d,
    sac (stats (read_trace (written [trace_begin] "run.sac") "run.sac" false))
    = Some d
    /\ (forall i, i ∈ sac_extra ->
          exists v,
            GetHvalue (parsed (written [trace_begin] "run.sac") "run.sac") i = Ok v
            /\ d !! i = Some v)
    /\ (forall i, i ∉ sac_extra -> d !! i = None).
Proof.
  apply (read_extras_verbatim (written [trace_begin] "run.sac") "run.sac" false).
  - vm_compute. reflexivity.
  - vm_compute. reflexivity.
Defined.

Lemma read_common_entries_witness :
  (forall k,
     is_Some (entries (stats (read_trace (written [trace_begin] "run.sac")
                                         "run.sac" true)) !! k)
     <-> k ∈ map snd convert_dict)
  /\ entries (stats (read_trace (written [trace_begin] "run.sac") "run.sac" true))
       !! "npts"
     = Some (VInt (hint (parsed_header (written [trace_begin] "run.sac") "run.sac")
                        "npts"))
  /\ entries (stats (read_trace (written [trace_begin] "run.sac") "run.sac" true))
       !! "delta"
     = Some (VFloat (hfloat (parsed_header (written [trace_begin] "run.sac")
                                           "run.sac") "delta")).
Proof.
  apply (read_common_entries (written [trace_begin] "run.sac") "run.sac" true).
  - vm_compute. reflexivity.
  - vm_compute. reflexivity.
Defined.

Lemma headonly_same_stats_witness :
  readSAC (written [trace_origin] "run.sac") "run.sac" true
  = (trs ← readSAC (written [trace_origin] "run.sac") "run.sac" false;
     Ok (map (fun tr => mkTrace (stats tr) []) trs)).
Proof.
  apply (headonly_same_stats (written [trace_origin] "run.sac") "run.sac"
           (parsed (written [trace_origin] "run.sac") "run.sac")
           (parsed_header (written [trace_origin] "run.sac") "run.sac")).
  - vm_compute. reflexivity.
  - vm_compute. reflexivity.
  - vm_compute. reflexivity.
  - vm_compute. reflexivity.
  - vm_compute. reflexivity.
Defined.

Lemma writeSAC_first_failure_witness :
  writeSAC ([trace_begin; trace_origin] ++ trace_no_delta :: [trace_begin])
           "run.sac" ∅
  = Err AttributeError.
Proof.
  apply (writeSAC_first_failure [trace_begin; trace_origin] [trace_begin]
           trace_no_delta "run.sac" ∅ AttributeError).
  - repeat constructor; eexists; vm_compute; reflexivity.
  - vm_compute. reflexivity.
Defined.

Lemma bad_offset_raises_witness :
  (forall t, overlay_extra trace_bad_offset t "b" = t)
  /\ writeSAC (trace_bad_offset :: [trace_begin]) "run.sac" ∅ = Err ValueError.
Proof.
  apply (bad_offset_raises trace_bad_offset [trace_begin] "run.sac" ∅
           (list_to_map [("iztype", VInt 11); ("b", VStr "late")]) (VInt 11)
           "late" f32_one).
  - reflexivity.
  - vm_compute. reflexivity.
  - reflexivity.
  - vm_compute. reflexivity.
  - reflexivity.
  - vm_compute. reflexivity.
  - vm_compute. reflexivity.
Defined.

Lemma origin_without_offset_witness :
  write_start trace_origin_no_b = Ok (starttime (stats trace_origin_no_b))
  /\ exists fs',
       writeSAC [trace_origin_no_b] "run.sac" ∅ = Ok fs'
       /\ exists tr',
            readSAC fs' "run.sac" false = Ok [tr']
            /\ starttime (stats tr')
               = trunc_ms (starttime (stats trace_origin_no_b))
                 + float_us f32_zero.
Proof.
  apply (origin_without_offset trace_origin_no_b "run.sac" ∅
           (list_to_map [("iztype", VInt 11)]) f32_one).
  - reflexivity.
  - vm_compute. reflexivity.
  - vm_compute. reflexivity.
  - vm_compute. reflexivity.
  - vm_compute. reflexivity.
  - vm_compute. split; discriminate.
  - vm_compute. reflexivity.
Defined.




Lemma text_entries_roundtrip_witness :
  entries (stats (read_trace (written [trace_begin] "run.sac") "run.sac" false))
    !! "station"
  = Some (VStr (if String.eqb (strip "STA") "-12345" then "" else strip "STA")).
Proof.
  apply (text_entries_roundtrip [trace_begin] "run.sac" ∅
           (written [trace_begin] "run.sac") 0 trace_begin _ "kstnm").
  - vm_compute. reflexivity.
  - reflexivity.
  - intros n Hn. vm_compute in Hn. injection Hn as <-. reflexivity.
  - vm_compute. reflexivity.
  - apply (bool_decide_unpack _). vm_compute. reflexivity.
  - vm_compute. reflexivity.
  - vm_compute. lia.
Defined.

Lemma count_and_calibration_roundtrip_witness :
  entries (stats (read_trace (written [trace_begin] "run.sac") "run.sac" false))
    !! "npts"
  = Some (VInt (Z.of_nat (length (data trace_begin))))
  /\ (entries (stats trace_begin) !! "calib" = Some (VFloat f32_sentinel) ->
      entries (stats (read_trace (written [trace_begin] "run.sac") "run.sac"
                                 false)) !! "calib"
      = Some (VFloat f32_one))
  /\ (entries (stats trace_begin) !! "calib" = None ->
      entries (stats (read_trace (written [trace_begin] "run.sac") "run.sac"
                                 false)) !! "calib"
      = Some (VFloat f32_one)).
Proof.
  apply (count_and_calibration_roundtrip [trace_begin] "run.sac" ∅
           (written [trace_begin] "run.sac") 0 trace_begin).
  - vm_compute. reflexivity.
  - reflexivity.
  - vm_compute. reflexivity.
  - vm_compute. reflexivity.
Defined.

Lemma extras_roundtrip_witness :
  exists d' v',
    sac (stats (read_trace (written [trace_stale_nz] "run.sac") "run.sac" false))
    = Some d'
    /\ GetHvalue header_with_stla "stla" = Ok v'
    /\ d' !! "stla" = Some v'.
Proof.
  apply (extras_roundtrip [trace_stale_nz] "run.sac" ∅
           (written [trace_stale_nz] "run.sac") 0 trace_stale_nz _ "stla"
           (VFloat f32_2_5)).
  - vm_compute. reflexivity.
  - reflexivity.
  - intros n Hn. vm_compute in Hn. injection Hn as <-. reflexivity.
  - vm_compute. reflexivity.
  - apply (bool_decide_unpack _). vm_compute. reflexivity.
  - apply (bool_decide_unpack _). vm_compute. reflexivity.
  - vm_compute. reflexivity.
  - vm_compute. reflexivity.
Defined.

Lemma reread_stable_witness :
  exists tr' d d',
    readSAC rewritten (sac_path "copy.sac" 0) false = Ok [tr']
    /\ data tr'
       = data (read_trace (written [trace_origin] "run.sac") "run.sac" false)
    /\ starttime (stats tr')
       = starttime
           (stats (read_trace (written [trace_origin] "run.sac") "run.sac" false))
    /\ entries (stats tr')
       = entries
           (stats (read_trace (written [trace_origin] "run.sac") "run.sac" false))
    /\ sac (stats (read_trace (written [trace_origin] "run.sac") "run.sac" false))
       = Some d
    /\ sac (stats tr') = Some d'
    /\ forall x,
         x ∉ ["nzyear"; "nzjday"; "nzhour"; "nzmin"; "nzsec"; "nzmsec"] ->
         d' !! x = d !! x.
Proof.
  apply (reread_stable (written [trace_origin] "run.sac") "run.sac"
           (read_trace (written [trace_origin] "run.sac") "run.sac" false)
           [read_trace (written [trace_origin] "run.sac") "run.sac" false]
           "copy.sac" ∅ rewritten 0).
  - vm_compute. reflexivity.
  - vm_compute. reflexivity.
  - reflexivity.
Defined.
